(** * Shellscribe: the documentation extraction engine

    A shallow embedding of the parser of Shellscribe (the C files of
    src/parsers and src/utils/string.c), and the properties of its line
    classifier, tag grammars, continuation collector and docblock
    aggregator.

    Conventions of the embedding.
    - A C string ([const char *]) is a [string]; the terminating NUL is the
      end of the string, so no character of a modelled string is NUL.
    - A [char *] field that may be [NULL] is an [option string].
    - A pointer into a string obtained from [strchr]/[strstr] is the offset
      ([nat]) of the character it points to.
    - An array with its element count is a [list]; [realloc]-and-append is
      [l ++ [x]].
    - Allocation never fails ([malloc], [realloc], [strdup] succeed).
    - [debug_message] only prints and is left out.
    - A [FILE *] opened for reading is the list of the lines [fgets] will
      still return (each with its newline when it has one): every reader of
      the parser uses the same buffer size and positions are only taken at
      line starts, so [ftell]/[fseek] save and restore that list. *)

From Stdlib Require Import String Ascii List Bool Arith ZArith Lia.
From stdpp Require Import base list.
Import ListNotations.
Open Scope string_scope.

(** ** C library primitives on strings *)

Module CStr.

(** [isspace] in the C locale: space, \t, \n, \v, \f, \r. *)
Definition isspace (c : ascii) : bool :=
  let n := nat_of_ascii c in
  ((n =? 32) || ((9 <=? n) && (n <=? 13)))%nat.

(** [isalnum] in the C locale. *)
Definition isalnum (c : ascii) : bool :=
  let n := nat_of_ascii c in
  (((48 <=? n) && (n <=? 57)) || ((65 <=? n) && (n <=? 90))
   || ((97 <=? n) && (n <=? 122)))%nat.

Definition tolower (c : ascii) : ascii :=
  let n := nat_of_ascii c in
  if ((65 <=? n) && (n <=? 90))%nat then ascii_of_nat (n + 32) else c.

(** The newline character and the one-character strings used below. *)
Definition nl : ascii := "010"%char.
Definition LF : string := String nl EmptyString.

(** The loop that advances a pointer over leading whitespace. *)
Fixpoint skip_spaces (s : string) : string :=
  match s with
  | String c s' => if isspace c then skip_spaces s' else s
  | EmptyString => EmptyString
  end.

(** Number of leading characters that are not whitespace: the distance
    covered by the loop that advances a pointer to the next whitespace
    character or to the terminator. *)
Fixpoint token_len (s : string) : nat :=
  match s with
  | String c s' => if isspace c then 0 else S (token_len s')
  | EmptyString => 0
  end.

(** Pointer arithmetic [s + n] (never past the terminator). *)
Fixpoint advance (n : nat) (s : string) : string :=
  match n, s with
  | S n', String _ s' => advance n' s'
  | _, _ => s
  end.

(** [strndup(s, n)], also written [malloc(n + 1); strncpy(dst, s, n);
    dst[n] = 0] in the sources: the first [n] characters of [s]. *)
Fixpoint strndup (s : string) (n : nat) : string :=
  match n, s with
  | S n', String c s' => String c (strndup s' n')
  | _, _ => EmptyString
  end.

(** [strchr(s, c)] for [c <> 0]: offset of the first [c], if any. *)
Fixpoint strchr (s : string) (c : ascii) : option nat :=
  match s with
  | EmptyString => None
  | String a s' =>
      if Ascii.eqb a c then Some 0 else option_map S (strchr s' c)
  end.

(** [strncmp(s, p, strlen(p)) == 0] *)
Fixpoint starts_with (p s : string) : bool :=
  match p, s with
  | EmptyString, _ => true
  | String a p', String b s' => Ascii.eqb a b && starts_with p' s'
  | String _ _, EmptyString => false
  end.

(** [strncasecmp(s, p, strlen(p)) == 0] *)
Fixpoint starts_with_nocase (p s : string) : bool :=
  match p, s with
  | EmptyString, _ => true
  | String a p', String b s' =>
      Ascii.eqb (tolower a) (tolower b) && starts_with_nocase p' s'
  | String _ _, EmptyString => false
  end.

(** [strstr(s, p)]: offset of the first occurrence of [p], if any. *)
Fixpoint strstr (s p : string) : option nat :=
  if starts_with p s then Some 0
  else match s with
       | EmptyString => None
       | String _ s' => option_map S (strstr s' p)
       end.

(** Length of the string once trailing whitespace is cut: the loop that
    moves an end pointer back over whitespace, down to the start. *)
Fixpoint rtrim_len (s : string) : nat :=
  match s with
  | EmptyString => 0
  | String c s' =>
      match rtrim_len s' with
      | 0 => if isspace c then 0 else 1
      | S k => S (S k)
      end
  end.

(** Removal of the newline [fgets] leaves at the end of a line:
    [if (len > 0 && line[len - 1] == '\n') line[len - 1] = 0;] *)
Fixpoint chomp (s : string) : string :=
  match s with
  | EmptyString => EmptyString
  | String c EmptyString => if Ascii.eqb c nl then EmptyString else s
  | String c s' => String c (chomp s')
  end.

(** Character at an offset; the terminator past the end. *)
Definition char_at (n : nat) (s : string) : ascii :=
  match String.get n s with
  | Some c => c
  | None => zero
  end.

Definition all_chars (p : ascii -> bool) (s : string) : bool :=
  forallb p (list_ascii_of_string s).

(** [fgets] with a buffer of [size] bytes: at most [size - 1] bytes are
    taken from the file, ending after the first newline.
    [read_line room data] is the line and what follows it in the file.
    The line is the C string the buffer then holds, which is all that
    [strlen], [strncmp], [strchr], [strstr] and [strdup] see of it: the
    bytes taken, up to the first NUL byte among them.  The bytes after a
    NUL byte are consumed from the file and belong to no line. *)
Fixpoint read_line (room : nat) (data : string) : string * string :=
  match room, data with
  | S r, String c rest =>
      if Ascii.eqb c nl then (String c EmptyString, rest)
      else
        let (l, rest') := read_line r rest in
        (if Ascii.eqb c zero then EmptyString else String c l, rest')
  | _, _ => (EmptyString, data)
  end.

(** All the lines successive [fgets] calls return on [data], each as the
    C string in the buffer; [fuel] bounds their number and
    [String.length data] always suffices. *)
Fixpoint read_lines (fuel : nat) (size : nat) (data : string) : list string :=
  match fuel, data with
  | S f, String _ _ =>
      let (l, rest) := read_line (size - 1) data in
      l :: read_lines f size rest
  | _, _ => []
  end.

End CStr.
Import CStr.

(** ** The data model (include/parsers/types.h) *)

Record shellscribe_argument_t : Type := mk_argument
  { arg_name : option string;
    arg_type : option string;
    arg_description : option string }.

Record shellscribe_exitcode_t : Type := mk_exitcode
  { exit_code : option string;
    exit_description : option string }.

Record shellscribe_option_t : Type := mk_option
  { short_opt : option string;
    long_opt : option string;
    arg_spec : option string;
    opt_description : option string }.

Record shellscribe_env_var_t : Type := mk_env_var
  { env_name : option string;
    env_default_value : option string;
    env_description : option string }.

Record shellscribe_param_t : Type := mk_param
  { param_name : option string;
    param_description : option string }.

Record shellscribe_return_t : Type := mk_return
  { return_value : option string;
    return_description : option string }.

Record shellscribe_see_also_t : Type := mk_see_also
  { see_name : option string;
    see_url : option string;
    see_is_internal : bool }.

Record shellscribe_global_var_t : Type := mk_global_var
  { var_name : option string;
    var_type : option string;
    var_default_value : option string;
    var_description : option string;
    var_is_readonly : bool }.

Record shellscribe_alert_t : Type := mk_alert
  { alert_type : option string;
    alert_content : option string }.

Record shellscribe_deprecation_t : Type := mk_deprecation
  { is_deprecated : bool;
    dep_version : option string;
    replacement : option string;
    eol : option string }.

Record shellscribe_section_t : Type := mk_section
  { section_name : option string;
    section_description : option string }.

Record shellscribe_shellcheck_t : Type := mk_shellcheck
  { sc_code : option string;
    sc_directive : option string;
    sc_reason : option string }.

(** One documentation block.  The fields are those of the C structure, in
    its order; each array stands for the pointer and its count.  There is
    no field for the [since] tag. *)
Record shellscribe_docblock_t : Type := mk_docblock
  { file_name : option string;
    brief : option string;
    description : option string;
    version : option string;
    author : option string;
    author_contact : option string;
    project : option string;
    license : option string;
    copyright : option string;
    interpreter : option string;
    function_name : option string;
    function_description : option string;
    function_brief : option string;
    alias : option string;
    return_desc : option string;
    section : option shellscribe_section_t;
    arguments : list shellscribe_argument_t;
    no_args : bool;
    params : list shellscribe_param_t;
    returns : list shellscribe_return_t;
    stdin_doc : option string;
    stdout_doc : option string;
    stderr_doc : option string;
    exitcodes : list shellscribe_exitcode_t;
    options : list shellscribe_option_t;
    env_vars : list shellscribe_env_var_t;
    example : option string;
    see_also : list shellscribe_see_also_t;
    is_internal : bool;
    is_skipped : bool;
    deprecation : shellscribe_deprecation_t;
    alerts : list shellscribe_alert_t;
    warnings : list string;
    dependencies : list string;
    internal_calls : list string;
    requires : list string;
    used_by : list string;
    calls : list string;
    provides : list string;
    set_vars : list shellscribe_global_var_t;
    shellcheck_directives : list shellscribe_shellcheck_t }.

(** [init_docblock]: every pointer [NULL], every counter 0, every flag
    false. *)
Definition init_docblock : shellscribe_docblock_t :=
  {| file_name := None; brief := None; description := None;
     version := None; author := None; author_contact := None;
     project := None; license := None; copyright := None;
     interpreter := None; function_name := None;
     function_description := None; function_brief := None;
     alias := None; return_desc := None; section := None;
     arguments := []; no_args := false; params := []; returns := [];
     stdin_doc := None; stdout_doc := None; stderr_doc := None;
     exitcodes := []; options := []; env_vars := []; example := None;
     see_also := []; is_internal := false; is_skipped := false;
     deprecation :=
       {| is_deprecated := false; dep_version := None;
          replacement := None; eol := None |};
     alerts := []; warnings := []; dependencies := [];
     internal_calls := []; requires := []; used_by := []; calls := [];
     provides := []; set_vars := []; shellcheck_directives := [] |}.

(** *** Assignments to one field of a docblock

    [set_f v d] is the docblock after [d->f = v]. *)

Module Upd.
Definition set_file_name
  (v : option string) (d : shellscribe_docblock_t)
  : shellscribe_docblock_t :=
  {| file_name := v; brief := brief d; description := description d;
     version := version d; author := author d;
     author_contact := author_contact d; project := project d;
     license := license d; copyright := copyright d;
     interpreter := interpreter d; function_name := function_name d;
     function_description := function_description d;
     function_brief := function_brief d; alias := alias d;
     return_desc := return_desc d; section := section d;
     arguments := arguments d; no_args := no_args d; params := params d;
     returns := returns d; stdin_doc := stdin_doc d;
     stdout_doc := stdout_doc d; stderr_doc := stderr_doc d;
     exitcodes := exitcodes d; options := options d; env_vars := env_vars d;
     example := example d; see_also := see_also d;
     is_internal := is_internal d; is_skipped := is_skipped d;
     deprecation := deprecation d; alerts := alerts d;
     warnings := warnings d; dependencies := dependencies d;
     internal_calls := internal_calls d; requires := requires d;
     used_by := used_by d; calls := calls d; provides := provides d;
     set_vars := set_vars d;
     shellcheck_directives := shellcheck_directives d |}.

Definition set_brief
  (v : option string) (d : shellscribe_docblock_t)
  : shellscribe_docblock_t :=
  {| file_name := file_name d; brief := v; description := description d;
     version := version d; author := author d;
     author_contact := author_contact d; project := project d;
     license := license d; copyright := copyright d;
     interpreter := interpreter d; function_name := function_name d;
     function_description := function_description d;
     function_brief := function_brief d; alias := alias d;
     return_desc := return_desc d; section := section d;
     arguments := arguments d; no_args := no_args d; params := params d;
     returns := returns d; stdin_doc := stdin_doc d;
     stdout_doc := stdout_doc d; stderr_doc := stderr_doc d;
     exitcodes := exitcodes d; options := options d; env_vars := env_vars d;
     example := example d; see_also := see_also d;
     is_internal := is_internal d; is_skipped := is_skipped d;
     deprecation := deprecation d; alerts := alerts d;
     warnings := warnings d; dependencies := dependencies d;
     internal_calls := internal_calls d; requires := requires d;
     used_by := used_by d; calls := calls d; provides := provides d;
     set_vars := set_vars d;
     shellcheck_directives := shellcheck_directives d |}.

Definition set_description
  (v : option string) (d : shellscribe_docblock_t)
  : shellscribe_docblock_t :=
  {| file_name := file_name d; brief := brief d; description := v;
     version := version d; author := author d;
     author_contact := author_contact d; project := project d;
     license := license d; copyright := copyright d;
     interpreter := interpreter d; function_name := function_name d;
     function_description := function_description d;
     function_brief := function_brief d; alias := alias d;
     return_desc := return_desc d; section := section d;
     arguments := arguments d; no_args := no_args d; params := params d;
     returns := returns d; stdin_doc := stdin_doc d;
     stdout_doc := stdout_doc d; stderr_doc := stderr_doc d;
     exitcodes := exitcodes d; options := options d; env_vars := env_vars d;
     example := example d; see_also := see_also d;
     is_internal := is_internal d; is_skipped := is_skipped d;
     deprecation := deprecation d; alerts := alerts d;
     warnings := warnings d; dependencies := dependencies d;
     internal_calls := internal_calls d; requires := requires d;
     used_by := used_by d; calls := calls d; provides := provides d;
     set_vars := set_vars d;
     shellcheck_directives := shellcheck_directives d |}.

Definition set_version
  (v : option string) (d : shellscribe_docblock_t)
  : shellscribe_docblock_t :=
  {| file_name := file_name d; brief := brief d;
     description := description d; version := v; author := author d;
     author_contact := author_contact d; project := project d;
     license := license d; copyright := copyright d;
     interpreter := interpreter d; function_name := function_name d;
     function_description := function_description d;
     function_brief := function_brief d; alias := alias d;
     return_desc := return_desc d; section := section d;
     arguments := arguments d; no_args := no_args d; params := params d;
     returns := returns d; stdin_doc := stdin_doc d;
     stdout_doc := stdout_doc d; stderr_doc := stderr_doc d;
     exitcodes := exitcodes d; options := options d; env_vars := env_vars d;
     example := example d; see_also := see_also d;
     is_internal := is_internal d; is_skipped := is_skipped d;
     deprecation := deprecation d; alerts := alerts d;
     warnings := warnings d; dependencies := dependencies d;
     internal_calls := internal_calls d; requires := requires d;
     used_by := used_by d; calls := calls d; provides := provides d;
     set_vars := set_vars d;
     shellcheck_directives := shellcheck_directives d |}.

Definition set_author
  (v : option string) (d : shellscribe_docblock_t)
  : shellscribe_docblock_t :=
  {| file_name := file_name d; brief := brief d;
     description := description d; version := version d; author := v;
     author_contact := author_contact d; project := project d;
     license := license d; copyright := copyright d;
     interpreter := interpreter d; function_name := function_name d;
     function_description := function_description d;
     function_brief := function_brief d; alias := alias d;
     return_desc := return_desc d; section := section d;
     arguments := arguments d; no_args := no_args d; params := params d;
     returns := returns d; stdin_doc := stdin_doc d;
     stdout_doc := stdout_doc d; stderr_doc := stderr_doc d;
     exitcodes := exitcodes d; options := options d; env_vars := env_vars d;
     example := example d; see_also := see_also d;
     is_internal := is_internal d; is_skipped := is_skipped d;
     deprecation := deprecation d; alerts := alerts d;
     warnings := warnings d; dependencies := dependencies d;
     internal_calls := internal_calls d; requires := requires d;
     used_by := used_by d; calls := calls d; provides := provides d;
     set_vars := set_vars d;
     shellcheck_directives := shellcheck_directives d |}.

Definition set_author_contact
  (v : option string) (d : shellscribe_docblock_t)
  : shellscribe_docblock_t :=
  {| file_name := file_name d; brief := brief d;
     description := description d; version := version d; author := author d;
     author_contact := v; project := project d; license := license d;
     copyright := copyright d; interpreter := interpreter d;
     function_name := function_name d;
     function_description := function_description d;
     function_brief := function_brief d; alias := alias d;
     return_desc := return_desc d; section := section d;
     arguments := arguments d; no_args := no_args d; params := params d;
     returns := returns d; stdin_doc := stdin_doc d;
     stdout_doc := stdout_doc d; stderr_doc := stderr_doc d;
     exitcodes := exitcodes d; options := options d; env_vars := env_vars d;
     example := example d; see_also := see_also d;
     is_internal := is_internal d; is_skipped := is_skipped d;
     deprecation := deprecation d; alerts := alerts d;
     warnings := warnings d; dependencies := dependencies d;
     internal_calls := internal_calls d; requires := requires d;
     used_by := used_by d; calls := calls d; provides := provides d;
     set_vars := set_vars d;
     shellcheck_directives := shellcheck_directives d |}.

Definition set_license
  (v : option string) (d : shellscribe_docblock_t)
  : shellscribe_docblock_t :=
  {| file_name := file_name d; brief := brief d;
     description := description d; version := version d; author := author d;
     author_contact := author_contact d; project := project d; license := v;
     copyright := copyright d; interpreter := interpreter d;
     function_name := function_name d;
     function_description := function_description d;
     function_brief := function_brief d; alias := alias d;
     return_desc := return_desc d; section := section d;
     arguments := arguments d; no_args := no_args d; params := params d;
     returns := returns d; stdin_doc := stdin_doc d;
     stdout_doc := stdout_doc d; stderr_doc := stderr_doc d;
     exitcodes := exitcodes d; options := options d; env_vars := env_vars d;
     example := example d; see_also := see_also d;
     is_internal := is_internal d; is_skipped := is_skipped d;
     deprecation := deprecation d; alerts := alerts d;
     warnings := warnings d; dependencies := dependencies d;
     internal_calls := internal_calls d; requires := requires d;
     used_by := used_by d; calls := calls d; provides := provides d;
     set_vars := set_vars d;
     shellcheck_directives := shellcheck_directives d |}.

Definition set_copyright
  (v : option string) (d : shellscribe_docblock_t)
  : shellscribe_docblock_t :=
  {| file_name := file_name d; brief := brief d;
     description := description d; version := version d; author := author d;
     author_contact := author_contact d; project := project d;
     license := license d; copyright := v; interpreter := interpreter d;
     function_name := function_name d;
     function_description := function_description d;
     function_brief := function_brief d; alias := alias d;
     return_desc := return_desc d; section := section d;
     arguments := arguments d; no_args := no_args d; params := params d;
     returns := returns d; stdin_doc := stdin_doc d;
     stdout_doc := stdout_doc d; stderr_doc := stderr_doc d;
     exitcodes := exitcodes d; options := options d; env_vars := env_vars d;
     example := example d; see_also := see_also d;
     is_internal := is_internal d; is_skipped := is_skipped d;
     deprecation := deprecation d; alerts := alerts d;
     warnings := warnings d; dependencies := dependencies d;
     internal_calls := internal_calls d; requires := requires d;
     used_by := used_by d; calls := calls d; provides := provides d;
     set_vars := set_vars d;
     shellcheck_directives := shellcheck_directives d |}.

Definition set_interpreter
  (v : option string) (d : shellscribe_docblock_t)
  : shellscribe_docblock_t :=
  {| file_name := file_name d; brief := brief d;
     description := description d; version := version d; author := author d;
     author_contact := author_contact d; project := project d;
     license := license d; copyright := copyright d; interpreter := v;
     function_name := function_name d;
     function_description := function_description d;
     function_brief := function_brief d; alias := alias d;
     return_desc := return_desc d; section := section d;
     arguments := arguments d; no_args := no_args d; params := params d;
     returns := returns d; stdin_doc := stdin_doc d;
     stdout_doc := stdout_doc d; stderr_doc := stderr_doc d;
     exitcodes := exitcodes d; options := options d; env_vars := env_vars d;
     example := example d; see_also := see_also d;
     is_internal := is_internal d; is_skipped := is_skipped d;
     deprecation := deprecation d; alerts := alerts d;
     warnings := warnings d; dependencies := dependencies d;
     internal_calls := internal_calls d; requires := requires d;
     used_by := used_by d; calls := calls d; provides := provides d;
     set_vars := set_vars d;
     shellcheck_directives := shellcheck_directives d |}.

Definition set_function_name
  (v : option string) (d : shellscribe_docblock_t)
  : shellscribe_docblock_t :=
  {| file_name := file_name d; brief := brief d;
     description := description d; version := version d; author := author d;
     author_contact := author_contact d; project := project d;
     license := license d; copyright := copyright d;
     interpreter := interpreter d; function_name := v;
     function_description := function_description d;
     function_brief := function_brief d; alias := alias d;
     return_desc := return_desc d; section := section d;
     arguments := arguments d; no_args := no_args d; params := params d;
     returns := returns d; stdin_doc := stdin_doc d;
     stdout_doc := stdout_doc d; stderr_doc := stderr_doc d;
     exitcodes := exitcodes d; options := options d; env_vars := env_vars d;
     example := example d; see_also := see_also d;
     is_internal := is_internal d; is_skipped := is_skipped d;
     deprecation := deprecation d; alerts := alerts d;
     warnings := warnings d; dependencies := dependencies d;
     internal_calls := internal_calls d; requires := requires d;
     used_by := used_by d; calls := calls d; provides := provides d;
     set_vars := set_vars d;
     shellcheck_directives := shellcheck_directives d |}.

Definition set_function_description
  (v : option string) (d : shellscribe_docblock_t)
  : shellscribe_docblock_t :=
  {| file_name := file_name d; brief := brief d;
     description := description d; version := version d; author := author d;
     author_contact := author_contact d; project := project d;
     license := license d; copyright := copyright d;
     interpreter := interpreter d; function_name := function_name d;
     function_description := v; function_brief := function_brief d;
     alias := alias d; return_desc := return_desc d; section := section d;
     arguments := arguments d; no_args := no_args d; params := params d;
     returns := returns d; stdin_doc := stdin_doc d;
     stdout_doc := stdout_doc d; stderr_doc := stderr_doc d;
     exitcodes := exitcodes d; options := options d; env_vars := env_vars d;
     example := example d; see_also := see_also d;
     is_internal := is_internal d; is_skipped := is_skipped d;
     deprecation := deprecation d; alerts := alerts d;
     warnings := warnings d; dependencies := dependencies d;
     internal_calls := internal_calls d; requires := requires d;
     used_by := used_by d; calls := calls d; provides := provides d;
     set_vars := set_vars d;
     shellcheck_directives := shellcheck_directives d |}.

Definition set_function_brief
  (v : option string) (d : shellscribe_docblock_t)
  : shellscribe_docblock_t :=
  {| file_name := file_name d; brief := brief d;
     description := description d; version := version d; author := author d;
     author_contact := author_contact d; project := project d;
     license := license d; copyright := copyright d;
     interpreter := interpreter d; function_name := function_name d;
     function_description := function_description d; function_brief := v;
     alias := alias d; return_desc := return_desc d; section := section d;
     arguments := arguments d; no_args := no_args d; params := params d;
     returns := returns d; stdin_doc := stdin_doc d;
     stdout_doc := stdout_doc d; stderr_doc := stderr_doc d;
     exitcodes := exitcodes d; options := options d; env_vars := env_vars d;
     example := example d; see_also := see_also d;
     is_internal := is_internal d; is_skipped := is_skipped d;
     deprecation := deprecation d; alerts := alerts d;
     warnings := warnings d; dependencies := dependencies d;
     internal_calls := internal_calls d; requires := requires d;
     used_by := used_by d; calls := calls d; provides := provides d;
     set_vars := set_vars d;
     shellcheck_directives := shellcheck_directives d |}.

Definition set_return_desc
  (v : option string) (d : shellscribe_docblock_t)
  : shellscribe_docblock_t :=
  {| file_name := file_name d; brief := brief d;
     description := description d; version := version d; author := author d;
     author_contact := author_contact d; project := project d;
     license := license d; copyright := copyright d;
     interpreter := interpreter d; function_name := function_name d;
     function_description := function_description d;
     function_brief := function_brief d; alias := alias d; return_desc := v;
     section := section d; arguments := arguments d; no_args := no_args d;
     params := params d; returns := returns d; stdin_doc := stdin_doc d;
     stdout_doc := stdout_doc d; stderr_doc := stderr_doc d;
     exitcodes := exitcodes d; options := options d; env_vars := env_vars d;
     example := example d; see_also := see_also d;
     is_internal := is_internal d; is_skipped := is_skipped d;
     deprecation := deprecation d; alerts := alerts d;
     warnings := warnings d; dependencies := dependencies d;
     internal_calls := internal_calls d; requires := requires d;
     used_by := used_by d; calls := calls d; provides := provides d;
     set_vars := set_vars d;
     shellcheck_directives := shellcheck_directives d |}.

Definition set_arguments
  (v : list shellscribe_argument_t) (d : shellscribe_docblock_t)
  : shellscribe_docblock_t :=
  {| file_name := file_name d; brief := brief d;
     description := description d; version := version d; author := author d;
     author_contact := author_contact d; project := project d;
     license := license d; copyright := copyright d;
     interpreter := interpreter d; function_name := function_name d;
     function_description := function_description d;
     function_brief := function_brief d; alias := alias d;
     return_desc := return_desc d; section := section d; arguments := v;
     no_args := no_args d; params := params d; returns := returns d;
     stdin_doc := stdin_doc d; stdout_doc := stdout_doc d;
     stderr_doc := stderr_doc d; exitcodes := exitcodes d;
     options := options d; env_vars := env_vars d; example := example d;
     see_also := see_also d; is_internal := is_internal d;
     is_skipped := is_skipped d; deprecation := deprecation d;
     alerts := alerts d; warnings := warnings d;
     dependencies := dependencies d; internal_calls := internal_calls d;
     requires := requires d; used_by := used_by d; calls := calls d;
     provides := provides d; set_vars := set_vars d;
     shellcheck_directives := shellcheck_directives d |}.

Definition set_params
  (v : list shellscribe_param_t) (d : shellscribe_docblock_t)
  : shellscribe_docblock_t :=
  {| file_name := file_name d; brief := brief d;
     description := description d; version := version d; author := author d;
     author_contact := author_contact d; project := project d;
     license := license d; copyright := copyright d;
     interpreter := interpreter d; function_name := function_name d;
     function_description := function_description d;
     function_brief := function_brief d; alias := alias d;
     return_desc := return_desc d; section := section d;
     arguments := arguments d; no_args := no_args d; params := v;
     returns := returns d; stdin_doc := stdin_doc d;
     stdout_doc := stdout_doc d; stderr_doc := stderr_doc d;
     exitcodes := exitcodes d; options := options d; env_vars := env_vars d;
     example := example d; see_also := see_also d;
     is_internal := is_internal d; is_skipped := is_skipped d;
     deprecation := deprecation d; alerts := alerts d;
     warnings := warnings d; dependencies := dependencies d;
     internal_calls := internal_calls d; requires := requires d;
     used_by := used_by d; calls := calls d; provides := provides d;
     set_vars := set_vars d;
     shellcheck_directives := shellcheck_directives d |}.

Definition set_stdin_doc
  (v : option string) (d : shellscribe_docblock_t)
  : shellscribe_docblock_t :=
  {| file_name := file_name d; brief := brief d;
     description := description d; version := version d; author := author d;
     author_contact := author_contact d; project := project d;
     license := license d; copyright := copyright d;
     interpreter := interpreter d; function_name := function_name d;
     function_description := function_description d;
     function_brief := function_brief d; alias := alias d;
     return_desc := return_desc d; section := section d;
     arguments := arguments d; no_args := no_args d; params := params d;
     returns := returns d; stdin_doc := v; stdout_doc := stdout_doc d;
     stderr_doc := stderr_doc d; exitcodes := exitcodes d;
     options := options d; env_vars := env_vars d; example := example d;
     see_also := see_also d; is_internal := is_internal d;
     is_skipped := is_skipped d; deprecation := deprecation d;
     alerts := alerts d; warnings := warnings d;
     dependencies := dependencies d; internal_calls := internal_calls d;
     requires := requires d; used_by := used_by d; calls := calls d;
     provides := provides d; set_vars := set_vars d;
     shellcheck_directives := shellcheck_directives d |}.

Definition set_stdout_doc
  (v : option string) (d : shellscribe_docblock_t)
  : shellscribe_docblock_t :=
  {| file_name := file_name d; brief := brief d;
     description := description d; version := version d; author := author d;
     author_contact := author_contact d; project := project d;
     license := license d; copyright := copyright d;
     interpreter := interpreter d; function_name := function_name d;
     function_description := function_description d;
     function_brief := function_brief d; alias := alias d;
     return_desc := return_desc d; section := section d;
     arguments := arguments d; no_args := no_args d; params := params d;
     returns := returns d; stdin_doc := stdin_doc d; stdout_doc := v;
     stderr_doc := stderr_doc d; exitcodes := exitcodes d;
     options := options d; env_vars := env_vars d; example := example d;
     see_also := see_also d; is_internal := is_internal d;
     is_skipped := is_skipped d; deprecation := deprecation d;
     alerts := alerts d; warnings := warnings d;
     dependencies := dependencies d; internal_calls := internal_calls d;
     requires := requires d; used_by := used_by d; calls := calls d;
     provides := provides d; set_vars := set_vars d;
     shellcheck_directives := shellcheck_directives d |}.

Definition set_stderr_doc
  (v : option string) (d : shellscribe_docblock_t)
  : shellscribe_docblock_t :=
  {| file_name := file_name d; brief := brief d;
     description := description d; version := version d; author := author d;
     author_contact := author_contact d; project := project d;
     license := license d; copyright := copyright d;
     interpreter := interpreter d; function_name := function_name d;
     function_description := function_description d;
     function_brief := function_brief d; alias := alias d;
     return_desc := return_desc d; section := section d;
     arguments := arguments d; no_args := no_args d; params := params d;
     returns := returns d; stdin_doc := stdin_doc d;
     stdout_doc := stdout_doc d; stderr_doc := v; exitcodes := exitcodes d;
     options := options d; env_vars := env_vars d; example := example d;
     see_also := see_also d; is_internal := is_internal d;
     is_skipped := is_skipped d; deprecation := deprecation d;
     alerts := alerts d; warnings := warnings d;
     dependencies := dependencies d; internal_calls := internal_calls d;
     requires := requires d; used_by := used_by d; calls := calls d;
     provides := provides d; set_vars := set_vars d;
     shellcheck_directives := shellcheck_directives d |}.

Definition set_exitcodes
  (v : list shellscribe_exitcode_t) (d : shellscribe_docblock_t)
  : shellscribe_docblock_t :=
  {| file_name := file_name d; brief := brief d;
     description := description d; version := version d; author := author d;
     author_contact := author_contact d; project := project d;
     license := license d; copyright := copyright d;
     interpreter := interpreter d; function_name := function_name d;
     function_description := function_description d;
     function_brief := function_brief d; alias := alias d;
     return_desc := return_desc d; section := section d;
     arguments := arguments d; no_args := no_args d; params := params d;
     returns := returns d; stdin_doc := stdin_doc d;
     stdout_doc := stdout_doc d; stderr_doc := stderr_doc d; exitcodes := v;
     options := options d; env_vars := env_vars d; example := example d;
     see_also := see_also d; is_internal := is_internal d;
     is_skipped := is_skipped d; deprecation := deprecation d;
     alerts := alerts d; warnings := warnings d;
     dependencies := dependencies d; internal_calls := internal_calls d;
     requires := requires d; used_by := used_by d; calls := calls d;
     provides := provides d; set_vars := set_vars d;
     shellcheck_directives := shellcheck_directives d |}.

Definition set_example
  (v : option string) (d : shellscribe_docblock_t)
  : shellscribe_docblock_t :=
  {| file_name := file_name d; brief := brief d;
     description := description d; version := version d; author := author d;
     author_contact := author_contact d; project := project d;
     license := license d; copyright := copyright d;
     interpreter := interpreter d; function_name := function_name d;
     function_description := function_description d;
     function_brief := function_brief d; alias := alias d;
     return_desc := return_desc d; section := section d;
     arguments := arguments d; no_args := no_args d; params := params d;
     returns := returns d; stdin_doc := stdin_doc d;
     stdout_doc := stdout_doc d; stderr_doc := stderr_doc d;
     exitcodes := exitcodes d; options := options d; env_vars := env_vars d;
     example := v; see_also := see_also d; is_internal := is_internal d;
     is_skipped := is_skipped d; deprecation := deprecation d;
     alerts := alerts d; warnings := warnings d;
     dependencies := dependencies d; internal_calls := internal_calls d;
     requires := requires d; used_by := used_by d; calls := calls d;
     provides := provides d; set_vars := set_vars d;
     shellcheck_directives := shellcheck_directives d |}.

Definition set_is_internal
  (v : bool) (d : shellscribe_docblock_t)
  : shellscribe_docblock_t :=
  {| file_name := file_name d; brief := brief d;
     description := description d; version := version d; author := author d;
     author_contact := author_contact d; project := project d;
     license := license d; copyright := copyright d;
     interpreter := interpreter d; function_name := function_name d;
     function_description := function_description d;
     function_brief := function_brief d; alias := alias d;
     return_desc := return_desc d; section := section d;
     arguments := arguments d; no_args := no_args d; params := params d;
     returns := returns d; stdin_doc := stdin_doc d;
     stdout_doc := stdout_doc d; stderr_doc := stderr_doc d;
     exitcodes := exitcodes d; options := options d; env_vars := env_vars d;
     example := example d; see_also := see_also d; is_internal := v;
     is_skipped := is_skipped d; deprecation := deprecation d;
     alerts := alerts d; warnings := warnings d;
     dependencies := dependencies d; internal_calls := internal_calls d;
     requires := requires d; used_by := used_by d; calls := calls d;
     provides := provides d; set_vars := set_vars d;
     shellcheck_directives := shellcheck_directives d |}.

Definition set_is_skipped
  (v : bool) (d : shellscribe_docblock_t)
  : shellscribe_docblock_t :=
  {| file_name := file_name d; brief := brief d;
     description := description d; version := version d; author := author d;
     author_contact := author_contact d; project := project d;
     license := license d; copyright := copyright d;
     interpreter := interpreter d; function_name := function_name d;
     function_description := function_description d;
     function_brief := function_brief d; alias := alias d;
     return_desc := return_desc d; section := section d;
     arguments := arguments d; no_args := no_args d; params := params d;
     returns := returns d; stdin_doc := stdin_doc d;
     stdout_doc := stdout_doc d; stderr_doc := stderr_doc d;
     exitcodes := exitcodes d; options := options d; env_vars := env_vars d;
     example := example d; see_also := see_also d;
     is_internal := is_internal d; is_skipped := v;
     deprecation := deprecation d; alerts := alerts d;
     warnings := warnings d; dependencies := dependencies d;
     internal_calls := internal_calls d; requires := requires d;
     used_by := used_by d; calls := calls d; provides := provides d;
     set_vars := set_vars d;
     shellcheck_directives := shellcheck_directives d |}.

Definition set_deprecation
  (v : shellscribe_deprecation_t) (d : shellscribe_docblock_t)
  : shellscribe_docblock_t :=
  {| file_name := file_name d; brief := brief d;
     description := description d; version := version d; author := author d;
     author_contact := author_contact d; project := project d;
     license := license d; copyright := copyright d;
     interpreter := interpreter d; function_name := function_name d;
     function_description := function_description d;
     function_brief := function_brief d; alias := alias d;
     return_desc := return_desc d; section := section d;
     arguments := arguments d; no_args := no_args d; params := params d;
     returns := returns d; stdin_doc := stdin_doc d;
     stdout_doc := stdout_doc d; stderr_doc := stderr_doc d;
     exitcodes := exitcodes d; options := options d; env_vars := env_vars d;
     example := example d; see_also := see_also d;
     is_internal := is_internal d; is_skipped := is_skipped d;
     deprecation := v; alerts := alerts d; warnings := warnings d;
     dependencies := dependencies d; internal_calls := internal_calls d;
     requires := requires d; used_by := used_by d; calls := calls d;
     provides := provides d; set_vars := set_vars d;
     shellcheck_directives := shellcheck_directives d |}.

Definition set_alerts
  (v : list shellscribe_alert_t) (d : shellscribe_docblock_t)
  : shellscribe_docblock_t :=
  {| file_name := file_name d; brief := brief d;
     description := description d; version := version d; author := author d;
     author_contact := author_contact d; project := project d;
     license := license d; copyright := copyright d;
     interpreter := interpreter d; function_name := function_name d;
     function_description := function_description d;
     function_brief := function_brief d; alias := alias d;
     return_desc := return_desc d; section := section d;
     arguments := arguments d; no_args := no_args d; params := params d;
     returns := returns d; stdin_doc := stdin_doc d;
     stdout_doc := stdout_doc d; stderr_doc := stderr_doc d;
     exitcodes := exitcodes d; options := options d; env_vars := env_vars d;
     example := example d; see_also := see_also d;
     is_internal := is_internal d; is_skipped := is_skipped d;
     deprecation := deprecation d; alerts := v; warnings := warnings d;
     dependencies := dependencies d; internal_calls := internal_calls d;
     requires := requires d; used_by := used_by d; calls := calls d;
     provides := provides d; set_vars := set_vars d;
     shellcheck_directives := shellcheck_directives d |}.

Definition set_shellcheck_directives
  (v : list shellscribe_shellcheck_t) (d : shellscribe_docblock_t)
  : shellscribe_docblock_t :=
  {| file_name := file_name d; brief := brief d;
     description := description d; version := version d; author := author d;
     author_contact := author_contact d; project := project d;
     license := license d; copyright := copyright d;
     interpreter := interpreter d; function_name := function_name d;
     function_description := function_description d;
     function_brief := function_brief d; alias := alias d;
     return_desc := return_desc d; section := section d;
     arguments := arguments d; no_args := no_args d; params := params d;
     returns := returns d; stdin_doc := stdin_doc d;
     stdout_doc := stdout_doc d; stderr_doc := stderr_doc d;
     exitcodes := exitcodes d; options := options d; env_vars := env_vars d;
     example := example d; see_also := see_also d;
     is_internal := is_internal d; is_skipped := is_skipped d;
     deprecation := deprecation d; alerts := alerts d;
     warnings := warnings d; dependencies := dependencies d;
     internal_calls := internal_calls d; requires := requires d;
     used_by := used_by d; calls := calls d; provides := provides d;
     set_vars := set_vars d; shellcheck_directives := v |}.

Definition set_options
  (v : list shellscribe_option_t) (d : shellscribe_docblock_t)
  : shellscribe_docblock_t :=
  {| file_name := file_name d; brief := brief d;
     description := description d; version := version d; author := author d;
     author_contact := author_contact d; project := project d;
     license := license d; copyright := copyright d;
     interpreter := interpreter d; function_name := function_name d;
     function_description := function_description d;
     function_brief := function_brief d; alias := alias d;
     return_desc := return_desc d; section := section d;
     arguments := arguments d; no_args := no_args d; params := params d;
     returns := returns d; stdin_doc := stdin_doc d;
     stdout_doc := stdout_doc d; stderr_doc := stderr_doc d;
     exitcodes := exitcodes d; options := v; env_vars := env_vars d;
     example := example d; see_also := see_also d;
     is_internal := is_internal d; is_skipped := is_skipped d;
     deprecation := deprecation d; alerts := alerts d;
     warnings := warnings d; dependencies := dependencies d;
     internal_calls := internal_calls d; requires := requires d;
     used_by := used_by d; calls := calls d; provides := provides d;
     set_vars := set_vars d;
     shellcheck_directives := shellcheck_directives d |}.

Definition set_see_also
  (v : list shellscribe_see_also_t) (d : shellscribe_docblock_t)
  : shellscribe_docblock_t :=
  {| file_name := file_name d; brief := brief d;
     description := description d; version := version d; author := author d;
     author_contact := author_contact d; project := project d;
     license := license d; copyright := copyright d;
     interpreter := interpreter d; function_name := function_name d;
     function_description := function_description d;
     function_brief := function_brief d; alias := alias d;
     return_desc := return_desc d; section := section d;
     arguments := arguments d; no_args := no_args d; params := params d;
     returns := returns d; stdin_doc := stdin_doc d;
     stdout_doc := stdout_doc d; stderr_doc := stderr_doc d;
     exitcodes := exitcodes d; options := options d; env_vars := env_vars d;
     example := example d; see_also := v; is_internal := is_internal d;
     is_skipped := is_skipped d; deprecation := deprecation d;
     alerts := alerts d; warnings := warnings d;
     dependencies := dependencies d; internal_calls := internal_calls d;
     requires := requires d; used_by := used_by d; calls := calls d;
     provides := provides d; set_vars := set_vars d;
     shellcheck_directives := shellcheck_directives d |}.

Definition set_replacement (v : option string)
  (p : shellscribe_deprecation_t) : shellscribe_deprecation_t :=
  {| is_deprecated := is_deprecated p; dep_version := dep_version p;
     replacement := v; eol := eol p |}.

Definition set_eol (v : option string)
  (p : shellscribe_deprecation_t) : shellscribe_deprecation_t :=
  {| is_deprecated := is_deprecated p; dep_version := dep_version p;
     replacement := replacement p; eol := v |}.

End Upd.
Import Upd.

(** ** utils/string.c *)

(** [string_duplicate] and [string_concat] on strings that are not [NULL]
    (no call of the parser passes [NULL] where the result is used). *)
Definition string_duplicate (s : string) : string := s.

Definition string_concat (str1 str2 : string) : string := str1 ++ str2.

(** ** The line classifier (tag.c, annotation.c, shellcheck.c, function.c) *)

Definition TAG_PREFIX : string := "# @".

Definition is_comment_line (line : string) : bool :=
  match skip_spaces line with
  | String c _ => Ascii.eqb c "#"
  | EmptyString => false
  end.

Definition static_is_tag_line (line : string) : bool :=
  starts_with TAG_PREFIX (skip_spaces line).

Definition is_tag_line (line : string) : bool := static_is_tag_line line.

(** annotation.c: a line is a special annotation when it contains one of
    the keywords, anywhere. *)
Definition keywords : list string :=
  ["shellcheck"; "disable"; "TODO"; "FIXME"; "XXX"; "HACK"].

Definition is_special_annotation (line : string) : bool :=
  existsb (fun k => match strstr line k with
                    | Some _ => true
                    | None => false
                    end) keywords.

Definition is_shellcheck_directive (line : string) : bool :=
  match skip_spaces line with
  | String c rest =>
      if Ascii.eqb c "#"
      then starts_with_nocase "shellcheck" (skip_spaces rest)
      else false
  | EmptyString => false
  end.

Definition is_name_char (c : ascii) : bool :=
  isalnum c || Ascii.eqb c "_".

Definition is_function_declaration (line : string) : bool :=
  let pos := skip_spaces line in
  if starts_with "function" pos && isspace (char_at 8 pos) then true
  else
    match strchr pos "(" with
    | Some parenthesis =>
        if (0 <? parenthesis)%nat then
          if all_chars is_name_char (strndup pos parenthesis) then
            match strchr (advance parenthesis pos) ")" with
            | Some closing =>
                let after := advance (parenthesis + closing) pos in
                match strchr after "{" with
                | Some brace =>
                    all_chars isspace (strndup (advance 1 after) (brace - 1))
                | None => false
                end
            | None => false
            end
          else false
        else false
    | None => false
    end.

Definition extract_function_name (line : string) : option string :=
  if negb (is_function_declaration line) then None
  else
    let pos := skip_spaces line in
    let pos :=
      if starts_with "function" pos && isspace (char_at 8 pos)
      then skip_spaces (advance 8 pos) else pos in
    match strchr pos "(" with
    | Some e =>
        if (0 <? e)%nat then
          let func_name := strndup pos e in
          Some (strndup func_name (rtrim_len func_name))
        else None
    | None => None
    end.

(** ** The tag extractor (tag.c) *)

(** Length of the tag name: up to whitespace, a colon or the end. *)
Fixpoint tag_name_len (s : string) : nat :=
  match s with
  | String c s' =>
      if isspace c || Ascii.eqb c ":" then 0 else S (tag_name_len s')
  | EmptyString => 0
  end.

Definition extract_tag_name (line : string) : option string :=
  match strstr line "@" with
  | None => None
  | Some at_sign =>
      let tag_start := advance (S at_sign) line in
      Some (strndup tag_start (tag_name_len tag_start))
  end.

Definition extract_tag_content (line : string) : option string :=
  match strstr line "@" with
  | None => None
  | Some at_sign =>
      let tag_start := advance (S at_sign) line in
      let content_start := advance (tag_name_len tag_start) tag_start in
      let content_start :=
        match content_start with
        | String c rest => if Ascii.eqb c ":" then rest else content_start
        | EmptyString => content_start
        end in
      Some (string_duplicate (skip_spaces content_start))
  end.

(** ** The tag grammars *)

(** A handler returns its success indicator and the docblock it leaves. *)
Definition handler : Type :=
  shellscribe_docblock_t -> string -> bool * shellscribe_docblock_t.

(** *** metadata.c *)

Definition file_tags : list string :=
  ["file"; "version"; "author"; "license"; "copyright";
   "since"; "description"; "package"; "module";
   "link"; "repo"; "see"; "env"; "skip"].

Definition is_file_level_tag (tag : string) : bool :=
  existsb (String.eqb tag) file_tags.

(** The table of [process_file_metadata_tag]: tag name and the field its
    content is stored in. *)
Definition tag_mappings
  : list (string * (option string -> shellscribe_docblock_t
                    -> shellscribe_docblock_t)) :=
  [("file", set_file_name); ("version", set_version);
   ("author", set_author); ("since", set_author_contact);
   ("description", set_description); ("brief", set_brief);
   ("license", set_license); ("copyright", set_copyright)].

Definition process_file_metadata_tag
  (docblock : shellscribe_docblock_t) (tag content : string)
  : bool * shellscribe_docblock_t :=
  match List.find (fun m => String.eqb tag (fst m)) tag_mappings with
  | Some m => (true, snd m (Some (string_duplicate content)) docblock)
  | None =>
      if String.eqb tag "skip" then (true, set_is_skipped true docblock)
      else (false, docblock)
  end.

(** *** description.c *)

Definition process_description_tag : handler := fun docblock content =>
  match function_name docblock with
  | None =>
      match description docblock with
      | None =>
          (true, set_description (Some (string_duplicate content)) docblock)
      | Some old =>
          (true, set_description
                   (Some (string_concat (string_concat old LF) content))
                   docblock)
      end
  | Some _ =>
      match function_description docblock with
      | None =>
          (true, set_function_description
                   (Some (string_duplicate content)) docblock)
      | Some old =>
          (true, set_function_description
                   (Some (string_concat (string_concat old LF) content))
                   docblock)
      end
  end.

(** *** io.c *)

Definition process_stdin_tag : handler := fun docblock content =>
  (true, set_stdin_doc (Some (string_duplicate content)) docblock).

Definition process_stdout_tag : handler := fun docblock content =>
  (true, set_stdout_doc (Some (string_duplicate content)) docblock).

Definition process_stderr_tag : handler := fun docblock content =>
  (true, set_stderr_doc (Some (string_duplicate content)) docblock).

(** *** deprecated.c *)

Definition process_replacement_tag : handler := fun docblock content =>
  match content with
  | EmptyString => (false, docblock)
  | _ =>
      (true, set_deprecation
               (set_replacement (Some (string_duplicate content))
                  (deprecation docblock)) docblock)
  end.

Definition process_eol_tag : handler := fun docblock content =>
  match content with
  | EmptyString => (false, docblock)
  | _ =>
      (true, set_deprecation
               (set_eol (Some (string_duplicate content))
                  (deprecation docblock)) docblock)
  end.

(** *** argument.c *)

Definition process_argument_tag : handler := fun docblock content =>
  let arg_str := skip_spaces content in
  let name_len := token_len arg_str in
  if (0 <? name_len)%nat then
    let arg_name := strndup arg_str name_len in
    let arg_str := skip_spaces (advance name_len arg_str) in
    let type_len := token_len arg_str in
    let arg_type :=
      if (0 <? type_len)%nat then Some (strndup arg_str type_len)
      else None in
    let arg_str := skip_spaces (advance type_len arg_str) in
    let arg_desc := string_duplicate arg_str in
    (true, set_arguments
             (arguments docblock
              ++ [ {| arg_name := Some arg_name; arg_type := arg_type;
                      arg_description := Some arg_desc |} ]) docblock)
  else (false, docblock).

Definition process_parameter_tag : handler := fun docblock content =>
  let name_len := token_len content in
  if (0 <? name_len)%nat then
    let desc_start := skip_spaces (advance name_len content) in
    (true, set_params
             (params docblock
              ++ [ {| param_name := Some (strndup content name_len);
                      param_description :=
                        Some (string_duplicate desc_start) |} ]) docblock)
  else (false, docblock).

(** *** return.c *)

Definition process_return_tag : handler := fun docblock content =>
  (true, set_return_desc (Some (string_duplicate content)) docblock).

Definition process_returns_tag : handler := process_return_tag.

(** *** exitcode.c *)

Definition parse_exitcode_content (content : string)
  : option (string * string) :=
  let content := skip_spaces content in
  match content with
  | EmptyString => None
  | _ =>
      match strchr content " " with
      | None => Some (content, "")
      | Some code_end =>
          Some (strndup content code_end,
                skip_spaces (advance (S code_end) content))
      end
  end.

Definition process_exitcode_tag : handler := fun docblock content =>
  match parse_exitcode_content content with
  | None => (false, docblock)
  | Some (code, desc) =>
      (true, set_exitcodes
               (exitcodes docblock
                ++ [ {| exit_code := Some code;
                        exit_description := Some desc |} ]) docblock)
  end.

(** *** alert.c *)

Definition get_alert_type (tag : string) : string :=
  if String.eqb tag "note" then "NOTE"
  else if String.eqb tag "tip" then "TIP"
  else if String.eqb tag "important" then "IMPORTANT"
  else if String.eqb tag "warning" then "WARNING"
  else if String.eqb tag "caution" then "CAUTION"
  else if String.eqb tag "info" then "INFO"
  else if String.eqb tag "danger" then "DANGER"
  else if String.eqb tag "hint" then "TIP"
  else "NOTE".

Definition process_alert_tag
  (docblock : shellscribe_docblock_t) (tag content : string)
  : bool * shellscribe_docblock_t :=
  (true, set_alerts
           (alerts docblock
            ++ [ {| alert_type := Some (get_alert_type tag);
                    alert_content := Some (string_duplicate content) |} ])
           docblock).

(** *** shellcheck.c *)

Definition extract_shellcheck_directive (line : string) : string :=
  let line := skip_spaces line in
  match line with
  | String c rest =>
      if Ascii.eqb c "#" then string_duplicate (skip_spaces rest)
      else string_duplicate line
  | EmptyString => string_duplicate line
  end.

(** Length of the code of a directive: up to whitespace, [#] or the end. *)
Fixpoint sc_code_len (s : string) : nat :=
  match s with
  | String c s' =>
      if isspace c || Ascii.eqb c "#" then 0 else S (sc_code_len s')
  | EmptyString => 0
  end.

(** The code and the reason of a directive. *)
Definition parse_shellcheck_directive (directive : string)
  : option string * option string :=
  let sc_start :=
    match strstr directive "disable=" with
    | Some i => Some (i + 8)
    | None =>
        match strstr directive "enable=" with
        | Some i => Some (i + 7)
        | None => None
        end
    end in
  match sc_start with
  | None => (Some (string_duplicate directive), None)
  | Some st =>
      let from_code := advance st directive in
      let code_len := sc_code_len from_code in
      let code_end := advance code_len from_code in
      let reason :=
        match strchr code_end "#" with
        | Some i =>
            match skip_spaces (advance (S i) code_end) with
            | EmptyString => None
            | r => Some (string_duplicate r)
            end
        | None => None
        end in
      (Some (strndup from_code code_len), reason)
  end.

Definition add_shellcheck_directive : handler := fun docblock directive =>
  let (code, reason) := parse_shellcheck_directive directive in
  (true, set_shellcheck_directives
           (shellcheck_directives docblock
            ++ [ {| sc_code := code;
                    sc_directive := Some (string_duplicate directive);
                    sc_reason := reason |} ]) docblock).

Definition process_shellcheck_line : handler := fun docblock line =>
  if negb (is_shellcheck_directive line) then (false, docblock)
  else add_shellcheck_directive docblock (extract_shellcheck_directive line).

(** *** option.c *)

(** The interior of the first [<...>] pair of [s], when there is one: the
    first [<], and the first [>] after it. *)
Definition angle_spec (s : string) : option string :=
  match strchr s "<" with
  | Some arg_open =>
      match strchr (advance arg_open s) ">" with
      | Some arg_close =>
          Some (strndup (advance (S arg_open) s) (arg_close - 1))
      | None => None
      end
  | None => None
  end.

(** The option token, its description and its argument specifier. *)
Definition parse_option_content (content : string)
  : option (string * string * option string) :=
  let content := skip_spaces content in
  match content with
  | EmptyString => None
  | _ =>
      match strstr content "|" with
      | Some pipe =>
          let before := strndup content pipe in
          let option := strndup before (rtrim_len before) in
          let desc_start := skip_spaces (advance (S pipe) content) in
          let description :=
            match strchr desc_start " " with
            | Some second_space =>
                string_duplicate (advance (S second_space) desc_start)
            | None => string_duplicate ""
            end in
          let arg_spec :=
            match angle_spec option with
            | Some a => Some a
            | None => angle_spec desc_start
            end in
          Some (option, description, arg_spec)
      | None =>
          let '(option, description) :=
            match strchr content " " with
            | Some space =>
                (strndup content space,
                 string_duplicate (advance (S space) content))
            | None => (string_duplicate content, string_duplicate "")
            end in
          let arg_spec :=
            match strchr option "=" with
            | Some equals => angle_spec (advance equals option)
            | None => angle_spec option
            end in
          Some (option, description, arg_spec)
      end
  end.

Definition process_option_tag : handler := fun docblock content =>
  match parse_option_content content with
  | None => (false, docblock)
  | Some (option, description, arg_spec) =>
      let dash c := Ascii.eqb c "-" in
      let entry short long :=
        (true, set_options
                 (options docblock
                  ++ [ {| short_opt := short; long_opt := long;
                          arg_spec := arg_spec;
                          opt_description := Some description |} ])
                 docblock) in
      if dash (char_at 0 option) && negb (dash (char_at 1 option))
      then entry (Some option) None
      else if dash (char_at 0 option) && dash (char_at 1 option)
      then entry None (Some option)
      else (false, docblock)
  end.

(** *** reference.c *)

(** The name, the URL and the internal flag of a reference. *)
Definition parse_see_content (content : string)
  : option (string * option string * bool) :=
  let content := skip_spaces content in
  match content with
  | EmptyString => None
  | _ =>
      match strchr content "[", strchr content "]",
            strchr content "(", strchr content ")" with
      | Some open_bracket, Some close_bracket,
        Some open_paren, Some close_paren =>
          if (open_bracket <? close_bracket)%nat
             && (close_bracket <? open_paren)%nat
             && (open_paren <? close_paren)%nat
          then
            let name :=
              strndup (advance (S open_bracket) content)
                      (close_bracket - open_bracket - 1) in
            let url :=
              strndup (advance (S open_paren) content)
                      (close_paren - open_paren - 1) in
            Some (name, Some url, false)
          else Some (string_duplicate content, None, true)
      | _, _, _, _ => Some (string_duplicate content, None, true)
      end
  end.

Definition process_see_tag : handler := fun docblock content =>
  match parse_see_content content with
  | None => (false, docblock)
  | Some (name, url, is_internal) =>
      (true, set_see_also
               (see_also docblock
                ++ [ {| see_name := Some name; see_url := url;
                        see_is_internal := is_internal |} ]) docblock)
  end.

(** *** example.c *)

Definition add_example_to_docblock : handler :=
  fun docblock example_content =>
  match example docblock with
  | Some old =>
      (true, set_example
               (Some (string_concat (string_concat old (LF ++ LF))
                                    example_content)) docblock)
  | None =>
      (true, set_example (Some (string_duplicate example_content)) docblock)
  end.

(** ** The parser state (state.h, state.c) *)

Definition MAX_LINE_LENGTH : nat := 4096.

(** An open file: the lines still to be read, each as the C string
    [fgets] leaves in the buffer. *)
Definition FILE : Type := list string.

(** The parser state.  [current_block] points into the array of docblocks
    of [parse_shell_file] and is the index of the block it points to. *)
Record parser_state_t : Type := mk_state
  { file : FILE;
    current_block : nat;
    line_number : Z;
    in_docblock : bool }.

(** The three conditions under which a line continues the content of the
    tag before it. *)
Definition is_continuation_line (line : string) : bool :=
  is_comment_line line && negb (is_tag_line line)
  && negb (is_special_annotation line).

(** The loop of [state_collect_continued_content]: [pos] is the position
    saved by [ftell], [f] the file, [accumulated_content] the content so
    far.  The result is the content and the position the file is left at. *)
Fixpoint collect_loop (pos f : FILE) (accumulated_content : string)
  : string * FILE :=
  match f with
  | [] => (accumulated_content, [])
  | raw :: rest =>
      let line := chomp raw in
      if is_continuation_line line then
        match strchr line "#" with
        | None => collect_loop pos rest accumulated_content
        | Some hash =>
            let comment_start := skip_spaces (advance (S hash) line) in
            collect_loop rest rest
              (string_concat (string_concat accumulated_content LF)
                             comment_start)
        end
      else (accumulated_content, pos)
  end.

Definition state_collect_continued_content
  (f : FILE) (initial_content : string) : string * FILE :=
  collect_loop f f (string_duplicate initial_content).

(** example.c, [process_example_tag]: the same loop, but the text of a
    continuation line starts right after its [#]. *)
Fixpoint example_loop (pos f : FILE) (example_content : string)
  : string * FILE :=
  match f with
  | [] => (example_content, [])
  | raw :: rest =>
      let line := chomp raw in
      if is_continuation_line line then
        match strchr line "#" with
        | None => example_loop pos rest example_content
        | Some hash =>
            let comment_start := advance (S hash) line in
            example_loop rest rest
              (string_concat (string_concat example_content LF)
                             comment_start)
        end
      else (example_content, pos)
  end.

Definition process_example_tag (f : FILE) (content : string)
  : string * FILE :=
  example_loop f f (string_duplicate content).

Definition set_file (v : FILE) (s : parser_state_t) : parser_state_t :=
  {| file := v; current_block := current_block s;
     line_number := line_number s; in_docblock := in_docblock s |}.

Definition set_current_block (v : nat) (s : parser_state_t)
  : parser_state_t :=
  {| file := file s; current_block := v;
     line_number := line_number s; in_docblock := in_docblock s |}.

Definition set_line_number (v : Z) (s : parser_state_t) : parser_state_t :=
  {| file := file s; current_block := current_block s;
     line_number := v; in_docblock := in_docblock s |}.

Definition set_in_docblock (v : bool) (s : parser_state_t)
  : parser_state_t :=
  {| file := file s; current_block := current_block s;
     line_number := line_number s; in_docblock := v |}.

(** What a call on the parser state returns: the success indicator, the
    array of docblocks and the state it leaves. *)
Definition outcome : Type :=
  (bool * list shellscribe_docblock_t * parser_state_t)%type.

(** A handler applied to the block [state->current_block] points to. *)
Definition on_current_block
  (docblocks : list shellscribe_docblock_t) (state : parser_state_t)
  (r : bool * shellscribe_docblock_t) : outcome :=
  (fst r, <[current_block state := snd r]> docblocks, state).

Definition process_example_using_state
  (docblocks : list shellscribe_docblock_t) (state : parser_state_t)
  (content : string) : outcome :=
  match docblocks !! current_block state with
  | None => (false, docblocks, state)
  | Some block =>
      let (example_content, f) := process_example_tag (file state) content in
      on_current_block docblocks (set_file f state)
        (add_example_to_docblock block example_content)
  end.

(** The name stored for a [function] tag: the content without a final
    [()] when the first [()] of the content ends it. *)
Definition function_tag_name (content : string) : string :=
  match strstr content "()" with
  | Some parentheses =>
      if (parentheses + 2 =? String.length content)%nat
      then strndup content parentheses
      else string_duplicate content
  | None => string_duplicate content
  end.

Definition alert_tags : list string :=
  ["note"; "warning"; "error"; "tip"; "important"; "info"; "danger";
   "hint"; "caution"; "alert"].

Definition state_process_tag
  (docblocks : list shellscribe_docblock_t) (state : parser_state_t)
  (tag content : string) : outcome :=
  match docblocks !! current_block state with
  | None => (false, docblocks, state)
  | Some block =>
      let done_with := on_current_block docblocks in
      if is_file_level_tag tag then
        done_with state (process_file_metadata_tag block tag content)
      else if String.eqb tag "function" then
        done_with (set_in_docblock true state)
          (true, set_function_name (Some (function_tag_name content)) block)
      else if String.eqb tag "brief" then
        match function_name block with
        | None =>
            done_with state
              (true, set_brief (Some (string_duplicate content)) block)
        | Some _ =>
            done_with state
              (true, set_function_brief
                       (Some (string_duplicate content)) block)
        end
      else if String.eqb tag "description" then
        let (accumulated_content, f) :=
          state_collect_continued_content (file state) content in
        match function_name block with
        | None =>
            done_with (set_file f state)
              (true, set_description (Some accumulated_content) block)
        | Some _ =>
            done_with (set_file f state)
              (true, set_function_description
                       (Some accumulated_content) block)
        end
      else if String.eqb tag "arg" || String.eqb tag "argument" then
        done_with state (process_argument_tag block content)
      else if String.eqb tag "param" then
        done_with state (process_parameter_tag block content)
      else if String.eqb tag "return" then
        done_with state (process_return_tag block content)
      else if String.eqb tag "returns" then
        done_with state (process_returns_tag block content)
      else if String.eqb tag "exitcode" then
        done_with state (process_exitcode_tag block content)
      else if String.eqb tag "example" then
        process_example_using_state docblocks state content
      else if String.eqb tag "stdout" then
        let (accumulated_content, f) :=
          state_collect_continued_content (file state) content in
        done_with (set_file f state)
          (true, set_stdout_doc (Some accumulated_content) block)
      else if String.eqb tag "stderr" then
        done_with state
          (true, set_stderr_doc (Some (string_duplicate content)) block)
      else if String.eqb tag "internal" then
        done_with state (true, set_is_internal true block)
      else if existsb (String.eqb tag) alert_tags then
        done_with state (process_alert_tag block tag content)
      else (false, docblocks, state)
  end.

(** ** The engine (parser_engine.c) *)

(** Skipping of the spaces and tabs after [#!]. *)
Fixpoint skip_blanks (s : string) : string :=
  match s with
  | String c s' =>
      if Ascii.eqb c " " || Ascii.eqb c "009" then skip_blanks s' else s
  | EmptyString => EmptyString
  end.

Definition extract_shebang : handler := fun docblock line =>
  if starts_with "#!" line then
    match skip_blanks (advance 2 line) with
    | EmptyString => (false, docblock)
    | interp =>
        (true, set_interpreter (Some (string_duplicate interp)) docblock)
    end
  else (false, docblock).

(** The metadata pass over the head of the file, on [docblocks[0]]. *)
Fixpoint metadata_pass (f : FILE) (block0 : shellscribe_docblock_t)
  : shellscribe_docblock_t :=
  match f with
  | [] => block0
  | metadata_line :: rest =>
      if starts_with "#!" metadata_line then
        metadata_pass rest (snd (extract_shebang block0 metadata_line))
      else
        let metadata_line := chomp metadata_line in
        if starts_with "# @" metadata_line then
          match extract_tag_name metadata_line,
                extract_tag_content metadata_line with
          | Some tag, Some content =>
              if is_file_level_tag tag then
                metadata_pass rest
                  (snd (process_file_metadata_tag block0 tag content))
              else metadata_pass rest block0
          | _, _ => metadata_pass rest block0
          end
        else if negb (is_comment_line metadata_line) then block0
        else metadata_pass rest block0
  end.

(** What the body loop of [parse_shell_file] works on. *)
Record engine_t : Type := mk_engine
  { docblocks : list shellscribe_docblock_t;
    state : parser_state_t;
    block_count : Z }.

(** [state.current_block = &docblocks[block_count++];
     init_docblock(state.current_block);] *)
Definition open_block (e : engine_t) : engine_t :=
  let i := Z.to_nat (block_count e) in
  {| docblocks := <[i := init_docblock]> (docblocks e);
     state := set_current_block i (state e);
     block_count := (block_count e + 1)%Z |}.

Definition with_state (s : parser_state_t) (e : engine_t) : engine_t :=
  {| docblocks := docblocks e; state := s; block_count := block_count e |}.

Definition with_docblocks (l : list shellscribe_docblock_t) (e : engine_t)
  : engine_t :=
  {| docblocks := l; state := state e; block_count := block_count e |}.

(** The body of the second loop on one line, already read into
    [state.line] and without its newline. *)
Definition body_line (line : string) (e : engine_t) : engine_t :=
  if is_comment_line line then
    let e :=
      if is_shellcheck_directive line then
        match docblocks e !! current_block (state e) with
        | Some block =>
            if (current_block (state e) =? 0)%nat then e
            else
              with_docblocks
                (<[current_block (state e) :=
                     snd (process_shellcheck_line block line)]> (docblocks e))
                e
        | None => e
        end
      else e in
    if is_tag_line line then
      match extract_tag_name line, extract_tag_content line with
      | Some tag, Some content =>
          let e := if String.eqb tag "function" then open_block e else e in
          let '(_, l, s) :=
            state_process_tag (docblocks e) (state e) tag content in
          with_state s (with_docblocks l e)
      | _, _ => e
      end
    else if is_function_declaration line then
      match extract_function_name line with
      | Some func_name =>
          let e :=
            if negb (in_docblock (state e))
               || (current_block (state e) =? 0)%nat
            then open_block e else e in
          let e :=
            match docblocks e !! current_block (state e) with
            | Some block =>
                match function_name block with
                | None =>
                    with_docblocks
                      (<[current_block (state e) :=
                           set_function_name (Some func_name) block]>
                         (docblocks e)) e
                | Some _ => e
                end
            | None => e
            end in
          with_state (set_in_docblock false (state e)) e
      | None => e
      end
    else e
  else with_state (set_in_docblock false (state e)) e.

(** One turn of the second loop: [None] when its condition fails. *)
Definition body_step (max_blocks : Z) (e : engine_t) : option engine_t :=
  match file (state e) with
  | [] => None
  | raw :: rest =>
      if (block_count e <? max_blocks)%Z then
        let s := set_line_number (line_number (state e) + 1)
                   (set_file rest (state e)) in
        Some (body_line (chomp raw) (with_state s e))
      else None
  end.

(** The second loop; every turn reads at least one line, so the number of
    lines of the file bounds the number of turns. *)
Fixpoint body_loop (fuel : nat) (max_blocks : Z) (e : engine_t) : engine_t :=
  match fuel with
  | O => e
  | S fuel' =>
      match body_step max_blocks e with
      | None => e
      | Some e' => body_loop fuel' max_blocks e'
      end
  end.

(** The first loop of [parse_shell_file]: [init_docblock] on the first
    [n] entries of the array. *)
Fixpoint init_docblocks (n : nat) (l : list shellscribe_docblock_t)
  : list shellscribe_docblock_t :=
  match n with
  | O => l
  | S k => <[k := init_docblock]> (init_docblocks k l)
  end.

(** [fopen(file_path, "r")] in a file system [fs] that gives the content of
    the files that can be opened. *)
Definition fopen (fs : string -> option string) (file_path : string)
  : option FILE :=
  match fs file_path with
  | Some data => Some (read_lines (String.length data) MAX_LINE_LENGTH data)
  | None => None
  end.

(** [parse_shell_file]: the count it returns and the array it leaves.
    [array] is the caller's [docblocks]. *)
Definition parse_shell_file
  (fs : string -> option string) (file_path : string)
  (array : list shellscribe_docblock_t) (max_blocks : Z)
  : Z * list shellscribe_docblock_t :=
  if (max_blocks <=? 0)%Z then (0%Z, array)
  else
    let array := init_docblocks (Z.to_nat max_blocks) array in
    let array :=
      alter (set_file_name (Some (string_duplicate file_path))) 0 array in
    match fopen fs file_path with
    | None => (0%Z, array)
    | Some f =>
        let e :=
          {| docblocks := alter (metadata_pass f) 0 array;
             state := {| file := f; current_block := 0;
                         line_number := 0; in_docblock := false |};
             block_count := 1 |} in
        let e := body_loop (List.length f) max_blocks e in
        (block_count e, docblocks e)
    end.
(** ** Inputs used in the statements below *)

(** A file with two [description] tags. *)
Definition two_descriptions : string :=
  "# @description first" ++ LF ++ "# @description second" ++ LF.

(** A file with a [description] tag followed by two plain comments. *)
Definition description_with_continuation : string :=
  "# @description A" ++ LF ++ "# B" ++ LF ++ "# C" ++ LF
  ++ "foo() {}" ++ LF.

(** A file with two documented functions. *)
Definition two_functions : string :=
  "#!/bin/bash" ++ LF
  ++ "# @function start" ++ LF ++ "# @brief Starts the service" ++ LF
  ++ "start() {" ++ LF ++ "  run" ++ LF ++ "}" ++ LF
  ++ "# @function stop()" ++ LF ++ "# @example" ++ LF ++ "#   stop now"
  ++ LF ++ "stop() { halt; }" ++ LF.

(** A file marked as not to be documented. *)
Definition skipped_file : string :=
  "#!/bin/bash" ++ LF ++ "# A helper that is sourced" ++ LF
  ++ "# @skip" ++ LF ++ "run() { true; }" ++ LF.

(** A file whose only line is an [arg] tag, before any [function] tag. *)
Definition arg_before_function : string :=
  "# @arg $1 string the path" ++ LF.

(** Two files with a NUL byte inside their first line. *)
Definition function_tag_with_nul : string :=
  "# @function" ++ String zero (" f" ++ LF ++ "# @brief b" ++ LF).

Definition shebang_with_nul : string :=
  "#!/bin/sh" ++ String zero (" -e" ++ LF).

(** ** Shapes of lines and contents, as the documentation words them *)



(** A declaration with the keyword: [function], then a whitespace
    character, then anything. *)
Definition keyword_form (line : string) : Prop :=
  exists ws sp rest,
    all_chars isspace ws = true /\ isspace sp = true
    /\ line = ws ++ "function" ++ String sp rest.

(** A bare declaration: a name, a parenthesis pair, whitespace, a brace,
    then anything. *)
Definition bare_form (line : string) : Prop :=
  exists ws name args ws2 rest,
    all_chars isspace ws = true
    /\ name <> "" /\ all_chars is_name_char name = true
    /\ strchr args ")" = None
    /\ all_chars isspace ws2 = true
    /\ line = ws ++ name ++ "(" ++ args ++ ")" ++ ws2 ++ "{" ++ rest.

(** The two forms of the specification: an optional [function] keyword
    followed by whitespace, a name, a parenthesis pair, whitespace only,
    and the opening brace. *)
Definition spec_function_form (line : string) : Prop :=
  exists ws kw name args ws2 rest,
    all_chars isspace ws = true
    /\ (kw = ""
        \/ exists sp, sp <> "" /\ all_chars isspace sp = true
                      /\ kw = "function" ++ sp)
    /\ name <> "" /\ all_chars is_name_char name = true
    /\ all_chars isspace ws2 = true
    /\ line = ws ++ kw ++ name ++ "(" ++ args ++ ")" ++ ws2 ++ "{" ++ rest.

(** The text of a comment line: what follows its [#] and the whitespace
    after it. *)
Definition comment_text (line : string) : string :=
  skip_spaces (advance 1 (skip_spaces line)).

(** What a run of continuation lines adds to a content: for each line a
    newline and its text. *)
Fixpoint continuation_text (lines : list string) : string :=
  match lines with
  | [] => ""
  | raw :: tl => LF ++ comment_text (chomp raw) ++ continuation_text tl
  end.

(** A handler result that leaves the function name of the docblock. *)
Definition keeps_function_name (r : bool * shellscribe_docblock_t)
  (d : shellscribe_docblock_t) : Prop :=
  function_name (snd r) = function_name d.

(** The invariant of the body loop: at least the file block is counted,
    and the block at index 0 has no function name. *)
Definition engine_inv (e : engine_t) : Prop :=
  (1 <= block_count e)%Z
  /\ exists d0, docblocks e !! 0 = Some d0 /\ function_name d0 = None.

(** ** More of utils/string.c *)

(** [string_trim]: the string without its leading and trailing whitespace.
    After the leading whitespace the first character is not whitespace, so
    the backward loop of the source, which never moves before it, stops at
    the last character that is not whitespace. *)
Definition string_trim (str : string) : string :=
  let start := skip_spaces str in
  match start with
  | EmptyString => string_duplicate ""
  | _ => strndup start (rtrim_len start)
  end.

(** ** More of deprecated.c *)

Definition set_is_deprecated (v : bool) (p : shellscribe_deprecation_t)
  : shellscribe_deprecation_t :=
  {| is_deprecated := v; dep_version := dep_version p;
     replacement := replacement p; eol := eol p |}.

Definition set_dep_version (v : option string)
  (p : shellscribe_deprecation_t) : shellscribe_deprecation_t :=
  {| is_deprecated := is_deprecated p; dep_version := v;
     replacement := replacement p; eol := eol p |}.

Definition process_deprecated_tag : handler := fun docblock content =>
  let dep := set_is_deprecated true (deprecation docblock) in
  match content with
  | EmptyString => (true, set_deprecation dep docblock)
  | _ =>
      match strstr content "from" with
      | Some from =>
          (true, set_deprecation
                   (set_dep_version
                      (Some (string_duplicate
                               (skip_spaces (advance (from + 4) content))))
                      dep) docblock)
      | None =>
          (true, set_deprecation
                   (set_dep_version (Some (string_duplicate content)) dep)
                   docblock)
      end
  end.

(** ** The callers of the engine (core/shellscribe.c, main.c) *)

Definition MAX_DOCBLOCKS : Z := 1000.

(** [parse_shell_script]: the array (obtained from [calloc], so with every
    field zero) and the count stored through [block_count], or [None] for
    the [NULL] it returns when the count is not positive. *)
Definition parse_shell_script
  (fs : string -> option string) (file_path : string)
  : option (list shellscribe_docblock_t * Z) :=
  let array := replicate (Z.to_nat MAX_DOCBLOCKS) init_docblock in
  let (count, array) := parse_shell_file fs file_path array MAX_DOCBLOCKS in
  if (count <=? 0)%Z then None else Some (array, count).

(** [is_elf_binary]: the first four bytes of the file are the ELF magic. *)
Definition is_elf_binary (fs : string -> option string) (file_path : string)
  : bool :=
  match fs file_path with
  | Some data => starts_with (String "127" "ELF") data
  | None => false
  end.

(** [should_skip_file]: its result and the reason it stores. *)
Definition should_skip_file
  (fs : string -> option string) (input_file : string)
  : bool * option string :=
  if is_elf_binary fs input_file then (true, Some "ELF binary detected")
  else
    match parse_shell_script fs input_file with
    | None => (false, None)
    | Some (array, block_count) =>
        if (block_count <=? 0)%Z then (false, None)
        else
          let should_skip :=
            (0 <? block_count)%Z
            && match array !! 0 with
               | Some block0 => is_skipped block0
               | None => false
               end in
          (should_skip,
           if should_skip then Some "marked with @skip" else None)
    end.

(** ** Further notions used in the statements *)

(** A character that can stand in a tag name: neither whitespace nor a
    colon. *)
Definition is_tag_char (c : ascii) : bool :=
  negb (isspace c || Ascii.eqb c ":").

(** A separator between a tag name and its content: nothing, or whitespace,
    or a colon and whitespace. *)
Definition tag_separator (sep : string) : Prop :=
  sep = ""
  \/ exists c w, sep = String c w
                 /\ (isspace c = true \/ c = ":"%char)
                 /\ all_chars isspace w = true.

(** A token: characters that are not whitespace. *)
Definition is_token (s : string) : Prop :=
  all_chars (fun c => negb (isspace c)) s = true.

(** A text without whitespace at either end. *)
Definition trimmed (s : string) : Prop :=
  skip_spaces s = s /\ rtrim_len s = String.length s.

(** A line of the file that is a tag line with the tag [function]. *)
Definition is_function_tag_line (raw : string) : bool :=
  let line := chomp raw in
  is_tag_line line
  && match extract_tag_name line with
     | Some tag => String.eqb tag "function"
     | None => false
     end.

Definition count_function_tags (f : FILE) : nat :=
  List.length (List.filter is_function_tag_line f).

(** The tags [state_process_tag] does something for. *)
Definition handled_tags : list string :=
  ["file"; "version"; "author"; "since"; "description"; "license";
   "copyright"; "skip"; "function"; "brief"; "arg"; "argument"; "param";
   "return"; "returns"; "exitcode"; "example"; "stdout"; "stderr";
   "internal"; "note"; "warning"; "error"; "tip"; "important"; "info";
   "danger"; "hint"; "caution"; "alert"].

(** The type codes of alerts. *)
Definition alert_types : list string :=
  ["NOTE"; "TIP"; "IMPORTANT"; "WARNING"; "CAUTION"; "INFO"; "DANGER"].

(** The descriptions processed one after the other. *)
Definition process_descriptions
  (d : shellscribe_docblock_t) (contents : list string)
  : shellscribe_docblock_t :=
  fold_left (fun b c => snd (process_description_tag b c)) contents d.

(** A line the metadata pass goes over: a shebang or a comment. *)
Definition is_header_line (raw : string) : bool :=
  starts_with "#!" raw || is_comment_line (chomp raw).

(** The first statement of the body loop on a comment: a shellcheck
    directive is stored in the current block, unless it is the file
    block. *)
Definition shellcheck_step (line : string) (e : engine_t) : engine_t :=
  if is_shellcheck_directive line then
    match docblocks e !! current_block (state e) with
    | Some block =>
        if (current_block (state e) =? 0)%nat then e
        else
          with_docblocks
            (<[current_block (state e) :=
                 snd (process_shellcheck_line block line)]> (docblocks e))
            e
    | None => e
    end
  else e.

(** The dispatch of a tag line in the body loop. *)
Definition tag_step (tag content : string) (e : engine_t) : engine_t :=
  let e := if String.eqb tag "function" then open_block e else e in
  let '(_, l, s) := state_process_tag (docblocks e) (state e) tag content in
  with_state s (with_docblocks l e).

(** The lines of a position that continue a content. *)
Definition continuation_run (k : nat) (f : FILE) : Prop :=
  Forall (fun raw => is_continuation_line (chomp raw) = true) (take k f).

(** Every block after the file block, up to the count, has a function
    name. *)
Definition blocks_named (e : engine_t) : Prop :=
  forall i, 1 <= i < Z.to_nat (block_count e) ->
    exists d, docblocks e !! i = Some d /\ function_name d <> None.

(** The shape of the engine state in the body loop, for a capacity
    [max_blocks]: the count is within the capacity and the array, the
    current block is one of the counted blocks, and the counted blocks
    after the first are named. *)
Definition engine_named (max_blocks : Z) (e : engine_t) : Prop :=
  (1 <= block_count e <= max_blocks)%Z
  /\ current_block (state e) < Z.to_nat (block_count e)
  /\ Z.to_nat max_blocks <= List.length (docblocks e)
  /\ blocks_named e.

(** The file block of the engine satisfies [P]. *)
Definition block0_has (P : shellscribe_docblock_t -> Prop) (e : engine_t)
  : Prop :=
  exists d0, docblocks e !! 0 = Some d0 /\ P d0.

(** A property of a docblock that no dispatched tag can break: it depends
    on the shellcheck directives, on the interpreter and on the skip flag
    being set. *)
Definition tag_stable (P : shellscribe_docblock_t -> Prop) : Prop :=
  forall block d',
    shellcheck_directives d' = shellcheck_directives block ->
    interpreter d' = interpreter block ->
    (is_skipped block = true -> is_skipped d' = true) ->
    P block -> P d'.

(** A blank of a shebang line: a space or a tab. *)
Definition is_blank (c : ascii) : bool :=
  Ascii.eqb c " " || Ascii.eqb c "009".

(** A character that can stand in the code of a shellcheck directive:
    neither whitespace nor a hash. *)
Definition is_sc_char (c : ascii) : bool :=
  negb (isspace c || Ascii.eqb c "#").

(** What a run of continuation lines adds to an example: for each line a
    newline and all that follows its [#]. *)
Fixpoint example_text (lines : list string) : string :=
  match lines with
  | [] => ""
  | raw :: tl =>
      LF ++ advance 1 (skip_spaces (chomp raw)) ++ example_text tl
  end.

(** A character of the name of an option or of its argument: neither
    whitespace nor one of the characters the option grammar looks for. *)
Definition is_option_char (c : ascii) : bool :=
  negb (isspace c)
  && negb (existsb (Ascii.eqb c) ["|"; "="; "<"; ">"]%char).

(** ** Facts about the string primitives *)

Section StringFacts.

Implicit Types (s t p : string) (c : ascii) (n : nat).

Lemma append_assoc s t p : (s ++ t) ++ p = s ++ (t ++ p).
Proof. induction s as [|a s IH]; simpl; [reflexivity | now rewrite IH]. Qed.

Lemma append_nil_r s : s ++ "" = s.
Proof. induction s as [|a s IH]; simpl; [reflexivity | now rewrite IH]. Qed.

Lemma all_chars_cons (f : ascii -> bool) c s :
  all_chars f (String c s) = f c && all_chars f s.
Proof. reflexivity. Qed.

Lemma skip_spaces_all s : all_chars isspace s = true -> skip_spaces s = "".
Proof.
  induction s as [|a s IH]; simpl; [reflexivity|].
  rewrite all_chars_cons. intros [Ha Hs]%andb_true_iff.
  rewrite Ha. auto.
Qed.

Lemma skip_spaces_app_all ws s :
  all_chars isspace ws = true -> skip_spaces (ws ++ s) = skip_spaces s.
Proof.
  induction ws as [|a ws IH]; simpl; [reflexivity|].
  rewrite all_chars_cons. intros [Ha Hs]%andb_true_iff.
  rewrite Ha. auto.
Qed.

Lemma skip_spaces_idem s : skip_spaces (skip_spaces s) = skip_spaces s.
Proof.
  induction s as [|a s IH]; simpl; [reflexivity|].
  destruct (isspace a) eqn:E; [assumption|]. simpl. now rewrite E.
Qed.

(** A string splits into its leading whitespace and the rest. *)
Lemma skip_spaces_split s :
  exists ws, all_chars isspace ws = true /\ s = ws ++ skip_spaces s.
Proof.
  induction s as [|a s [ws [Hws Hs]]]; simpl.
  - exists "". split; reflexivity.
  - destruct (isspace a) eqn:E.
    + exists (String a ws). rewrite all_chars_cons, E, Hws.
      split; [reflexivity|]. simpl. now rewrite <- Hs.
    + exists "". split; reflexivity.
Qed.

Lemma skip_spaces_fix c s :
  isspace c = false -> skip_spaces (String c s) = String c s.
Proof. intros H. simpl. now rewrite H. Qed.

Lemma strndup_app s t : strndup (s ++ t) (String.length s) = s.
Proof. induction s as [|a s IH]; simpl; [now destruct t | now rewrite IH]. Qed.

Lemma advance_app s t : advance (String.length s) (s ++ t) = t.
Proof. induction s as [|a s IH]; simpl; [now destruct t | assumption]. Qed.

Lemma strchr_app_found s c t :
  strchr s c = None -> strchr (s ++ String c t) c = Some (String.length s).
Proof.
  induction s as [|a s IH]; simpl.
  - now rewrite Ascii.eqb_refl.
  - destruct (Ascii.eqb a c); [discriminate|].
    destruct (strchr s c); [discriminate|]. intros _. now rewrite IH.
Qed.

Lemma strchr_app_none s c t :
  strchr s c = None ->
  strchr (s ++ t) c = option_map (plus (String.length s)) (strchr t c).
Proof.
  induction s as [|a s IH]; simpl.
  - intros _. now destruct (strchr t c).
  - destruct (Ascii.eqb a c); [discriminate|].
    destruct (strchr s c); [discriminate|]. intros _. rewrite IH by reflexivity.
    now destruct (strchr t c).
Qed.

(** What [strchr] finds: the offset of an occurrence with none before. *)
Lemma strchr_Some s c n :
  strchr s c = Some n ->
  exists pre post, s = pre ++ String c post /\ String.length pre = n
                   /\ strchr pre c = None.
Proof.
  revert n. induction s as [|a s IH]; simpl; [discriminate|].
  intros n. destruct (Ascii.eqb a c) eqn:E.
  - intros [= <-]. apply Ascii.eqb_eq in E as ->.
    exists "", s. repeat split.
  - destruct (strchr s c) as [m|] eqn:Hm; [|discriminate].
    intros [= <-]. destruct (IH m eq_refl) as (pre & post & -> & Hl & Hn).
    exists (String a pre), post. simpl. rewrite E, Hn, Hl. repeat split.
Qed.

(** For a one-character pattern [strstr] is [strchr]. *)
Lemma strstr_char s c : strstr s (String c "") = strchr s c.
Proof.
  induction s as [|a s IH]; simpl; [reflexivity|].
  rewrite Ascii.eqb_sym. destruct (Ascii.eqb a c); simpl.
  - now destruct s.
  - rewrite IH. now destruct s.
Qed.

Lemma starts_with_split p s :
  starts_with p s = true -> exists t, s = p ++ t.
Proof.
  revert s. induction p as [|a p IH]; intros s; simpl.
  - exists s. reflexivity.
  - destruct s as [|b s]; [discriminate|].
    intros [Hab Hp]%andb_true_iff. apply Ascii.eqb_eq in Hab as ->.
    destruct (IH _ Hp) as [t ->]. now exists t.
Qed.

Lemma rtrim_len_app_all s ws :
  all_chars isspace ws = true -> rtrim_len (s ++ ws) = rtrim_len s.
Proof.
  intros Hws. induction s as [|a s IH]; simpl.
  - induction ws as [|b ws IHws]; simpl; [reflexivity|].
    rewrite all_chars_cons in Hws. apply andb_true_iff in Hws as [Hb Hws].
    now rewrite (IHws Hws), Hb.
  - now rewrite IH.
Qed.


End StringFacts.

(** ** File metadata: the [since] tag *)

(** C10. The file-level tag [since] is stored in the [author_contact]
    field of the docblock: the dispatcher routes it to
    [process_file_metadata_tag], which replaces whatever the field held
    (the value of an [author] contact or of an earlier [since]) and touches
    no other field; the record has no field of its own for [since]. *)
Theorem since_stored_in_author_contact :
  forall (d : shellscribe_docblock_t) (c1 c2 : string),
    is_file_level_tag "since" = true
    /\ process_file_metadata_tag d "since" c1
       = (true, set_author_contact (Some c1) d)
    /\ author_contact (snd (process_file_metadata_tag d "since" c1)) = Some c1
    /\ author_contact
         (snd (process_file_metadata_tag
                 (snd (process_file_metadata_tag d "since" c1)) "since" c2))
       = Some c2
    /\ (forall l st, l !! current_block st = Some d ->
          state_process_tag l st "since" c1
          = (true, <[current_block st := set_author_contact (Some c1) d]> l,
             st)).
Proof.
  intros d c1 c2. repeat split.
  intros l st Hd. unfold state_process_tag. rewrite Hd. reflexivity.
Qed.

Lemma since_stored_in_author_contact_witness :
  state_process_tag [init_docblock]
    {| file := []; current_block := 0; line_number := 1;
       in_docblock := false |} "since" "1.2.0"
  = (true, [set_author_contact (Some "1.2.0") init_docblock],
     {| file := []; current_block := 0; line_number := 1;
        in_docblock := false |}).
Proof.
  exact (proj2 (proj2 (proj2 (proj2
    (since_stored_in_author_contact init_docblock "1.2.0" "1.3.0"))))
    [init_docblock]
    {| file := []; current_block := 0; line_number := 1;
       in_docblock := false |} eq_refl).
Defined.

(** ** Examples *)

Lemma add_example_value (d : shellscribe_docblock_t) (body : string) :
  add_example_to_docblock d body
  = (true,
     set_example
       (Some match example d with
             | Some old => old ++ LF ++ LF ++ body
             | None => body
             end) d).
Proof.
  unfold add_example_to_docblock, string_concat, string_duplicate.
  destruct (example d); [|reflexivity].
  now rewrite append_assoc.
Qed.

Lemma state_process_tag_example
  (l : list shellscribe_docblock_t) (st : parser_state_t)
  (d : shellscribe_docblock_t) (content : string) :
  l !! current_block st = Some d ->
  state_process_tag l st "example" content
  = (true,
     <[current_block st :=
         set_example
           (Some match example d with
                 | Some old =>
                     old ++ LF ++ LF
                     ++ fst (process_example_tag (file st) content)
                 | None => fst (process_example_tag (file st) content)
                 end) d]> l,
     set_file (snd (process_example_tag (file st) content)) st).
Proof.
  intros Hl. unfold state_process_tag. rewrite Hl.
  change (is_file_level_tag "example") with false. cbv iota.
  change (String.eqb "example" "function") with false.
  change (String.eqb "example" "brief") with false.
  change (String.eqb "example" "description") with false.
  change (String.eqb "example" "arg" || String.eqb "example" "argument")
    with false.
  change (String.eqb "example" "param") with false.
  change (String.eqb "example" "return") with false.
  change (String.eqb "example" "returns") with false.
  change (String.eqb "example" "exitcode") with false.
  change (String.eqb "example" "example") with true. cbv iota.
  unfold process_example_using_state. rewrite Hl.
  destruct (process_example_tag (file st) content) as [b f].
  unfold on_current_block. rewrite add_example_value. reflexivity.
Qed.

(** C8. On a docblock without an example, a first example is stored as it
    is, and a second one leaves the first body, two newlines, then the
    second body.  The same holds for two [example] tags dispatched by
    [state_process_tag], the bodies being the contents that
    [process_example_tag] collects at the position of each tag. *)
Theorem two_examples_joined :
  forall (d : shellscribe_docblock_t) (body1 body2 : string),
    example d = None ->
    let d1 := snd (add_example_to_docblock d body1) in
    let d2 := snd (add_example_to_docblock d1 body2) in
    (fst (add_example_to_docblock d body1) = true
     /\ fst (add_example_to_docblock d1 body2) = true
     /\ example d1 = Some body1
     /\ example d2 = Some (body1 ++ LF ++ LF ++ body2)
     /\ d1 = set_example (Some body1) d
     /\ d2 = set_example (Some (body1 ++ LF ++ LF ++ body2)) d)
    /\ (forall (l : list shellscribe_docblock_t) (st : parser_state_t)
               (content1 content2 : string),
          l !! current_block st = Some d ->
          let r1 := process_example_tag (file st) content1 in
          let r2 := process_example_tag (snd r1) content2 in
          let l1 := <[current_block st := set_example (Some (fst r1)) d]> l in
          state_process_tag l st "example" content1
          = (true, l1, set_file (snd r1) st)
          /\ state_process_tag l1 (set_file (snd r1) st) "example" content2
             = (true,
                <[current_block st :=
                    set_example (Some (fst r1 ++ LF ++ LF ++ fst r2)) d]> l,
                set_file (snd r2) st)).
Proof.
  intros d body1 body2 Hd. cbn zeta. split.
  - rewrite (add_example_value d), Hd. cbn [fst snd].
    rewrite add_example_value. cbn [fst snd].
    destruct d; simpl in *; subst. repeat split.
  - intros l st content1 content2 Hl.
    assert (Hlt : current_block st < List.length l)
      by (eapply lookup_lt_Some; eassumption).
    cbn zeta. rewrite (state_process_tag_example l st d) by assumption.
    rewrite Hd. split; [reflexivity|].
    erewrite state_process_tag_example
      by (cbn [current_block set_file]; apply list_lookup_insert_eq, Hlt).
    cbn [current_block set_file file]. rewrite list_insert_insert_eq.
    destruct d; simpl in *; subst. reflexivity.
Qed.

Lemma two_examples_joined_witness :
  example (snd (add_example_to_docblock
                  (snd (add_example_to_docblock init_docblock "ls -l"))
                  "ls -a"))
  = Some ("ls -l" ++ LF ++ LF ++ "ls -a").
Proof.
  exact (proj1 (proj2 (proj2 (proj2 (proj1
    (two_examples_joined init_docblock "ls -l" "ls -a" eq_refl)))))).
Defined.

(** ** Arguments *)

(** C7. An [arg] (or [argument]) tag whose content is empty or only
    whitespace has no name: the handler fails and returns the docblock as
    it was, and the dispatcher returns the whole array and the state as
    they were, with the failure as a plain [false]. *)
Theorem arg_tag_without_name_dropped :
  forall (d : shellscribe_docblock_t) (content : string),
    all_chars isspace content = true ->
    process_argument_tag d content = (false, d)
    /\ (forall (l : list shellscribe_docblock_t) (st : parser_state_t)
               (tag : string),
          tag = "arg" \/ tag = "argument" ->
          state_process_tag l st tag content = (false, l, st)).
Proof.
  intros d content Hws.
  assert (H : forall b, process_argument_tag b content = (false, b)).
  { intros b. unfold process_argument_tag.
    now rewrite (skip_spaces_all _ Hws). }
  split; [apply H|].
  intros l st tag Htag. unfold state_process_tag.
  destruct (l !! current_block st) as [block|] eqn:Hl; [|reflexivity].
  destruct Htag as [-> | ->]; cbn; rewrite H; unfold on_current_block;
    cbn [fst snd]; now rewrite list_insert_id.
Qed.

Lemma arg_tag_without_name_dropped_witness :
  process_argument_tag init_docblock "  " = (false, init_docblock).
Proof.
  exact (proj1 (arg_tag_without_name_dropped init_docblock "  " eq_refl)).
Defined.

(** ** Repeated tags *)

Lemma state_process_tag_description
  (l : list shellscribe_docblock_t) (st : parser_state_t)
  (d : shellscribe_docblock_t) (content : string) :
  l !! current_block st = Some d ->
  state_process_tag l st "description" content
  = (true, <[current_block st := set_description (Some content) d]> l, st).
Proof. intros Hl. unfold state_process_tag. now rewrite Hl. Qed.

(** The scalar tags that overwrite: [brief], [stdout] and [stderr] in the
    dispatcher, [stdin], [replacement] and [eol] in their handlers. *)
Lemma scalar_tags_overwrite
  (l : list shellscribe_docblock_t) (st : parser_state_t)
  (d : shellscribe_docblock_t) (content : string) :
  l !! current_block st = Some d ->
  state_process_tag l st "brief" content
  = (true,
     <[current_block st :=
         match function_name d with
         | None => set_brief (Some content) d
         | Some _ => set_function_brief (Some content) d
         end]> l, st)
  /\ state_process_tag l st "stderr" content
     = (true, <[current_block st := set_stderr_doc (Some content) d]> l, st)
  /\ state_process_tag l st "stdout" content
     = (true,
        <[current_block st :=
            set_stdout_doc
              (Some (fst (state_collect_continued_content (file st) content)))
              d]> l,
        set_file (snd (state_collect_continued_content (file st) content)) st)
  /\ stdin_doc (snd (process_stdin_tag d content)) = Some content
  /\ (content <> "" ->
      replacement (deprecation (snd (process_replacement_tag d content)))
      = Some content
      /\ eol (deprecation (snd (process_eol_tag d content))) = Some content).
Proof.
  intros Hl. unfold state_process_tag. rewrite Hl. cbn.
  repeat split.
  - now destruct (function_name d).
  - now destruct (state_collect_continued_content (file st) content).
  - now destruct content.
  - now destruct content.
Qed.

(** C1. What the code does with a repeated [description] tag: the
    dispatcher sends the tag to [process_file_metadata_tag], which
    replaces the stored description, so parsing [two_descriptions] leaves
    the description [second]; [process_description_tag], which the engine
    never calls, is the function that appends after a newline. *)
Theorem repeated_description_overwrites :
  (let r := parse_shell_file (fun _ => Some two_descriptions) "lib.sh"
              (replicate 2 init_docblock) 2 in
   fst r = 1%Z /\ description <$> (snd r !! 0) = Some (Some "second"))
  /\ (let l := [set_description (Some "first") init_docblock] in
      let st := {| file := []; current_block := 0; line_number := 2;
                   in_docblock := false |} in
      state_process_tag l st "description" "second"
      = (true, [set_description (Some "second") init_docblock], st))
  /\ description
       (snd (process_description_tag
               (set_description (Some "first") init_docblock) "second"))
     = Some ("first" ++ LF ++ "second").
Proof. repeat split. Qed.

(** ** Options *)

Lemma length_app (s t : string) :
  String.length (s ++ t) = String.length s + String.length t.
Proof. induction s as [|a s IH]; simpl; [reflexivity | now rewrite IH]. Qed.

Lemma strchr_all_space (ws : string) (c : ascii) :
  all_chars isspace ws = true -> isspace c = false -> strchr ws c = None.
Proof.
  intros Hws Hc. induction ws as [|a ws IH]; simpl; [reflexivity|].
  rewrite all_chars_cons in Hws. apply andb_true_iff in Hws as [Ha Hws].
  destruct (Ascii.eqb a c) eqn:E.
  - apply Ascii.eqb_eq in E. congruence.
  - now rewrite IH.
Qed.

Lemma strchr_app_r (s t : string) (c : ascii) :
  strchr s c = None -> strchr t c = None -> strchr (s ++ t) c = None.
Proof. intros Hs Ht. rewrite strchr_app_none by assumption. now rewrite Ht. Qed.

Lemma advance_S_app (s t : string) (c : ascii) :
  advance (S (String.length s)) (s ++ String c t) = t.
Proof. induction s as [|a s IH]; simpl; [now destruct t | assumption]. Qed.

Lemma skip_spaces_token (ws s t : string) :
  all_chars isspace ws = true -> s <> "" -> skip_spaces s = s ->
  skip_spaces (ws ++ s ++ t) = s ++ t.
Proof.
  intros Hws Hne Hs. rewrite skip_spaces_app_all by assumption.
  destruct s as [|a s]; [congruence|].
  simpl in *. destruct (isspace a) eqn:E; [|reflexivity].
  exfalso. pose proof (skip_spaces_split s) as [w [_ Hw]].
  rewrite Hs in Hw. apply (f_equal String.length) in Hw.
  rewrite length_app in Hw. simpl in Hw. lia.
Qed.

(** C2, as the code has it.  In the shape with a pipe, the option token is
    what stands before the pipe without the whitespace around it, and the
    description is what follows the first space after the first token
    following the pipe: that token is skipped, and the description is
    empty when no space follows it.  The argument specifier is the
    interior of an angle-bracket pair of the option token or, failing
    that, of the text after the pipe. *)
Theorem option_pipe_shape :
  forall (ws0 opt ws1 ws2 tok rest : string),
    all_chars isspace ws0 = true ->
    all_chars isspace ws1 = true ->
    all_chars isspace ws2 = true ->
    opt <> "" -> skip_spaces opt = opt ->
    rtrim_len opt = String.length opt ->
    strchr opt "|" = None ->
    tok <> "" -> skip_spaces tok = tok -> strchr tok " " = None ->
    parse_option_content
      (ws0 ++ opt ++ ws1 ++ "|" ++ ws2 ++ tok ++ " " ++ rest)
    = Some (opt, rest,
            match angle_spec opt with
            | Some a => Some a
            | None => angle_spec (tok ++ " " ++ rest)
            end)
    /\ parse_option_content (ws0 ++ opt ++ ws1 ++ "|" ++ ws2 ++ tok)
       = Some (opt, "",
               match angle_spec opt with
               | Some a => Some a
               | None => angle_spec tok
               end).
Proof.
  intros ws0 opt ws1 ws2 tok rest H0 H1 H2 Hopt Hlead Htrail Hpipe
         Htok Htoklead Htoksp.
  assert (Hgen : forall tail desc,
            skip_spaces (ws2 ++ tok ++ tail) = tok ++ tail ->
            match strchr (tok ++ tail) " " with
            | Some second_space =>
                string_duplicate (advance (S second_space) (tok ++ tail))
            | None => string_duplicate ""
            end = desc ->
            parse_option_content
              (ws0 ++ opt ++ ws1 ++ "|" ++ ws2 ++ tok ++ tail)
            = Some (opt, desc,
                    match angle_spec opt with
                    | Some a => Some a
                    | None => angle_spec (tok ++ tail)
                    end)).
  { intros tail desc Hskip Hdesc. unfold parse_option_content.
    rewrite (skip_spaces_token ws0 opt) by assumption.
    destruct (opt ++ ws1 ++ "|" ++ ws2 ++ tok ++ tail) eqn:E.
    { destruct opt; [congruence | discriminate]. }
    rewrite <- E. clear E.
    rewrite strstr_char.
    replace (opt ++ ws1 ++ "|" ++ ws2 ++ tok ++ tail)
      with ((opt ++ ws1) ++ String "|" (ws2 ++ tok ++ tail))
      by (now rewrite append_assoc).
    rewrite strchr_app_found
      by (apply strchr_app_r; [assumption | now apply strchr_all_space]).
    rewrite strndup_app, advance_S_app.
    rewrite rtrim_len_app_all, Htrail, strndup_app by assumption.
    now rewrite Hskip, Hdesc. }
  split.
  - apply Hgen; [now apply skip_spaces_token|].
    change (tok ++ " " ++ rest) with (tok ++ String " " rest).
    now rewrite strchr_app_found, advance_S_app by assumption.
  - specialize (Hgen "" "").
    rewrite append_nil_r in Hgen. apply Hgen.
    + rewrite <- (append_nil_r tok) at 1. rewrite <- (append_nil_r tok) at 2.
      now apply skip_spaces_token.
    + now rewrite Htoksp.
Qed.

Lemma option_pipe_shape_witness :
  parse_option_content "-v | verbose output" = Some ("-v", "output", None).
Proof.
  exact (proj1 (option_pipe_shape "" "-v" " " " " "verbose" "output"
                  eq_refl eq_refl eq_refl ltac:(discriminate) eq_refl eq_refl
                  eq_refl ltac:(discriminate) eq_refl eq_refl)).
Defined.

(** The description the specification gives for ["-v | verbose output"]
    is not the one the parser returns. *)
Lemma option_pipe_example_fails :
  parse_option_content "-v | verbose output"
  <> Some ("-v", "verbose output", None).
Proof. vm_compute. discriminate. Qed.

(** ** The line classifier *)

(** C4, as the code has it.  A line is a tag line exactly when, after its
    leading whitespace, it starts with [# @]; the form with a colon is a
    tag line under the same condition only. *)
Theorem is_tag_line_iff :
  forall line : string,
    is_tag_line line = true
    <-> exists ws rest,
          all_chars isspace ws = true /\ line = ws ++ "# @" ++ rest.
Proof.
  intros line. unfold is_tag_line, static_is_tag_line, TAG_PREFIX. split.
  - intros H. destruct (skip_spaces_split line) as (ws & Hws & Hl).
    destruct (starts_with_split _ _ H) as [rest Hr].
    exists ws, rest. split; [assumption|]. now rewrite <- Hr.
  - intros (ws & rest & Hws & ->).
    rewrite skip_spaces_app_all by assumption. reflexivity.
Qed.

Lemma is_tag_line_iff_witness : is_tag_line "  # @brief: text" = true.
Proof.
  apply (proj2 (is_tag_line_iff "  # @brief: text")).
  exists "  ", "brief: text". split; reflexivity.
Defined.

(** A comment in the colon form that does not start with [# @]: the
    extractor finds the tag [brief] in it, the classifier does not report
    a tag line. *)
Lemma colon_form_not_tag_line :
  is_comment_line "## @brief: text" = true
  /\ extract_tag_name "## @brief: text" = Some "brief"
  /\ extract_tag_content "## @brief: text" = Some "text"
  /\ is_tag_line "## @brief: text" = false.
Proof. repeat split. Qed.

(** ** References *)


(** The content the tag extractor returns has no leading whitespace. *)
Lemma extract_tag_content_trimmed (line content : string) :
  extract_tag_content line = Some content -> skip_spaces content = content.
Proof.
  unfold extract_tag_content. destruct (strstr line "@"); [|discriminate].
  intros [= <-]. apply skip_spaces_idem.
Qed.



(** ** Function declarations *)

Lemma name_char_not_space (c : ascii) :
  is_name_char c = true -> isspace c = false.
Proof.
  destruct c as [[] [] [] [] [] [] [] []]; vm_compute; congruence.
Qed.

Lemma name_char_not_paren (c : ascii) :
  is_name_char c = true -> Ascii.eqb c "(" = false.
Proof.
  destruct c as [[] [] [] [] [] [] [] []]; vm_compute; congruence.
Qed.

Lemma strchr_name_chars (name : string) :
  all_chars is_name_char name = true -> strchr name "(" = None.
Proof.
  induction name as [|a s IH]; simpl; [reflexivity|].
  rewrite all_chars_cons. intros [Ha Hs]%andb_true_iff.
  now rewrite (name_char_not_paren a Ha), IH.
Qed.

Lemma advance_add (s : string) (a b : nat) :
  advance (a + b) s = advance b (advance a s).
Proof.
  revert s. induction a as [|a IH]; intros s; simpl.
  - now destruct b, s.
  - destruct s as [|c s]; [now destruct b | apply IH].
Qed.

Lemma strndup_length_app (n : nat) (s t : string) :
  String.length s = n -> strndup (s ++ t) n = s.
Proof. intros <-. apply strndup_app. Qed.

Lemma advance_length_app (n : nat) (s t : string) :
  String.length s = n -> advance n (s ++ t) = t.
Proof. intros <-. apply advance_app. Qed.

Lemma strchr_app_some (s t : string) (c : ascii) :
  exists n, strchr (s ++ String c t) c = Some n.
Proof.
  induction s as [|a s [n IH]]; simpl.
  - rewrite Ascii.eqb_refl. now exists 0.
  - destruct (Ascii.eqb a c); [now exists 0|]. rewrite IH. now exists (S n).
Qed.

(** A line of one of the two forms of the specification has an opening
    parenthesis. *)
Lemma spec_function_form_paren (line : string) :
  spec_function_form line -> strchr line "(" <> None.
Proof.
  intros (ws & kw & name & args & ws2 & rest & _ & _ & _ & _ & _ & ->).
  replace (ws ++ kw ++ name ++ "(" ++ args ++ ")" ++ ws2 ++ "{" ++ rest)
    with (((ws ++ kw) ++ name)
          ++ String "(" (args ++ ")" ++ ws2 ++ "{" ++ rest))
    by (now rewrite !append_assoc).
  destruct (strchr_app_some ((ws ++ kw) ++ name)
              (args ++ ")" ++ ws2 ++ "{" ++ rest) "(") as [n ->].
  discriminate.
Qed.

Lemma keyword_test (pos : string) :
  starts_with "function" pos && isspace (char_at 8 pos) = true
  <-> exists sp rest, isspace sp = true /\ pos = "function" ++ String sp rest.
Proof.
  split.
  - intros [Hk Hs]%andb_true_iff.
    destruct (starts_with_split _ _ Hk) as [t ->].
    destruct t as [|sp rest]; [discriminate|]. now exists sp, rest.
  - intros (sp & rest & Hsp & ->). simpl. exact Hsp.
Qed.

(** The lines the classifier accepts.  A line is classified as a function
    declaration exactly when, after its leading whitespace, either it
    starts with the keyword [function] followed by a whitespace character,
    whatever comes after, or it is a non-empty name of alphanumerics and
    underscores, a parenthesis pair, only whitespace, and an opening
    brace, whatever comes after. *)
Theorem is_function_declaration_iff :
  forall line : string,
    is_function_declaration line = true
    <-> keyword_form line \/ bare_form line.
Proof.
  intros line. unfold is_function_declaration.
  destruct (skip_spaces_split line) as (ws & Hws & Hline).
  destruct (starts_with "function" (skip_spaces line)
            && isspace (char_at 8 (skip_spaces line))) eqn:Hkw.
  { split; [intros _ | reflexivity]. left.
    apply keyword_test in Hkw as (sp & rest & Hsp & Hpos).
    exists ws, sp, rest. rewrite <- Hpos. easy. }
  assert (Hnk : ~ keyword_form line).
  { intros (ws' & sp & rest & Hws' & Hsp & ->).
    rewrite skip_spaces_app_all in Hkw by assumption.
    assert (Ht : starts_with "function" ("function" ++ String sp rest)
                 && isspace (char_at 8 ("function" ++ String sp rest)) = true)
      by (apply keyword_test; now exists sp, rest).
    change (skip_spaces ("function" ++ String sp rest))
      with ("function" ++ String sp rest) in Hkw.
    congruence. }
  split.
  - intros H. right.
    destruct (strchr (skip_spaces line) "(") as [i|] eqn:Hi; [|discriminate].
    destruct (0 <? i)%nat eqn:Hpos; [|discriminate].
    apply Nat.ltb_lt in Hpos.
    apply strchr_Some in Hi as (name & post & Hp & Hlen & _).
    rewrite Hp in H.
    rewrite (strndup_length_app _ _ _ Hlen) in H.
    destruct (all_chars is_name_char name) eqn:Hname; [|discriminate].
    rewrite (advance_length_app _ _ _ Hlen) in H.
    destruct (strchr (String "(" post) ")") as [j|] eqn:Hj; [|discriminate].
    rewrite advance_add, (advance_length_app _ _ _ Hlen) in H.
    apply strchr_Some in Hj as (pre & post2 & Hpre & Hj & Hnone).
    destruct pre as [|p0 args]; [discriminate|].
    injection Hpre as <- ->.
    change (String "(" (args ++ String ")" post2))
      with (String "(" args ++ String ")" post2) in H.
    rewrite (advance_length_app _ _ _ Hj) in H.
    destruct (strchr (String ")" post2) "{") as [k|] eqn:Hk; [|discriminate].
    apply strchr_Some in Hk as (pre3 & rest & Hpre3 & Hk & _).
    destruct pre3 as [|p3 ws2]; [discriminate|].
    injection Hpre3 as <- ->. subst k.
    simpl in H. rewrite Nat.sub_0_r, strndup_app in H.
    exists ws, name, args, ws2, rest. repeat split; try assumption.
    + intros ->. simpl in Hlen. lia.
    + simpl in Hnone. now destruct (strchr args ")").
    + now rewrite Hline at 1; rewrite Hp.
  - intros [Hk | (ws' & name & args & ws2 & rest & Hws' & Hne & Hname & Hargs
                  & Hws2 & ->)]; [contradiction|].
    assert (Hskip : skip_spaces
              (ws' ++ name ++ "(" ++ args ++ ")" ++ ws2 ++ "{" ++ rest)
            = name ++ String "(" (args ++ String ")" (ws2 ++ String "{" rest))).
    { apply skip_spaces_token; [assumption..|].
      destruct name as [|a s]; [congruence|].
      rewrite all_chars_cons in Hname. apply andb_true_iff in Hname as [Ha _].
      apply skip_spaces_fix, name_char_not_space, Ha. }
    rewrite Hskip.
    rewrite strchr_app_found by now apply strchr_name_chars.
    destruct (0 <? String.length name)%nat eqn:Hl.
    2:{ destruct name; [congruence | discriminate]. }
    rewrite strndup_app, Hname, advance_app.
    change (String "(" (args ++ String ")" (ws2 ++ String "{" rest)))
      with (String "(" args ++ String ")" (ws2 ++ String "{" rest)).
    rewrite strchr_app_found by (simpl; now rewrite Hargs).
    rewrite advance_add, advance_app, advance_app.
    change (String ")" (ws2 ++ String "{" rest))
      with (String ")" ws2 ++ String "{" rest).
    rewrite strchr_app_found
      by (simpl; now rewrite strchr_all_space).
    simpl. now rewrite Nat.sub_0_r, strndup_app.
Qed.

Lemma is_function_declaration_iff_witness :
  is_function_declaration "  deploy_all() {" = true.
Proof.
  apply (proj2 (is_function_declaration_iff "  deploy_all() {")).
  right. exists "  ", "deploy_all", "", " ", "".
  repeat split; try reflexivity. discriminate.
Defined.

(** C5, at the line [function foo].  The line has the keyword and neither
    parentheses nor brace, so it is of neither form the specification and
    the documentation of [is_function_declaration] give; the same text without
    the keyword is rejected by the checks of the bare form; and
    [extract_function_name] finds no name in it.  It is classified as a
    function declaration all the same, the keyword test returning before
    any other check. *)
Theorem keyword_without_parentheses_accepted :
  is_function_declaration "function foo" = true
  /\ ~ spec_function_form "function foo"
  /\ is_function_declaration "foo" = false
  /\ extract_function_name "function foo" = None.
Proof.
  split; [reflexivity|]. split; [|split; reflexivity].
  intros H. now apply spec_function_form_paren in H.
Qed.

(** ** The continuation collector *)

(** The first [#] of a comment line is the one after its leading
    whitespace. *)
Lemma comment_line_hash (line : string) :
  is_comment_line line = true ->
  exists k, strchr line "#" = Some k
            /\ advance (S k) line = advance 1 (skip_spaces line).
Proof.
  unfold is_comment_line. intros H.
  destruct (skip_spaces_split line) as (ws & Hws & Hl).
  destruct (skip_spaces line) as [|c t]; [discriminate|].
  apply Ascii.eqb_eq in H as ->.
  exists (String.length ws). rewrite Hl. split.
  - apply strchr_app_found. now apply strchr_all_space.
  - now rewrite advance_S_app.
Qed.

Lemma collect_loop_cons (pos rest : FILE) (raw acc : string) :
  collect_loop pos (raw :: rest) acc
  = if is_continuation_line (chomp raw) then
      match strchr (chomp raw) "#" with
      | None => collect_loop pos rest acc
      | Some hash =>
          collect_loop rest rest
            (string_concat (string_concat acc LF)
               (skip_spaces (advance (S hash) (chomp raw))))
      end
    else (acc, pos).
Proof. reflexivity. Qed.

Lemma collect_loop_run (pre : list string) (rest : FILE) (acc : string) :
  Forall (fun raw => is_continuation_line (chomp raw) = true) pre ->
  (forall raw, head rest = Some raw ->
               is_continuation_line (chomp raw) = false) ->
  collect_loop (pre ++ rest)%list (pre ++ rest)%list acc
  = (acc ++ continuation_text pre, rest).
Proof.
  intros Hpre Hrest. revert acc.
  induction Hpre as [|raw pre Hraw _ IH]; intros acc.
  - simpl. rewrite append_nil_r. destruct rest as [|raw tl]; [reflexivity|].
    rewrite collect_loop_cons. now rewrite (Hrest raw eq_refl).
  - change ((raw :: pre) ++ rest)%list with (raw :: (pre ++ rest)%list).
    rewrite collect_loop_cons, Hraw.
    assert (Hc : is_comment_line (chomp raw) = true).
    { unfold is_continuation_line in Hraw.
      now apply andb_true_iff in Hraw as [[Hc _]%andb_true_iff _]. }
    destruct (comment_line_hash _ Hc) as (k & -> & Hk).
    rewrite Hk, IH. unfold string_concat, comment_text.
    now rewrite !append_assoc.
Qed.

(** C6, as the code has it.  From a position followed by a run of lines
    that are comments, not tag lines and not special annotations (lines
    containing one of the keywords of [is_special_annotation]), and then
    by the end of the file or by a line that is not so, the collector
    returns the initial content followed, for each line of the run, by a
    newline and the text after the [#] and its whitespace, and leaves the
    file positioned before the line that ended the run. *)
Theorem collector_absorbs_continuations :
  forall (pre : list string) (rest : FILE) (initial : string),
    Forall (fun raw => is_continuation_line (chomp raw) = true) pre ->
    (forall raw, head rest = Some raw ->
                 is_continuation_line (chomp raw) = false) ->
    state_collect_continued_content (pre ++ rest)%list initial
    = (initial ++ continuation_text pre, rest).
Proof.
  intros pre rest initial Hpre Hrest.
  unfold state_collect_continued_content, string_duplicate.
  now apply collect_loop_run.
Qed.

Lemma collector_absorbs_continuations_witness :
  state_collect_continued_content
    (List.app ["# B" ++ LF; "# C" ++ LF] ["foo() {}" ++ LF]) "A"
  = ("A" ++ LF ++ "B" ++ LF ++ "C", ["foo() {}" ++ LF]).
Proof.
  apply (collector_absorbs_continuations
           ["# B" ++ LF; "# C" ++ LF] ["foo() {}" ++ LF] "A").
  - repeat constructor.
  - intros raw [= <-]. reflexivity.
Defined.

(** A comment that is neither a tag line nor a shellcheck directive and
    that the collector does not absorb: it stops before it. *)
Lemma collector_stops_at_todo :
  is_comment_line "# TODO check" = true
  /\ is_tag_line "# TODO check" = false
  /\ is_shellcheck_directive "# TODO check" = false
  /\ state_collect_continued_content
       ["# TODO check" ++ LF; "# C" ++ LF] "A"
     = ("A", ["# TODO check" ++ LF; "# C" ++ LF]).
Proof. repeat split. Qed.

(** The [description] tag in the engine: the continuation lines after it
    are not collected, the tag being handled as a file-level tag. *)
Lemma description_continuation_not_collected :
  let r := parse_shell_file (fun _ => Some description_with_continuation)
             "lib.sh" (replicate 2 init_docblock) 2 in
  description <$> (snd r !! 0) = Some (Some "A").
Proof. reflexivity. Qed.

(** ** The engine *)

(** *** Reading the file *)

Lemma read_line_shorter (room : nat) (data : string) :
  String.length (snd (read_line room data)) <= String.length data.
Proof.
  revert data. induction room as [|r IH]; intros [|c rest]; simpl; try lia.
  destruct (Ascii.eqb c nl); simpl; [lia|].
  specialize (IH rest). destruct (read_line r rest). simpl in *. lia.
Qed.

Lemma read_line_progress (room : nat) (c : ascii) (rest : string) :
  String.length (snd (read_line (S room) (String c rest)))
  < String.length (String c rest).
Proof.
  simpl. destruct (Ascii.eqb c nl); simpl; [lia|].
  pose proof (read_line_shorter room rest).
  destruct (read_line room rest). simpl in *. lia.
Qed.

(** A line never holds a NUL byte. *)
Lemma read_line_no_nul (room : nat) (data : string) :
  strchr (fst (read_line room data)) zero = None.
Proof.
  revert data. induction room as [|r IH]; intros [|c rest]; simpl;
    try reflexivity.
  destruct (Ascii.eqb c nl) eqn:Hnl; simpl.
  - apply Ascii.eqb_eq in Hnl. subst c. reflexivity.
  - specialize (IH rest). destruct (read_line r rest) as [l r'].
    cbn [fst] in *. destruct (Ascii.eqb c zero) eqn:Hz; [reflexivity|].
    cbn [strchr]. now rewrite Hz, IH.
Qed.

(** The bound on the number of lines cuts nothing: with the fuel of the
    model, the length of the data, the whole file is read, and more fuel
    gives the same lines. *)
Lemma read_lines_complete (fuel : nat) (data : string) :
  String.length data <= fuel ->
  read_lines fuel MAX_LINE_LENGTH data
  = read_lines (String.length data) MAX_LINE_LENGTH data.
Proof.
  remember (String.length data) as n eqn:Hn.
  assert (Hle : String.length data <= n) by lia. clear Hn.
  revert data fuel Hle.
  induction n as [|n IH]; intros data fuel Hle Hfuel.
  - destruct data; [|simpl in Hle; lia]. now destruct fuel.
  - destruct data as [|c rest]; [now destruct fuel|].
    destruct fuel as [|fuel]; [lia|].
    cbn [read_lines].
    change (MAX_LINE_LENGTH - 1) with (S 4094).
    pose proof (read_line_progress 4094 c rest) as Hp.
    destruct (read_line (S 4094) (String c rest)) as [l r].
    cbn [snd] in Hp. f_equal. apply IH; simpl in *; lia.
Qed.

(** *** What the handlers leave of the function name *)

Lemma metadata_keeps_name d tag content :
  keeps_function_name (process_file_metadata_tag d tag content) d.
Proof.
  unfold keeps_function_name, process_file_metadata_tag, tag_mappings.
  cbn [List.find fst snd].
  repeat (destruct (String.eqb tag _); [reflexivity|]).
  reflexivity.
Qed.

Lemma argument_keeps_name d content :
  keeps_function_name (process_argument_tag d content) d.
Proof.
  unfold keeps_function_name, process_argument_tag.
  now destruct (0 <? token_len (skip_spaces content))%nat.
Qed.

Lemma parameter_keeps_name d content :
  keeps_function_name (process_parameter_tag d content) d.
Proof.
  unfold keeps_function_name, process_parameter_tag.
  now destruct (0 <? token_len content)%nat.
Qed.

Lemma exitcode_keeps_name d content :
  keeps_function_name (process_exitcode_tag d content) d.
Proof.
  unfold keeps_function_name, process_exitcode_tag.
  now destruct (parse_exitcode_content content) as [[code desc]|].
Qed.

Lemma example_keeps_name d content :
  keeps_function_name (add_example_to_docblock d content) d.
Proof.
  unfold keeps_function_name, add_example_to_docblock.
  now destruct (example d).
Qed.

Lemma shellcheck_keeps_name d line :
  keeps_function_name (process_shellcheck_line d line) d.
Proof.
  unfold keeps_function_name, process_shellcheck_line,
    add_shellcheck_directive.
  destruct (negb (is_shellcheck_directive line)); [reflexivity|].
  now destruct (parse_shellcheck_directive _).
Qed.

Lemma shebang_keeps_name d line :
  keeps_function_name (extract_shebang d line) d.
Proof.
  unfold keeps_function_name, extract_shebang.
  destruct (starts_with "#!" line); [|reflexivity].
  now destruct (skip_blanks _).
Qed.

Lemma metadata_pass_keeps_name (f : FILE) (d : shellscribe_docblock_t) :
  function_name (metadata_pass f d) = function_name d.
Proof.
  revert d. induction f as [|raw rest IH]; intros d; [reflexivity|].
  cbn [metadata_pass].
  destruct (starts_with "#!" raw).
  { rewrite IH. apply shebang_keeps_name. }
  destruct (starts_with "# @" (chomp raw)).
  - destruct (extract_tag_name (chomp raw)) as [tag|]; [|apply IH].
    destruct (extract_tag_content (chomp raw)) as [content|]; [|apply IH].
    destruct (is_file_level_tag tag); [|apply IH].
    rewrite IH. apply metadata_keeps_name.
  - destruct (negb (is_comment_line (chomp raw))); [reflexivity | apply IH].
Qed.

(** *** The collectors only move forward in the file *)

Lemma collect_loop_position (pos f : FILE) (acc : string) :
  List.length f <= List.length pos ->
  List.length (snd (collect_loop pos f acc)) <= List.length pos.
Proof.
  revert pos acc. induction f as [|raw rest IH]; intros pos acc Hle.
  - simpl. lia.
  - rewrite collect_loop_cons.
    destruct (is_continuation_line (chomp raw)); [|simpl; lia].
    simpl in Hle. destruct (strchr (chomp raw) "#").
    + etransitivity; [apply IH; lia | lia].
    + apply IH. lia.
Qed.

Lemma example_loop_position (pos f : FILE) (acc : string) :
  List.length f <= List.length pos ->
  List.length (snd (example_loop pos f acc)) <= List.length pos.
Proof.
  revert pos acc. induction f as [|raw rest IH]; intros pos acc Hle.
  - simpl. lia.
  - cbn [example_loop].
    destruct (is_continuation_line (chomp raw)); [|simpl; lia].
    simpl in Hle. destruct (strchr (chomp raw) "#").
    + etransitivity; [apply IH; lia | lia].
    + apply IH. lia.
Qed.

(** *** The dispatcher *)

(** What a dispatched tag does: it rewrites the current block, keeps the
    block the state points to, and leaves the file at the same position
    or further; only the [function] tag touches the function name. *)
Lemma state_process_tag_effect
  (l : list shellscribe_docblock_t) (st : parser_state_t)
  (tag content : string) (block : shellscribe_docblock_t) :
  l !! current_block st = Some block ->
  exists ok d' st',
    state_process_tag l st tag content
    = (ok, <[current_block st := d']> l, st')
    /\ current_block st' = current_block st
    /\ List.length (file st') <= List.length (file st)
    /\ (String.eqb tag "function" = false ->
        function_name d' = function_name block).
Proof.
  intros Hl. unfold state_process_tag. rewrite Hl. unfold on_current_block.
  destruct (is_file_level_tag tag).
  { eexists _, _, _. split; [reflexivity|]. repeat split; [lia|].
    intros _. apply metadata_keeps_name. }
  destruct (String.eqb tag "function").
  { eexists _, _, _. split; [reflexivity|]. repeat split; [simpl; lia|].
    discriminate. }
  destruct (String.eqb tag "brief").
  { destruct (function_name block) eqn:Hn;
      (eexists _, _, _; split; [reflexivity|]; repeat split; [lia|]);
      intros _; simpl; now rewrite Hn. }
  destruct (String.eqb tag "description").
  { pose proof (collect_loop_position (file st) (file st)
                  (string_duplicate content) (Nat.le_refl _)) as Hp.
    unfold state_collect_continued_content.
    destruct (collect_loop (file st) (file st) (string_duplicate content))
      as [acc f].
    destruct (function_name block) eqn:Hn;
      (eexists _, _, _; split; [reflexivity|]; repeat split;
       [exact Hp|]); intros _; simpl; now rewrite Hn. }
  destruct (String.eqb tag "arg" || String.eqb tag "argument").
  { eexists _, _, _. split; [reflexivity|]. repeat split; [lia|].
    intros _. apply argument_keeps_name. }
  destruct (String.eqb tag "param").
  { eexists _, _, _. split; [reflexivity|]. repeat split; [lia|].
    intros _. apply parameter_keeps_name. }
  destruct (String.eqb tag "return").
  { eexists _, _, _. split; [reflexivity|]. repeat split; lia. }
  destruct (String.eqb tag "returns").
  { eexists _, _, _. split; [reflexivity|]. repeat split; lia. }
  destruct (String.eqb tag "exitcode").
  { eexists _, _, _. split; [reflexivity|]. repeat split; [lia|].
    intros _. apply exitcode_keeps_name. }
  destruct (String.eqb tag "example").
  { unfold process_example_using_state. rewrite Hl.
    pose proof (example_loop_position (file st) (file st)
                  (string_duplicate content) (Nat.le_refl _)) as Hp.
    unfold process_example_tag.
    destruct (example_loop (file st) (file st) (string_duplicate content))
      as [ex f].
    eexists _, _, _. split; [reflexivity|]. repeat split; [exact Hp|].
    intros _. apply example_keeps_name. }
  destruct (String.eqb tag "stdout").
  { pose proof (collect_loop_position (file st) (file st)
                  (string_duplicate content) (Nat.le_refl _)) as Hp.
    unfold state_collect_continued_content.
    destruct (collect_loop (file st) (file st) (string_duplicate content))
      as [acc f].
    eexists _, _, _. split; [reflexivity|]. repeat split. exact Hp. }
  destruct (String.eqb tag "stderr").
  { eexists _, _, _. split; [reflexivity|]. repeat split; lia. }
  destruct (String.eqb tag "internal").
  { eexists _, _, _. split; [reflexivity|]. repeat split; lia. }
  destruct (existsb (String.eqb tag) alert_tags).
  { eexists _, _, _. split; [reflexivity|]. repeat split; lia. }
  exists false, block, st. rewrite list_insert_id by assumption.
  repeat split; lia.
Qed.

(** The dispatcher on an array whose block 0 has no function name: it
    stays so, unless the tag is [function] with the block 0 current. *)
Lemma state_process_tag_inv
  (l : list shellscribe_docblock_t) (st : parser_state_t)
  (tag content : string) (d0 : shellscribe_docblock_t) :
  l !! 0 = Some d0 -> function_name d0 = None ->
  (String.eqb tag "function" = true -> current_block st <> 0) ->
  (exists d0', snd (fst (state_process_tag l st tag content)) !! 0 = Some d0'
               /\ function_name d0' = None)
  /\ List.length (file (snd (state_process_tag l st tag content)))
     <= List.length (file st).
Proof.
  intros H0 Hn Hf.
  destruct (l !! current_block st) as [block|] eqn:Hl.
  - destruct (state_process_tag_effect l st tag content block Hl)
      as (ok & d' & st' & -> & Hcur & Hpos & Hname).
    cbn [fst snd]. split; [|assumption].
    destruct (decide (current_block st = 0)) as [E|E].
    + rewrite E in *. exists d'. split.
      * apply list_lookup_insert_eq. eapply lookup_lt_Some; eassumption.
      * rewrite Hname; [congruence|].
        destruct (String.eqb tag "function"); [now elim Hf | reflexivity].
    + exists d0. split; [|assumption].
      rewrite list_lookup_insert_ne by congruence. assumption.
  - unfold state_process_tag. rewrite Hl. cbn [fst snd].
    split; [now exists d0 | lia].
Qed.

Lemma state_process_tag_position
  (l : list shellscribe_docblock_t) (st : parser_state_t)
  (tag content : string) :
  List.length (file (snd (state_process_tag l st tag content)))
  <= List.length (file st).
Proof.
  destruct (l !! current_block st) as [block|] eqn:Hl.
  - destruct (state_process_tag_effect l st tag content block Hl)
      as (ok & d' & st' & -> & _ & Hpos & _). exact Hpos.
  - unfold state_process_tag. rewrite Hl. simpl. lia.
Qed.

(** *** One line of the body loop *)

Lemma open_block_inv (e : engine_t) :
  engine_inv e ->
  engine_inv (open_block e)
  /\ current_block (state (open_block e)) <> 0.
Proof.
  intros [Hc (d0 & H0 & Hn)]. unfold open_block, engine_inv. simpl.
  repeat split; [lia | | lia].
  exists d0. split; [|assumption].
  rewrite list_lookup_insert_ne by lia. assumption.
Qed.

Lemma body_line_inv (line : string) (e : engine_t) :
  engine_inv e ->
  engine_inv (body_line line e)
  /\ (block_count e <= block_count (body_line line e) <= block_count e + 1)%Z.
Proof.
  intros He. unfold body_line.
  destruct (is_comment_line line).
  2:{ split; [exact He | simpl; lia]. }
  set (e1 := if is_shellcheck_directive line then _ else e).
  assert (He1 : engine_inv e1 /\ block_count e1 = block_count e).
  { subst e1. destruct (is_shellcheck_directive line); [|now split].
    destruct (docblocks e !! current_block (state e)) as [block|] eqn:Hb;
      [|now split].
    destruct (current_block (state e) =? 0)%nat eqn:E; [now split|].
    apply Nat.eqb_neq in E. split; [|reflexivity].
    destruct He as [Hc (d0 & H0 & Hn)]. split; [exact Hc|].
    exists d0. split; [|assumption]. simpl.
    rewrite list_lookup_insert_ne by congruence. assumption. }
  clearbody e1. destruct He1 as [He1 Hc1]. rewrite <- Hc1. clear Hc1 He e.
  destruct (is_tag_line line).
  - destruct (extract_tag_name line) as [tag|],
             (extract_tag_content line) as [content|];
      try (split; [assumption | lia]).
    set (e2 := if String.eqb tag "function" then open_block e1 else e1).
    assert (He2 : engine_inv e2
                  /\ (String.eqb tag "function" = true ->
                      current_block (state e2) <> 0)
                  /\ (block_count e1 <= block_count e2
                      <= block_count e1 + 1)%Z).
    { subst e2. destruct (String.eqb tag "function").
      - destruct (open_block_inv e1 He1) as [Hi Hcur].
        split; [exact Hi | split; [intros _; exact Hcur | simpl; lia]].
      - split; [exact He1 | split; [discriminate | lia]]. }
    clearbody e2. destruct He2 as ([Hc (d0 & H0 & Hn)] & Hcur & Hbc).
    destruct (state_process_tag_inv (docblocks e2) (state e2) tag content
                d0 H0 Hn Hcur) as [Hres _].
    destruct (state_process_tag (docblocks e2) (state e2) tag content)
      as [[ok l] s]. cbn [fst snd] in Hres.
    split; [split; [exact Hc | exact Hres] | exact Hbc].
  - destruct (is_function_declaration line); [|split; [assumption | lia]].
    destruct (extract_function_name line) as [func_name|];
      [|split; [assumption | lia]].
    set (e2 := if negb (in_docblock (state e1))
                  || (current_block (state e1) =? 0)%nat
               then open_block e1 else e1).
    assert (He2 : engine_inv e2 /\ current_block (state e2) <> 0
                  /\ (block_count e1 <= block_count e2
                      <= block_count e1 + 1)%Z).
    { subst e2.
      destruct (negb (in_docblock (state e1))
                || (current_block (state e1) =? 0)%nat) eqn:E.
      - destruct (open_block_inv e1 He1) as [Hi Hcur].
        split; [exact Hi | split; [exact Hcur | simpl; lia]].
      - apply orb_false_iff in E as [_ E]. apply Nat.eqb_neq in E.
        split; [exact He1 | split; [exact E | lia]]. }
    clearbody e2. destruct He2 as ([Hc (d0 & H0 & Hn)] & Hcur & Hbc).
    destruct (docblocks e2 !! current_block (state e2)) as [block|];
      [|split; [split; [exact Hc | now exists d0] | exact Hbc]].
    destruct (function_name block);
      [split; [split; [exact Hc | now exists d0] | exact Hbc]|].
    split; [|exact Hbc]. split; [exact Hc|].
    exists d0. split; [|assumption]. simpl.
    rewrite list_lookup_insert_ne by congruence. assumption.
Qed.

Lemma body_line_position (line : string) (e : engine_t) :
  List.length (file (state (body_line line e)))
  <= List.length (file (state e)).
Proof.
  unfold body_line.
  destruct (is_comment_line line); [|simpl; lia].
  set (e1 := if is_shellcheck_directive line then _ else e).
  assert (He1 : file (state e1) = file (state e)).
  { subst e1. destruct (is_shellcheck_directive line); [|reflexivity].
    destruct (docblocks e !! current_block (state e)); [|reflexivity].
    now destruct (current_block (state e) =? 0)%nat. }
  clearbody e1. rewrite <- He1. clear He1 e.
  destruct (is_tag_line line).
  - destruct (extract_tag_name line) as [tag|],
             (extract_tag_content line) as [content|]; try lia.
    set (e2 := if String.eqb tag "function" then open_block e1 else e1).
    assert (He2 : file (state e2) = file (state e1))
      by (subst e2; now destruct (String.eqb tag "function")).
    clearbody e2. rewrite <- He2.
    pose proof (state_process_tag_position (docblocks e2) (state e2)
                  tag content) as Hp.
    destruct (state_process_tag (docblocks e2) (state e2) tag content)
      as [[ok l] s]. exact Hp.
  - destruct (is_function_declaration line); [|lia].
    destruct (extract_function_name line) as [func_name|]; [|lia].
    set (e2 := if negb (in_docblock (state e1))
                  || (current_block (state e1) =? 0)%nat
               then open_block e1 else e1).
    assert (He2 : file (state e2) = file (state e1))
      by (subst e2; now destruct (negb (in_docblock (state e1))
                                  || (current_block (state e1) =? 0)%nat)).
    clearbody e2. rewrite <- He2.
    destruct (docblocks e2 !! current_block (state e2)) as [block|];
      [|simpl; lia].
    destruct (function_name block); simpl; lia.
Qed.

(** *** The body loop *)

Lemma body_step_inv (max_blocks : Z) (e e' : engine_t) :
  body_step max_blocks e = Some e' ->
  engine_inv e -> (block_count e <= max_blocks)%Z ->
  engine_inv e' /\ (block_count e' <= max_blocks)%Z.
Proof.
  unfold body_step. intros Hs He Hmax.
  destruct (file (state e)) as [|raw rest]; [discriminate|].
  destruct (block_count e <? max_blocks)%Z eqn:Hlt; [|discriminate].
  apply Z.ltb_lt in Hlt. injection Hs as <-.
  match goal with |- context [body_line ?l ?x] =>
    destruct (body_line_inv l x) as [Hi Hc] end.
  { exact He. }
  split; [exact Hi | simpl in Hc; lia].
Qed.

Lemma body_step_position (max_blocks : Z) (e e' : engine_t) :
  body_step max_blocks e = Some e' ->
  List.length (file (state e')) < List.length (file (state e)).
Proof.
  unfold body_step. intros Hs.
  destruct (file (state e)) as [|raw rest]; [discriminate|].
  destruct (block_count e <? max_blocks)%Z; [|discriminate].
  injection Hs as <-.
  match goal with |- context [body_line ?l ?x] =>
    pose proof (body_line_position l x) as Hp end.
  simpl in *. lia.
Qed.

Lemma body_loop_inv (fuel : nat) (max_blocks : Z) (e : engine_t) :
  engine_inv e -> (block_count e <= max_blocks)%Z ->
  engine_inv (body_loop fuel max_blocks e)
  /\ (block_count (body_loop fuel max_blocks e) <= max_blocks)%Z.
Proof.
  revert e. induction fuel as [|fuel IH]; intros e He Hmax; simpl.
  - now split.
  - destruct (body_step max_blocks e) as [e'|] eqn:Hs; [|now split].
    destruct (body_step_inv _ _ _ Hs He Hmax). now apply IH.
Qed.

(** The loop leaves by its condition, not by the bound on its turns: with
    as many turns as the file has lines to read, the state it returns is
    one in which the condition of the loop fails. *)
Lemma body_loop_exits (fuel : nat) (max_blocks : Z) (e : engine_t) :
  List.length (file (state e)) <= fuel ->
  body_step max_blocks (body_loop fuel max_blocks e) = None.
Proof.
  revert e. induction fuel as [|fuel IH]; intros e Hlen; simpl.
  - unfold body_step. destruct (file (state e)); [reflexivity|].
    simpl in Hlen. lia.
  - destruct (body_step max_blocks e) as [e'|] eqn:Hs; [|exact Hs].
    apply IH. apply body_step_position in Hs. lia.
Qed.

(** *** The array of docblocks *)

Lemma init_docblocks_length (n : nat) (l : list shellscribe_docblock_t) :
  List.length (init_docblocks n l) = List.length l.
Proof.
  induction n as [|n IH]; simpl; [reflexivity|].
  now rewrite length_insert.
Qed.

Lemma init_docblocks_lookup (n i : nat) (l : list shellscribe_docblock_t) :
  i < n -> i < List.length l -> init_docblocks n l !! i = Some init_docblock.
Proof.
  induction n as [|n IH]; intros Hi Hl; [lia|]. simpl.
  destruct (decide (i = n)) as [->|Hne].
  - apply list_lookup_insert_eq. now rewrite init_docblocks_length.
  - rewrite list_lookup_insert_ne by congruence. apply IH; [lia | assumption].
Qed.

(** C3, as the code has it.  On a file that can be opened, with a
    capacity of at least one block in an array that holds it,
    [parse_shell_file] returns a count of at least 1 and at most the
    capacity and leaves the block at index 0 without a function name;
    with a capacity that is not positive it returns 0 and leaves the
    array as it was.  On a file that cannot be opened it returns 0. *)
Theorem parse_shell_file_blocks :
  forall (fs : string -> option string) (file_path : string)
         (array : list shellscribe_docblock_t) (max_blocks : Z),
    Z.to_nat max_blocks <= List.length array ->
    let r := parse_shell_file fs file_path array max_blocks in
    (forall data, fs file_path = Some data ->
       ((0 < max_blocks)%Z ->
        (1 <= fst r <= max_blocks)%Z
        /\ exists d0, snd r !! 0 = Some d0 /\ function_name d0 = None)
       /\ ((max_blocks <= 0)%Z -> r = (0%Z, array)))
    /\ (fs file_path = None -> fst r = 0%Z).
Proof.
  intros fs file_path array max_blocks Hlen r. subst r.
  unfold parse_shell_file, fopen. split.
  - intros data ->. split.
    + intros Hmax.
      destruct (max_blocks <=? 0)%Z eqn:Hle; [apply Z.leb_le in Hle; lia|].
      set (f := read_lines (String.length data) MAX_LINE_LENGTH data).
      set (e0 := {| docblocks := _; state := _; block_count := 1 |}).
      assert (He0 : engine_inv e0).
      { split; [simpl; lia|]. subst e0. cbn [docblocks].
        exists (metadata_pass f
                  (set_file_name (Some (string_duplicate file_path))
                     init_docblock)).
        split.
        - rewrite !list_lookup_alter_eq, init_docblocks_lookup by lia.
          reflexivity.
        - now rewrite metadata_pass_keeps_name. }
      destruct (body_loop_inv (List.length f) max_blocks e0 He0)
        as [[Hc Hd] Hm]; [simpl; lia|].
      cbn [fst snd]. split; [lia | exact Hd].
    + intros Hmax. apply Z.leb_le in Hmax. now rewrite Hmax.
  - intros ->. now destruct (max_blocks <=? 0)%Z.
Qed.

Lemma parse_shell_file_blocks_witness :
  let r := parse_shell_file (fun _ => Some two_descriptions) "lib.sh"
             (replicate 2 init_docblock) 2 in
  (1 <= fst r <= 2)%Z
  /\ exists d0, snd r !! 0 = Some d0 /\ function_name d0 = None.
Proof.
  apply (proj1 (proj1 (parse_shell_file_blocks
                         (fun _ => Some two_descriptions)
                         "lib.sh" (replicate 2 init_docblock) 2 (le_n 2))
                  two_descriptions eq_refl)).
  reflexivity.
Defined.

(** The block at index 0 is the current block until the first [function]
    tag, and the tags of a function are stored in it like any other: an
    [arg] tag at the head of a file leaves its argument in the file
    block.  And with a capacity of 0 a file that can be opened gives the
    count 0. *)
Lemma file_block_takes_arguments :
  let r := parse_shell_file (fun _ => Some arg_before_function) "lib.sh"
             (replicate 2 init_docblock) 2 in
  fst r = 1%Z
  /\ arguments <$> (snd r !! 0)
     = Some [ {| arg_name := Some "$1"; arg_type := Some "string";
                 arg_description := Some "the path" |} ]
  /\ fst (parse_shell_file (fun _ => Some arg_before_function) "lib.sh"
            (replicate 2 init_docblock) 0) = 0%Z.
Proof. repeat split. Qed.

(** A NUL byte ends the line the engine sees: the tag name of the first
    line below is [function], and the interpreter of the second file is
    what stands before the NUL byte. *)
Lemma nul_byte_ends_line :
  fopen (fun _ => Some function_tag_with_nul) "lib.sh"
  = Some ["# @function"; "# @brief b" ++ LF]
  /\ fst (parse_shell_file (fun _ => Some function_tag_with_nul) "lib.sh"
            (replicate 4 init_docblock) 4) = 2%Z
  /\ interpreter
       <$> (snd (parse_shell_file (fun _ => Some shebang_with_nul) "lib.sh"
                   (replicate 2 init_docblock) 2) !! 0)
     = Some (Some "/bin/sh").
Proof. repeat split. Qed.

(** ** More facts about the string primitives *)

Lemma space_not_hash (c : ascii) : isspace c = true -> Ascii.eqb c "#" = false.
Proof. destruct c as [[] [] [] [] [] [] [] []]; vm_compute; congruence. Qed.

Lemma space_not_at (c : ascii) : isspace c = true -> Ascii.eqb c "@" = false.
Proof. destruct c as [[] [] [] [] [] [] [] []]; vm_compute; congruence. Qed.

Lemma tag_name_len_app (name rest : string) :
  all_chars is_tag_char name = true ->
  (rest = "" \/ exists c t, rest = String c t
                            /\ (isspace c = true \/ c = ":"%char)) ->
  tag_name_len (name ++ rest) = String.length name.
Proof.
  intros Hname Hrest. induction name as [|a s IH]; simpl.
  - destruct Hrest as [-> | (c & t & -> & Hc)]; [reflexivity|]. simpl.
    destruct Hc as [-> | ->]; [reflexivity|]. now rewrite orb_true_r.
  - rewrite all_chars_cons in Hname. apply andb_true_iff in Hname as [Ha Hs].
    unfold is_tag_char in Ha. apply negb_true_iff in Ha. rewrite Ha.
    now rewrite IH.
Qed.

Lemma tag_name_len_chars (s : string) :
  all_chars is_tag_char (strndup s (tag_name_len s)) = true.
Proof.
  induction s as [|a s IH]; simpl; [reflexivity|].
  destruct (isspace a || Ascii.eqb a ":") eqn:E; simpl; [reflexivity|].
  rewrite all_chars_cons, IH. unfold is_tag_char. now rewrite E.
Qed.

Lemma token_len_app (tok rest : string) :
  is_token tok ->
  (rest = "" \/ exists c t, rest = String c t /\ isspace c = true) ->
  token_len (tok ++ rest) = String.length tok.
Proof.
  unfold is_token. intros Htok Hrest. induction tok as [|a s IH]; simpl.
  - destruct Hrest as [-> | (c & t & -> & Hc)]; [reflexivity|]. simpl.
    now rewrite Hc.
  - rewrite all_chars_cons in Htok. apply andb_true_iff in Htok as [Ha Hs].
    apply negb_true_iff in Ha. now rewrite Ha, IH.
Qed.

Lemma token_len_token (s : string) : is_token (strndup s (token_len s)).
Proof.
  unfold is_token. induction s as [|a s IH]; simpl; [reflexivity|].
  destruct (isspace a) eqn:E; simpl; [reflexivity|].
  now rewrite all_chars_cons, E, IH.
Qed.

Lemma skip_spaces_nonempty_token (tok rest : string) :
  is_token tok -> tok <> "" -> skip_spaces (tok ++ rest) = tok ++ rest.
Proof.
  unfold is_token. intros Htok Hne. destruct tok as [|a s]; [congruence|].
  rewrite all_chars_cons in Htok. apply andb_true_iff in Htok as [Ha _].
  apply negb_true_iff in Ha. simpl. now rewrite Ha.
Qed.

Lemma all_space_cases (w : string) :
  all_chars isspace w = true ->
  w = "" \/ exists c t, w = String c t /\ isspace c = true.
Proof.
  destruct w as [|c t]; [now left|]. rewrite all_chars_cons.
  intros [Hc _]%andb_true_iff. right. now exists c, t.
Qed.

(** ** The tag extractor *)

Lemma first_at_of_tag_line (ws rest : string) :
  all_chars isspace ws = true ->
  strstr (ws ++ "# @" ++ rest) "@" = Some (String.length ws + 2).
Proof.
  intros Hws. rewrite strstr_char.
  replace (ws ++ "# @" ++ rest) with ((ws ++ "# ") ++ String "@" rest)
    by (now rewrite append_assoc).
  rewrite strchr_app_found.
  - rewrite length_app. reflexivity.
  - apply strchr_app_r; [|reflexivity].
    apply strchr_all_space; [assumption | reflexivity].
Qed.

Lemma advance_tag_line (ws rest : string) :
  advance (S (String.length ws + 2)) (ws ++ "# @" ++ rest) = rest.
Proof.
  replace (ws ++ "# @" ++ rest) with ((ws ++ "# ") ++ String "@" rest)
    by (now rewrite append_assoc).
  replace (String.length ws + 2) with (String.length (ws ++ "# "))
    by (rewrite length_app; reflexivity).
  apply advance_S_app.
Qed.

(** X1. A tag line written from a name and a content reads back: with any
    indentation, a name free of whitespace and colons, a separator that is
    whitespace or a colon followed by whitespace, and a content without
    leading whitespace, the extractor returns that name and that content,
    and the classifier reports a tag line. *)
Theorem tag_line_round_trip :
  forall (ws name sep content : string),
    all_chars isspace ws = true ->
    all_chars is_tag_char name = true ->
    tag_separator sep ->
    (sep = "" -> content = "") ->
    skip_spaces content = content ->
    let line := ws ++ "# @" ++ name ++ sep ++ content in
    is_tag_line line = true
    /\ extract_tag_name line = Some name
    /\ extract_tag_content line = Some content.
Proof.
  intros ws name sep content Hws Hname Hsep Hempty Hcontent line.
  subst line. split; [|split].
  - unfold is_tag_line, static_is_tag_line.
    now rewrite skip_spaces_app_all.
  - unfold extract_tag_name.
    rewrite first_at_of_tag_line, advance_tag_line by assumption.
    rewrite tag_name_len_app, strndup_app; [reflexivity | assumption |].
    destruct Hsep as [-> | (c & w & -> & Hc & Hw)].
    + left. now rewrite Hempty.
    + right. now exists c, (w ++ content).
  - unfold extract_tag_content.
    rewrite first_at_of_tag_line, advance_tag_line by assumption.
    assert (Hlen : tag_name_len (name ++ sep ++ content) = String.length name).
    { apply tag_name_len_app; [assumption|].
      destruct Hsep as [-> | (c & w & -> & Hc & Hw)].
      - left. now rewrite Hempty.
      - right. now exists c, (w ++ content). }
    rewrite Hlen, advance_app. unfold string_duplicate.
    destruct Hsep as [-> | (c & w & -> & [Hc | ->] & Hw)].
    + rewrite (Hempty eq_refl). reflexivity.
    + simpl. destruct (Ascii.eqb c ":") eqn:E.
      * apply Ascii.eqb_eq in E. subst c. discriminate.
      * simpl. rewrite Hc, skip_spaces_app_all by assumption.
        now rewrite Hcontent.
    + simpl. rewrite skip_spaces_app_all by assumption.
      now rewrite Hcontent.
Qed.

Lemma tag_line_round_trip_witness :
  is_tag_line "  # @param: $1 the name" = true
  /\ extract_tag_name "  # @param: $1 the name" = Some "param"
  /\ extract_tag_content "  # @param: $1 the name" = Some "$1 the name".
Proof.
  apply (tag_line_round_trip "  " "param" ": " "$1 the name"
           eq_refl eq_refl).
  - right. exists ":"%char, " ". repeat split. now right.
  - discriminate.
  - reflexivity.
Defined.

Lemma tag_line_names (line : string) :
  is_tag_line line = true ->
  exists ws rest,
    all_chars isspace ws = true /\ line = ws ++ "# @" ++ rest
    /\ extract_tag_name line = Some (strndup rest (tag_name_len rest))
    /\ exists content, extract_tag_content line = Some content
                       /\ skip_spaces content = content.
Proof.
  intros H. unfold is_tag_line, static_is_tag_line, TAG_PREFIX in H.
  destruct (skip_spaces_split line) as (ws & Hws & Hl).
  destruct (starts_with_split _ _ H) as [rest Hr].
  rewrite Hr in Hl. exists ws, rest. split; [assumption|].
  split; [assumption|]. rewrite Hl.
  unfold extract_tag_name, extract_tag_content.
  rewrite first_at_of_tag_line, advance_tag_line by assumption.
  split; [reflexivity|]. eexists. split; [reflexivity|].
  apply skip_spaces_idem.
Qed.

(** X2. On every tag line the extractor succeeds: it returns a name free
    of whitespace and colons and a content without leading whitespace; and
    a line without [@] has neither name nor content. *)
Theorem tag_line_always_extracts :
  forall line : string,
    (is_tag_line line = true ->
     exists tag content,
       extract_tag_name line = Some tag
       /\ extract_tag_content line = Some content
       /\ all_chars is_tag_char tag = true
       /\ skip_spaces content = content)
    /\ (strchr line "@" = None ->
        extract_tag_name line = None /\ extract_tag_content line = None).
Proof.
  intros line. split.
  - intros H.
    destruct (tag_line_names line H)
      as (ws & rest & _ & _ & Hn & content & Hc & Ht).
    eexists _, content. split; [exact Hn|]. split; [exact Hc|].
    split; [apply tag_name_len_chars | exact Ht].
  - intros H. unfold extract_tag_name, extract_tag_content.
    now rewrite strstr_char, H.
Qed.

Lemma tag_line_always_extracts_witness :
  exists tag content,
    extract_tag_name "# @brief Lists the files" = Some tag
    /\ extract_tag_content "# @brief Lists the files" = Some content
    /\ all_chars is_tag_char tag = true
    /\ skip_spaces content = content.
Proof.
  exact (proj1 (tag_line_always_extracts "# @brief Lists the files") eq_refl).
Defined.

(** ** Names of functions *)

Lemma is_comment_line_split (line : string) :
  is_comment_line line = true ->
  exists ws t, all_chars isspace ws = true /\ line = ws ++ String "#" t
               /\ skip_spaces line = String "#" t.
Proof.
  unfold is_comment_line. intros H.
  destruct (skip_spaces_split line) as (ws & Hws & Hl).
  destruct (skip_spaces line) as [|c t]; [discriminate|].
  apply Ascii.eqb_eq in H as ->. now exists ws, t.
Qed.

Lemma comment_line_no_declaration (line : string) :
  is_comment_line line = true -> is_function_declaration line = false.
Proof.
  intros H.
  destruct (is_comment_line_split line H) as (ws & t & Hws & Hl & Hs).
  unfold is_function_declaration. rewrite Hs.
  change (starts_with "function" (String "#" t)) with false. cbv iota.
  simpl (false && _).
  cbv iota.
  destruct (strchr (String "#" t) "(") as [i|] eqn:Hi; [|reflexivity].
  destruct i as [|i]; [reflexivity|].
  change (0 <? S i)%nat with true. cbv iota.
  simpl strndup. now rewrite all_chars_cons.
Qed.

(** X3. A comment line is never a function declaration, and no function
    name is extracted from it. *)
Theorem comment_never_declaration :
  forall line : string,
    is_comment_line line = true ->
    is_function_declaration line = false
    /\ extract_function_name line = None.
Proof.
  intros line H.
  pose proof (comment_line_no_declaration line H) as Hd.
  split; [exact Hd|]. unfold extract_function_name. now rewrite Hd.
Qed.

Lemma comment_never_declaration_witness :
  is_function_declaration "# deploy() {" = false
  /\ extract_function_name "# deploy() {" = None.
Proof. exact (comment_never_declaration "# deploy() {" eq_refl). Defined.

Lemma skip_spaces_head (s t : string) (c : ascii) :
  skip_spaces s = String c t -> isspace c = false.
Proof.
  induction s as [|a s IH]; simpl; [discriminate|].
  destruct (isspace a) eqn:E; [assumption|].
  intros [= -> _]. assumption.
Qed.

Lemma rtrim_len_le (s : string) : rtrim_len s <= String.length s.
Proof.
  induction s as [|a s IH]; simpl; [lia|].
  destruct (rtrim_len s); [destruct (isspace a)|]; lia.
Qed.

Lemma strndup_strndup (s : string) (n m : nat) :
  m <= n -> strndup (strndup s n) m = strndup s m.
Proof.
  revert n m. induction s as [|a s IH]; intros [|n] [|m] H; simpl;
    try reflexivity; try lia.
  now rewrite IH by lia.
Qed.

Lemma rtrim_len_strndup (s : string) :
  rtrim_len (strndup s (rtrim_len s)) = rtrim_len s.
Proof.
  induction s as [|a s IH]; simpl; [reflexivity|].
  destruct (rtrim_len s) as [|k] eqn:E.
  - destruct (isspace a) eqn:Ha; simpl; [reflexivity|].
    destruct s; simpl; now rewrite Ha.
  - simpl. change (strndup s (S k)) with (strndup s (S k)).
    rewrite IH. reflexivity.
Qed.

Lemma strndup_length (s : string) (n : nat) :
  n <= String.length s -> String.length (strndup s n) = n.
Proof.
  revert n. induction s as [|a s IH]; intros [|n] H; simpl in *;
    try reflexivity; try lia.
  now rewrite IH by lia.
Qed.

(** Cutting the trailing whitespace gives a text without whitespace at its
    end, and keeps a first character that is not whitespace. *)
Lemma rtrim_trimmed (s : string) :
  skip_spaces s = s -> trimmed (strndup s (rtrim_len s)).
Proof.
  intros Hs. split.
  - destruct s as [|a s]; [reflexivity|].
    pose proof (skip_spaces_head _ _ _ Hs) as Ha.
    cbn [rtrim_len]. destruct (rtrim_len s); rewrite ?Ha;
      cbn [strndup skip_spaces]; now rewrite Ha.
  - rewrite rtrim_len_strndup, strndup_length; [reflexivity|].
    apply rtrim_len_le.
Qed.

Lemma rtrim_nonempty (a : ascii) (s : string) :
  isspace a = false -> strndup (String a s) (rtrim_len (String a s)) <> "".
Proof.
  intros Ha. cbn [rtrim_len]. destruct (rtrim_len s); rewrite ?Ha; discriminate.
Qed.

Lemma strchr_strndup_none (s : string) (c : ascii) (n : nat) :
  strchr s c = None -> strchr (strndup s n) c = None.
Proof.
  revert n. induction s as [|a s IH]; intros [|n]; simpl; try reflexivity.
  destruct (Ascii.eqb a c); [discriminate|].
  destruct (strchr s c) eqn:E; [discriminate|]. intros _. now rewrite IH.
Qed.

(** X4. A name extracted from a line is never empty, has no whitespace at
    either end and no parenthesis, and the line is a declaration; a line
    without an opening parenthesis gives no name, even when it is a
    declaration by its keyword. *)
Theorem extracted_function_name_shape :
  forall line : string,
    (forall name, extract_function_name line = Some name ->
       is_function_declaration line = true
       /\ name <> "" /\ trimmed name /\ strchr name "(" = None)
    /\ (strchr line "(" = None -> extract_function_name line = None).
Proof.
  intros line. split.
  - intros name. unfold extract_function_name.
    destruct (is_function_declaration line); [|discriminate]. cbn [negb].
    set (pos := if starts_with "function" (skip_spaces line)
                   && isspace (char_at 8 (skip_spaces line))
                then skip_spaces (advance 8 (skip_spaces line))
                else skip_spaces line).
    assert (Hpos : skip_spaces pos = pos).
    { subst pos.
      destruct (starts_with "function" (skip_spaces line)
                && isspace (char_at 8 (skip_spaces line)));
        apply skip_spaces_idem. }
    clearbody pos.
    destruct (strchr pos "(") as [e|] eqn:He; [|discriminate].
    destruct (0 <? e)%nat eqn:Hlt; [|discriminate].
    apply Nat.ltb_lt in Hlt. intros [= <-].
    pose proof (strchr_Some _ _ _ He) as (pre & post & Hp & Hlen & Hnone).
    rewrite Hp, (strndup_length_app _ _ _ Hlen).
    assert (Hpre : skip_spaces pre = pre).
    { destruct pre as [|a s]; [reflexivity|].
      rewrite Hp in Hpos. apply skip_spaces_head in Hpos.
      now apply skip_spaces_fix. }
    split; [reflexivity|]. split; [|split].
    + destruct pre as [|a s]; [simpl in Hlen; lia|].
      apply rtrim_nonempty. now apply skip_spaces_head in Hpre.
    + now apply rtrim_trimmed.
    + now apply strchr_strndup_none.
  - intros Hn. unfold extract_function_name.
    destruct (is_function_declaration line); [|reflexivity]. cbn [negb].
    set (pos := if starts_with "function" (skip_spaces line)
                   && isspace (char_at 8 (skip_spaces line))
                then skip_spaces (advance 8 (skip_spaces line))
                else skip_spaces line).
    assert (Hsuf : exists pre, line = pre ++ pos).
    { subst pos. destruct (skip_spaces_split line) as (ws & _ & Hl).
      destruct (starts_with "function" (skip_spaces line)
                && isspace (char_at 8 (skip_spaces line))) eqn:Hk.
      - apply keyword_test in Hk as (sp & rest & Hsp & Hpos).
        rewrite Hpos. cbn [advance append skip_spaces]. rewrite Hsp.
        destruct (skip_spaces_split rest) as (w2 & _ & Hr).
        exists (ws ++ "function" ++ String sp w2).
        rewrite Hl at 1. rewrite Hpos.
        rewrite Hr at 1. now rewrite !append_assoc.
      - now exists ws. }
    destruct Hsuf as [pre Hpre]. clearbody pos.
    destruct (strchr pos "(") as [e|] eqn:He; [|reflexivity].
    apply strchr_Some in He as (p1 & p2 & -> & _ & _).
    rewrite Hpre, <- append_assoc in Hn.
    destruct (strchr_app_some (pre ++ p1) p2 "(") as [k Hk]. congruence.
Qed.

Lemma extracted_function_name_shape_witness :
  is_function_declaration "function deploy_all () {" = true
  /\ "deploy_all" <> "" /\ trimmed "deploy_all"
  /\ strchr "deploy_all" "(" = None.
Proof.
  exact (proj1 (extracted_function_name_shape "function deploy_all () {")
           "deploy_all" eq_refl).
Defined.

Lemma strndup_full (s : string) : strndup s (String.length s) = s.
Proof. induction s as [|a s IH]; simpl; [reflexivity | now rewrite IH]. Qed.

Lemma rtrim_len_token (s : string) :
  is_token s -> rtrim_len s = String.length s.
Proof.
  unfold is_token. induction s as [|a s IH]; simpl; [reflexivity|].
  rewrite all_chars_cons. intros [Ha Hs]%andb_true_iff.
  apply negb_true_iff in Ha. rewrite (IH Hs), Ha. now destruct (String.length s).
Qed.

Lemma name_chars_token (name : string) :
  all_chars is_name_char name = true -> is_token name.
Proof.
  unfold is_token. induction name as [|a s IH]; simpl; [reflexivity|].
  rewrite !all_chars_cons. intros [Ha Hs]%andb_true_iff.
  now rewrite (name_char_not_space a Ha), IH.
Qed.

(** A name followed by a parenthesis does not start with the keyword
    and a whitespace character. *)
Lemma bare_not_keyword (name x rest : string) (sp : ascii) :
  all_chars is_name_char name = true -> isspace sp = true ->
  name ++ String "(" x <> "function" ++ String sp rest.
Proof.
  intros Hn Hsp E.
  do 8 (destruct name as [|? name];
        [discriminate E
        | rewrite all_chars_cons in Hn;
          apply andb_true_iff in Hn as [_ Hn];
          simpl in E; injection E as _ E]).
  destruct name as [|z name]; simpl in E.
  - injection E as <- _. discriminate Hsp.
  - injection E as -> _. rewrite all_chars_cons in Hn.
    apply andb_true_iff in Hn as [Hz _].
    apply name_char_not_space in Hz. congruence.
Qed.

Lemma bare_form_is_declaration (ws name args ws2 rest : string) :
  all_chars isspace ws = true ->
  name <> "" -> all_chars is_name_char name = true ->
  strchr args ")" = None -> all_chars isspace ws2 = true ->
  let line := ws ++ name ++ "(" ++ args ++ ")" ++ ws2 ++ "{" ++ rest in
  skip_spaces line
  = name ++ String "(" (args ++ String ")" (ws2 ++ String "{" rest))
  /\ starts_with "function" (skip_spaces line)
     && isspace (char_at 8 (skip_spaces line)) = false
  /\ is_function_declaration line = true.
Proof.
  intros Hws Hne Hname Hargs Hws2 line.
  assert (Hskip : skip_spaces line
            = name ++ String "(" (args ++ String ")" (ws2 ++ String "{" rest))).
  { subst line. apply skip_spaces_token; [assumption..|].
    apply skip_spaces_nonempty_token with (rest := "") in Hne.
    - now rewrite append_nil_r in Hne.
    - now apply name_chars_token. }
  assert (Hkw : starts_with "function" (skip_spaces line)
                && isspace (char_at 8 (skip_spaces line)) = false).
  { destruct (starts_with "function" (skip_spaces line)
              && isspace (char_at 8 (skip_spaces line))) eqn:E;
      [|reflexivity].
    apply keyword_test in E as (sp & r & Hsp & E). rewrite Hskip in E.
    now apply bare_not_keyword in E. }
  split; [exact Hskip|]. split; [exact Hkw|].
  unfold is_function_declaration. fold line. rewrite Hkw, Hskip.
  rewrite strchr_app_found by now apply strchr_name_chars.
  destruct (0 <? String.length name)%nat eqn:Hl.
  2:{ destruct name; [congruence | discriminate]. }
  rewrite strndup_app, Hname, advance_app.
  change (String "(" (args ++ String ")" (ws2 ++ String "{" rest)))
    with (String "(" args ++ String ")" (ws2 ++ String "{" rest)).
  rewrite strchr_app_found by (simpl; now rewrite Hargs).
  rewrite advance_add, advance_app, advance_app.
  change (String ")" (ws2 ++ String "{" rest))
    with (String ")" ws2 ++ String "{" rest).
  rewrite strchr_app_found by (simpl; now rewrite strchr_all_space).
  simpl. now rewrite Nat.sub_0_r, strndup_app.
Qed.

(** X5. The name written in a declaration reads back: from a bare
    declaration the extractor returns the name before the parenthesis; from
    a declaration with the keyword it returns what stands between the
    keyword and the first parenthesis, without the whitespace around it. *)
Theorem function_name_round_trip :
  (forall ws name args ws2 rest : string,
     all_chars isspace ws = true ->
     name <> "" -> all_chars is_name_char name = true ->
     strchr args ")" = None -> all_chars isspace ws2 = true ->
     extract_function_name
       (ws ++ name ++ "(" ++ args ++ ")" ++ ws2 ++ "{" ++ rest)
     = Some name)
  /\ (forall (ws : string) (sp : ascii) (ws1 name wsn rest : string),
        all_chars isspace ws = true -> isspace sp = true ->
        all_chars isspace ws1 = true -> all_chars isspace wsn = true ->
        name <> "" -> trimmed name -> strchr name "(" = None ->
        extract_function_name
          (ws ++ "function"
              ++ String sp (ws1 ++ name ++ wsn ++ "(" ++ rest))
        = Some name).
Proof.
  split.
  - intros ws name args ws2 rest Hws Hne Hname Hargs Hws2.
    destruct (bare_form_is_declaration ws name args ws2 rest
                Hws Hne Hname Hargs Hws2) as (Hskip & Hkw & Hdecl).
    unfold extract_function_name. rewrite Hdecl. cbn [negb].
    rewrite Hkw, Hskip.
    rewrite strchr_app_found by now apply strchr_name_chars.
    destruct (0 <? String.length name)%nat eqn:Hl.
    2:{ destruct name; [congruence | discriminate]. }
    rewrite strndup_app, rtrim_len_token, strndup_full
      by now apply name_chars_token.
    reflexivity.
  - intros ws sp ws1 name wsn rest Hws Hsp Hws1 Hwsn Hne [Hlead Htrail] Hpar.
    set (line := ws ++ "function"
                    ++ String sp (ws1 ++ name ++ wsn ++ "(" ++ rest)).
    assert (Hskip : skip_spaces line
              = "function" ++ String sp (ws1 ++ name ++ wsn ++ "(" ++ rest)).
    { subst line. rewrite skip_spaces_app_all by assumption. reflexivity. }
    assert (Hkw : starts_with "function" (skip_spaces line)
                  && isspace (char_at 8 (skip_spaces line)) = true).
    { apply keyword_test. rewrite Hskip.
      exists sp, (ws1 ++ name ++ wsn ++ "(" ++ rest). now split. }
    assert (Hdecl : is_function_declaration line = true)
      by (unfold is_function_declaration; now rewrite Hkw).
    unfold extract_function_name. rewrite Hdecl, Hkw. cbn [negb].
    rewrite Hskip.
    change (advance 8 ("function"
                       ++ String sp (ws1 ++ name ++ wsn ++ "(" ++ rest)))
      with (String sp (ws1 ++ name ++ wsn ++ "(" ++ rest)).
    cbn [skip_spaces]. rewrite Hsp.
    rewrite (skip_spaces_token ws1 name) by assumption.
    replace (name ++ wsn ++ "(" ++ rest)
      with ((name ++ wsn) ++ String "(" rest)
      by (now rewrite append_assoc).
    rewrite strchr_app_found
      by (apply strchr_app_r; [assumption | now apply strchr_all_space]).
    destruct (0 <? String.length (name ++ wsn))%nat eqn:Hl.
    2:{ destruct name; [congruence | discriminate]. }
    rewrite strndup_app, rtrim_len_app_all, Htrail, strndup_app by assumption.
    reflexivity.
Qed.

Lemma function_name_round_trip_witness :
  extract_function_name "  deploy_all() {" = Some "deploy_all"
  /\ extract_function_name "function  deploy_all () {" = Some "deploy_all".
Proof.
  split.
  - apply (proj1 function_name_round_trip "  " "deploy_all" "" " " "");
      try reflexivity. discriminate.
  - apply (proj2 function_name_round_trip "" " "%char " " "deploy_all" " "
             ") {"); try reflexivity; [discriminate | now split].
Defined.

(** ** Arguments, parameters and exit codes *)

Lemma advance_token_rest (tok w rest : string) :
  all_chars isspace w = true ->
  skip_spaces (advance (String.length tok) (tok ++ w ++ rest))
  = skip_spaces rest.
Proof. intros Hw. now rewrite advance_app, skip_spaces_app_all. Qed.

Lemma token_len_pos (s : string) :
  skip_spaces s <> "" -> 0 < token_len (skip_spaces s).
Proof.
  intros H. destruct (skip_spaces s) as [|a t] eqn:E; [congruence|].
  apply skip_spaces_head in E. simpl. rewrite E. lia.
Qed.

(** X6. An argument tag is accepted exactly when its content has a
    character that is not whitespace; it then appends one argument, whose
    name is a non-empty token, after the arguments already there, and
    changes nothing else in the docblock. *)
Theorem argument_tag_appends_one :
  forall (d : shellscribe_docblock_t) (content : string),
    (fst (process_argument_tag d content) = true
     <-> skip_spaces content <> "")
    /\ (skip_spaces content <> "" ->
        exists name type desc,
          snd (process_argument_tag d content)
          = set_arguments
              (arguments d
               ++ [ {| arg_name := Some name; arg_type := type;
                       arg_description := Some desc |} ]) d
          /\ name <> "" /\ is_token name /\ skip_spaces desc = desc).
Proof.
  intros d content. unfold process_argument_tag.
  destruct (0 <? token_len (skip_spaces content))%nat eqn:E.
  - apply Nat.ltb_lt in E. split.
    + split; [|reflexivity]. intros _ H. rewrite H in E. simpl in E. lia.
    + intros _. eexists _, _, _. split; [reflexivity|].
      split; [|split].
      * destruct (skip_spaces content) as [|a t] eqn:Hs; [simpl in E; lia|].
        simpl in *. destruct (isspace a); [lia | discriminate].
      * apply token_len_token.
      * apply skip_spaces_idem.
  - apply Nat.ltb_ge in E. split.
    + split; [discriminate|]. intros H.
      apply token_len_pos in H. lia.
    + intros H. apply token_len_pos in H. lia.
Qed.

Lemma argument_tag_appends_one_witness :
  exists name type desc,
    snd (process_argument_tag init_docblock "$1 string the path")
    = set_arguments
        (arguments init_docblock
         ++ [ {| arg_name := Some name; arg_type := type;
                 arg_description := Some desc |} ]) init_docblock
    /\ name <> "" /\ is_token name /\ skip_spaces desc = desc.
Proof.
  apply (proj2 (argument_tag_appends_one init_docblock "$1 string the path")).
  discriminate.
Defined.

(** X7. The three slots of an argument: the first token is the name, the
    second token, when there is one, is the type, and the rest, without
    its leading whitespace, is the description.  With two tokens the
    second is taken as the type and the description is empty; with one
    the type is absent. *)
Theorem argument_tag_slots :
  forall (d : shellscribe_docblock_t) (ws name w1 type w2 desc : string),
    all_chars isspace ws = true ->
    is_token name -> name <> "" ->
    all_chars isspace w1 = true -> w1 <> "" ->
    is_token type -> type <> "" ->
    all_chars isspace w2 = true -> w2 <> "" ->
    skip_spaces desc = desc ->
    let stored ty de :=
      (true, set_arguments
               (arguments d
                ++ [ {| arg_name := Some name; arg_type := ty;
                        arg_description := Some de |} ]) d) in
    process_argument_tag d (ws ++ name ++ w1 ++ type ++ w2 ++ desc)
    = stored (Some type) desc
    /\ process_argument_tag d (ws ++ name ++ w1 ++ type) = stored (Some type) ""
    /\ process_argument_tag d (ws ++ name) = stored None "".
Proof.
  intros d ws name w1 type w2 desc Hws Hname Hne Hw1 Hw1ne Htype Htne
         Hw2 Hw2ne Hdesc stored.
  assert (Hsp : forall w x, all_chars isspace w = true -> w <> "" ->
            exists c t, w ++ x = String c t /\ isspace c = true).
  { intros w x Hw Hwne. destruct w as [|c t]; [congruence|].
    rewrite all_chars_cons in Hw. apply andb_true_iff in Hw as [Hc _].
    now exists c, (t ++ x). }
  assert (Hgen : forall tail,
            (tail = "" \/ exists c t, tail = String c t /\ isspace c = true) ->
            process_argument_tag d (ws ++ name ++ tail)
            = let rest := skip_spaces tail in
              let tl := token_len rest in
              stored (if (0 <? tl)%nat then Some (strndup rest tl) else None)
                     (skip_spaces (advance tl rest))).
  { intros tail Htail. unfold process_argument_tag.
    rewrite skip_spaces_app_all by assumption.
    rewrite skip_spaces_nonempty_token by assumption.
    rewrite token_len_app by assumption.
    destruct (0 <? String.length name)%nat eqn:Hl.
    2:{ destruct name; [congruence | discriminate]. }
    now rewrite strndup_app, advance_app. }
  split; [|split].
  - rewrite Hgen by (right; now apply Hsp).
    cbn zeta. rewrite skip_spaces_app_all by assumption.
    rewrite skip_spaces_nonempty_token by assumption.
    rewrite token_len_app by (assumption || (right; now apply Hsp)).
    destruct (0 <? String.length type)%nat eqn:Hl.
    2:{ destruct type; [congruence | discriminate]. }
    rewrite strndup_app, advance_app, skip_spaces_app_all by assumption.
    now rewrite Hdesc.
  - rewrite Hgen by (right; rewrite <- (append_nil_r type); now apply Hsp).
    cbn zeta. rewrite skip_spaces_app_all by assumption.
    rewrite <- (append_nil_r type).
    rewrite skip_spaces_nonempty_token by assumption.
    rewrite token_len_app by (assumption || now left).
    destruct (0 <? String.length type)%nat eqn:Hl.
    2:{ destruct type; [congruence | discriminate]. }
    rewrite strndup_app, advance_app, append_nil_r. reflexivity.
  - rewrite <- (append_nil_r name). rewrite Hgen by (now left). reflexivity.
Qed.

Lemma argument_tag_slots_witness :
  process_argument_tag init_docblock "$1 string the path"
  = (true, set_arguments
             [ {| arg_name := Some "$1"; arg_type := Some "string";
                  arg_description := Some "the path" |} ] init_docblock).
Proof.
  apply (proj1 (argument_tag_slots init_docblock "" "$1" " " "string" " "
                  "the path" eq_refl eq_refl ltac:(discriminate) eq_refl
                  ltac:(discriminate) eq_refl ltac:(discriminate) eq_refl
                  ltac:(discriminate) eq_refl)).
Defined.

(** X8. A parameter tag does not skip leading whitespace: it is accepted
    exactly when its content starts with a character that is not
    whitespace, its name is then the first token and its description the
    rest without leading whitespace; otherwise the docblock is left as it
    was. *)
Theorem parameter_tag_slots :
  forall (d : shellscribe_docblock_t) (content : string),
    (fst (process_parameter_tag d content) = true
     <-> content <> "" /\ skip_spaces content = content)
    /\ (fst (process_parameter_tag d content) = false ->
        snd (process_parameter_tag d content) = d)
    /\ (forall name w desc,
          content = name ++ w ++ desc ->
          is_token name -> name <> "" ->
          all_chars isspace w = true -> (w = "" -> desc = "") ->
          skip_spaces desc = desc ->
          process_parameter_tag d content
          = (true, set_params
                     (params d
                      ++ [ {| param_name := Some name;
                              param_description := Some desc |} ]) d)).
Proof.
  intros d content. split; [|split].
  - unfold process_parameter_tag.
    destruct content as [|a t]; [simpl; split; [discriminate | tauto]|].
    simpl. destruct (isspace a) eqn:Ha; simpl.
    + split; [discriminate|]. intros [_ H]. apply skip_spaces_head in H.
      congruence.
    + split; [|reflexivity]. intros _. split; [discriminate | reflexivity].
  - unfold process_parameter_tag.
    now destruct (0 <? token_len content)%nat.
  - intros name w desc -> Hname Hne Hw Hwd Hdesc.
    unfold process_parameter_tag.
    assert (Hlen : token_len (name ++ w ++ desc) = String.length name).
    { apply token_len_app; [assumption|].
      destruct w as [|c t]; [left; now rewrite Hwd | right].
      rewrite all_chars_cons in Hw. apply andb_true_iff in Hw as [Hc _].
      now exists c, (t ++ desc). }
    rewrite Hlen.
    destruct (0 <? String.length name)%nat eqn:Hl.
    2:{ destruct name; [congruence | discriminate]. }
    rewrite strndup_app, advance_app, skip_spaces_app_all by assumption.
    now rewrite Hdesc.
Qed.

Lemma parameter_tag_slots_witness :
  process_parameter_tag init_docblock "path the file to read"
  = (true, set_params
             [ {| param_name := Some "path";
                  param_description := Some "the file to read" |} ]
             init_docblock).
Proof.
  apply (proj2 (proj2 (parameter_tag_slots init_docblock
                         "path the file to read"))
           "path" " " "the file to read" eq_refl eq_refl
           ltac:(discriminate) eq_refl ltac:(discriminate) eq_refl).
Defined.

(** X9. An exit code tag fails, leaving the docblock, exactly when its
    content is empty or whitespace.  Otherwise it appends one exit code:
    the code is what stands before the first space character (the whole
    content when it has none, so a tab does not end the code) and the
    description is what follows, without its leading whitespace. *)
Theorem exitcode_tag_slots :
  forall (d : shellscribe_docblock_t) (ws code w desc : string),
    all_chars isspace ws = true ->
    code <> "" -> skip_spaces code = code -> strchr code " " = None ->
    all_chars isspace w = true -> skip_spaces desc = desc ->
    let stored c de :=
      (true, set_exitcodes
               (exitcodes d
                ++ [ {| exit_code := Some c;
                        exit_description := Some de |} ]) d) in
    process_exitcode_tag d (ws ++ code ++ " " ++ w ++ desc) = stored code desc
    /\ process_exitcode_tag d (ws ++ code) = stored code ""
    /\ process_exitcode_tag d ws = (false, d).
Proof.
  intros d ws code w desc Hws Hne Hlead Hsp Hw Hdesc stored.
  unfold process_exitcode_tag, parse_exitcode_content.
  split; [|split].
  - rewrite (skip_spaces_token ws code) by assumption.
    destruct (code ++ " " ++ w ++ desc) eqn:E.
    { destruct code; [congruence | discriminate]. }
    rewrite <- E. clear E.
    change (code ++ " " ++ w ++ desc) with (code ++ String " " (w ++ desc)).
    rewrite strchr_app_found, strndup_app, advance_S_app by assumption.
    rewrite skip_spaces_app_all, Hdesc by assumption. reflexivity.
  - rewrite skip_spaces_app_all, Hlead, Hsp by assumption.
    destruct code; [congruence | reflexivity].
  - now rewrite skip_spaces_all.
Qed.

Lemma exitcode_tag_slots_witness :
  process_exitcode_tag init_docblock "2  missing argument"
  = (true, set_exitcodes
             [ {| exit_code := Some "2";
                  exit_description := Some "missing argument" |} ]
             init_docblock).
Proof.
  apply (proj1 (exitcode_tag_slots init_docblock "" "2" " "
                  "missing argument" eq_refl ltac:(discriminate) eq_refl
                  eq_refl eq_refl eq_refl)).
Defined.

(** ** The dispatcher: what it drops and what it stores *)

Lemma existsb_eqb_false (tag : string) (l : list string) :
  existsb (String.eqb tag) l = false ->
  forall t, In t l -> String.eqb tag t = false.
Proof.
  induction l as [|x l IH]; simpl; [tauto|].
  intros [Hx Hl]%orb_false_iff t [<- | Ht]; [assumption | now apply IH].
Qed.

(** X10. A tag outside the few the dispatcher knows is dropped: the call
    fails and the array of docblocks and the state are left as they were.
    This holds for every other tag name, among them [see], [env],
    [option], [set], [stdin], [alias], [section], [noargs], [deprecated],
    [replacement], [eol] and the relationship tags. *)
Theorem unhandled_tags_dropped :
  forall (l : list shellscribe_docblock_t) (st : parser_state_t)
         (tag content : string),
    existsb (String.eqb tag) handled_tags = false ->
    state_process_tag l st tag content = (false, l, st).
Proof.
  intros l st tag content H.
  pose proof (existsb_eqb_false tag handled_tags H) as Hno.
  unfold state_process_tag.
  destruct (l !! current_block st) as [block|] eqn:Hl; [|reflexivity].
  unfold on_current_block.
  assert (Halert : existsb (String.eqb tag) alert_tags = false).
  { unfold alert_tags. cbn [existsb].
    rewrite !Hno by (unfold handled_tags; cbn [In]; tauto). reflexivity. }
  destruct (is_file_level_tag tag) eqn:Hfile.
  - unfold process_file_metadata_tag, tag_mappings. cbn [List.find fst snd].
    rewrite !Hno by (unfold handled_tags; cbn [In]; tauto).
    cbn [fst snd]. now rewrite list_insert_id.
  - rewrite !Hno by (unfold handled_tags; cbn [In]; tauto).
    cbn [orb]. now rewrite Halert.
Qed.

Lemma unhandled_tags_dropped_witness :
  state_process_tag [init_docblock]
    {| file := []; current_block := 0; line_number := 3;
       in_docblock := false |} "see" "[Bash](https://gnu.org/bash)"
  = (false, [init_docblock],
     {| file := []; current_block := 0; line_number := 3;
        in_docblock := false |}).
Proof.
  apply (unhandled_tags_dropped [init_docblock]
           {| file := []; current_block := 0; line_number := 3;
              in_docblock := false |} "see"
           "[Bash](https://gnu.org/bash)" eq_refl).
Defined.

Lemma alert_tag_not_file_level (tag : string) :
  existsb (String.eqb tag) alert_tags = true ->
  is_file_level_tag tag = false
  /\ String.eqb tag "function" = false /\ String.eqb tag "brief" = false
  /\ String.eqb tag "description" = false
  /\ String.eqb tag "arg" || String.eqb tag "argument" = false
  /\ String.eqb tag "param" = false /\ String.eqb tag "return" = false
  /\ String.eqb tag "returns" = false /\ String.eqb tag "exitcode" = false
  /\ String.eqb tag "example" = false /\ String.eqb tag "stdout" = false
  /\ String.eqb tag "stderr" = false /\ String.eqb tag "internal" = false.
Proof.
  unfold alert_tags. cbn [existsb]. rewrite !orb_true_iff.
  intros H.
  repeat match goal with
         | H : _ \/ _ |- _ => destruct H as [H | H]
         end;
    try discriminate H;
    apply String.eqb_eq in H; subst tag; repeat split.
Qed.

(** X11. Every tag of the alert family is stored, never dropped: the
    dispatcher appends one alert whose content is the tag content as it is
    and whose type is one of the seven type codes; the tags [error] and
    [alert], which have no code of their own, are stored as notes. *)
Theorem alert_tags_append_one :
  forall (l : list shellscribe_docblock_t) (st : parser_state_t)
         (d : shellscribe_docblock_t) (tag content : string),
    l !! current_block st = Some d ->
    existsb (String.eqb tag) alert_tags = true ->
    state_process_tag l st tag content
    = (true,
       <[current_block st :=
           set_alerts
             (alerts d
              ++ [ {| alert_type := Some (get_alert_type tag);
                      alert_content := Some content |} ]) d]> l,
       st)
    /\ In (get_alert_type tag) alert_types
    /\ get_alert_type "error" = "NOTE" /\ get_alert_type "alert" = "NOTE".
Proof.
  intros l st d tag content Hl Htag. split; [|split; [|now split]].
  - destruct (alert_tag_not_file_level tag Htag)
      as (H1 & H2 & H3 & H4 & H5 & H6 & H7 & H8 & H9 & H10 & H11 & H12 & H13).
    unfold state_process_tag.
    rewrite Hl, H1, H2, H3, H4, H5, H6, H7, H8, H9, H10, H11, H12, H13, Htag.
    reflexivity.
  - unfold get_alert_type, alert_types.
    repeat match goal with
           | |- context [String.eqb tag ?x] => destruct (String.eqb tag x)
           end; cbn [In]; tauto.
Qed.

Lemma alert_tags_append_one_witness :
  state_process_tag [init_docblock]
    {| file := []; current_block := 0; line_number := 3;
       in_docblock := false |} "hint" "use -v to see more"
  = (true,
     [set_alerts [ {| alert_type := Some "TIP";
                      alert_content := Some "use -v to see more" |} ]
        init_docblock],
     {| file := []; current_block := 0; line_number := 3;
        in_docblock := false |}).
Proof.
  apply (proj1 (alert_tags_append_one [init_docblock]
                  {| file := []; current_block := 0; line_number := 3;
                     in_docblock := false |} init_docblock "hint"
                  "use -v to see more" eq_refl eq_refl)).
Defined.

(** ** The name of a [function] tag *)

Lemma starts_with_parens_app (s : string) :
  starts_with "()" s = false -> starts_with "()" (s ++ "()") = false
  \/ s = "".
Proof.
  intros H. destruct s as [|a s]; [now right|]. left. revert H.
  cbn [append starts_with].
  destruct (Ascii.eqb "(" a); [|reflexivity]. cbn [andb].
  destruct s as [|b s]; [reflexivity|]. cbn [append starts_with].
  now rewrite !andb_true_r.
Qed.

Lemma strstr_parens_at_end (name : string) :
  strstr name "()" = None ->
  strstr (name ++ "()") "()" = Some (String.length name).
Proof.
  induction name as [|a s IH]; [reflexivity|].
  intros H. cbn [strstr] in H.
  destruct (starts_with "()" (String a s)) eqn:E; [discriminate|].
  destruct (strstr s "()") eqn:Hs; [discriminate|].
  destruct (starts_with_parens_app _ E) as [E' | E']; [|discriminate].
  change (String a s ++ "()") with (String a (s ++ "()")) in *.
  cbn [strstr]. rewrite E', (IH eq_refl). reflexivity.
Qed.

(** X12. The name stored for a [function] tag: a content without [()] is
    stored as it is, and a final [()] written after such a name is cut, so
    [# @function deploy()] and [# @function deploy] name the same
    function. *)
Theorem function_tag_name_strips_parens :
  forall name : string,
    strstr name "()" = None ->
    function_tag_name name = name
    /\ function_tag_name (name ++ "()") = name.
Proof.
  intros name H. unfold function_tag_name. split.
  - now rewrite H.
  - rewrite (strstr_parens_at_end name H), length_app.
    cbn [String.length]. rewrite Nat.eqb_refl. apply strndup_app.
Qed.

Lemma function_tag_name_strips_parens_witness :
  function_tag_name "deploy" = "deploy"
  /\ function_tag_name ("deploy" ++ "()") = "deploy".
Proof. exact (function_tag_name_strips_parens "deploy" eq_refl). Defined.

(** ** The body loop, line by line *)

(** The body of the loop without its branch for function declarations,
    which no comment line reaches. *)
Lemma body_line_unfold (line : string) (e : engine_t) :
  body_line line e
  = if is_comment_line line then
      if is_tag_line line then
        match extract_tag_name line, extract_tag_content line with
        | Some tag, Some content =>
            tag_step tag content (shellcheck_step line e)
        | _, _ => shellcheck_step line e
        end
      else shellcheck_step line e
    else with_state (set_in_docblock false (state e)) e.
Proof.
  unfold body_line. fold (shellcheck_step line e).
  destruct (is_comment_line line) eqn:Hc; [|reflexivity].
  destruct (is_tag_line line); [reflexivity|].
  now rewrite (comment_line_no_declaration line Hc).
Qed.

Lemma shellcheck_step_facts (line : string) (e : engine_t) :
  block_count (shellcheck_step line e) = block_count e
  /\ state (shellcheck_step line e) = state e
  /\ List.length (docblocks (shellcheck_step line e))
     = List.length (docblocks e)
  /\ docblocks (shellcheck_step line e) !! 0 = docblocks e !! 0
  /\ forall i d, docblocks e !! i = Some d ->
       exists d', docblocks (shellcheck_step line e) !! i = Some d'
                  /\ function_name d' = function_name d.
Proof.
  unfold shellcheck_step.
  destruct (is_shellcheck_directive line);
    [|repeat split; eauto].
  destruct (docblocks e !! current_block (state e)) as [block|] eqn:Hb;
    [|repeat split; eauto].
  destruct (current_block (state e) =? 0)%nat eqn:E;
    [repeat split; eauto|].
  apply Nat.eqb_neq in E. cbn [with_docblocks block_count state docblocks].
  repeat split.
  - apply length_insert.
  - apply list_lookup_insert_ne. congruence.
  - intros i d Hi.
    destruct (decide (i = current_block (state e))) as [->|Hne].
    + rewrite list_lookup_insert_eq by (eapply lookup_lt_Some; eassumption).
      eexists. split; [reflexivity|].
      rewrite Hb in Hi. injection Hi as <-. apply shellcheck_keeps_name.
    + rewrite list_lookup_insert_ne by congruence. now exists d.
Qed.

(** *** What the collectors consume *)

Lemma collect_loop_drops (f : FILE) (acc : string) :
  exists k, snd (collect_loop f f acc) = drop k f /\ continuation_run k f.
Proof.
  revert acc. induction f as [|raw rest IH]; intros acc.
  - exists 0. split; [reflexivity | constructor].
  - rewrite collect_loop_cons.
    destruct (is_continuation_line (chomp raw)) eqn:Hc.
    + assert (Hcom : is_comment_line (chomp raw) = true).
      { unfold is_continuation_line in Hc.
        now apply andb_true_iff in Hc as [[H _]%andb_true_iff _]. }
      destruct (comment_line_hash _ Hcom) as (h & -> & _).
      destruct (IH (string_concat (string_concat acc LF)
                      (skip_spaces (advance (S h) (chomp raw)))))
        as (k & Hk & Hrun).
      exists (S k). split; [exact Hk|].
      unfold continuation_run. cbn [take]. now constructor.
    + exists 0. split; [reflexivity | constructor].
Qed.

Lemma example_loop_drops (f : FILE) (acc : string) :
  exists k, snd (example_loop f f acc) = drop k f /\ continuation_run k f.
Proof.
  revert acc. induction f as [|raw rest IH]; intros acc.
  - exists 0. split; [reflexivity | constructor].
  - cbn [example_loop].
    destruct (is_continuation_line (chomp raw)) eqn:Hc.
    + assert (Hcom : is_comment_line (chomp raw) = true).
      { unfold is_continuation_line in Hc.
        now apply andb_true_iff in Hc as [[H _]%andb_true_iff _]. }
      destruct (comment_line_hash _ Hcom) as (h & -> & _).
      destruct (IH (string_concat (string_concat acc LF)
                      (advance (S h) (chomp raw))))
        as (k & Hk & Hrun).
      exists (S k). split; [exact Hk|].
      unfold continuation_run. cbn [take]. now constructor.
    + exists 0. split; [reflexivity | constructor].
Qed.

Lemma continuation_run_0 (f : FILE) : continuation_run 0 f.
Proof. unfold continuation_run. rewrite take_0. constructor. Qed.

(** *** What a dispatched tag leaves of the current block *)

Lemma metadata_frame d tag content :
  let d' := snd (process_file_metadata_tag d tag content) in
  shellcheck_directives d' = shellcheck_directives d
  /\ interpreter d' = interpreter d
  /\ (is_skipped d = true -> is_skipped d' = true)
  /\ (String.eqb tag "skip" = true -> is_skipped d' = true).
Proof.
  unfold process_file_metadata_tag, tag_mappings. cbn [List.find fst snd].
  repeat match goal with
         | |- context [if String.eqb tag ?x then _ else _] =>
             destruct (String.eqb tag x) eqn:?
         end;
    cbn; repeat split; trivial;
    intros Hs; first [discriminate Hs
                     | apply String.eqb_eq in Hs; subst tag; discriminate].
Qed.

Ltac frame_side :=
  repeat split; try apply continuation_run_0; try assumption;
  cbn; try discriminate; auto.

(** The dispatcher, seen from the current block: the fields no tag
    changes, the flag no tag clears, the name a [function] tag sets and no
    other tag removes, and the lines it consumes. *)
Lemma state_process_tag_frame
  (l : list shellscribe_docblock_t) (st : parser_state_t)
  (tag content : string) (block : shellscribe_docblock_t) :
  l !! current_block st = Some block ->
  exists ok d' st' k,
    state_process_tag l st tag content
    = (ok, <[current_block st := d']> l, st')
    /\ current_block st' = current_block st
    /\ file st' = drop k (file st) /\ continuation_run k (file st)
    /\ shellcheck_directives d' = shellcheck_directives block
    /\ interpreter d' = interpreter block
    /\ (is_skipped block = true -> is_skipped d' = true)
    /\ (function_name block <> None -> function_name d' <> None)
    /\ (String.eqb tag "function" = true -> function_name d' <> None).
Proof.
  intros Hl. unfold state_process_tag. rewrite Hl. unfold on_current_block.
  destruct (is_file_level_tag tag) eqn:Hfile.
  { destruct (metadata_frame block tag content) as (H1 & H2 & H3 & _).
    pose proof (metadata_keeps_name block tag content) as H4.
    unfold keeps_function_name in H4.
    eexists _, _, _, 0. split; [reflexivity|].
    repeat split; try assumption; try apply continuation_run_0.
    - now rewrite H4.
    - intros E. apply String.eqb_eq in E. subst tag. discriminate Hfile. }
  destruct (String.eqb tag "function") eqn:Hfun.
  { eexists _, _, _, 0. split; [reflexivity|].
    frame_side. }
  destruct (String.eqb tag "brief").
  { destruct (function_name block) eqn:Hn;
      (eexists _, _, _, 0; split; [reflexivity|];
       frame_side; now rewrite Hn). }
  destruct (String.eqb tag "description").
  { unfold state_collect_continued_content.
    destruct (collect_loop_drops (file st) (string_duplicate content))
      as (k & Hk & Hrun).
    destruct (collect_loop (file st) (file st) (string_duplicate content))
      as [acc f]. cbn [snd] in Hk.
    destruct (function_name block) eqn:Hn;
      (eexists _, _, _, k; split; [reflexivity|];
       frame_side; now rewrite Hn). }
  destruct (String.eqb tag "arg" || String.eqb tag "argument").
  { eexists _, _, _, 0. split; [reflexivity|].
    pose proof (argument_keeps_name block content) as H4.
    unfold keeps_function_name in H4. unfold process_argument_tag in *.
    destruct (0 <? token_len (skip_spaces content))%nat;
      frame_side. }
  destruct (String.eqb tag "param").
  { eexists _, _, _, 0. split; [reflexivity|].
    unfold process_parameter_tag.
    destruct (0 <? token_len content)%nat;
      frame_side. }
  destruct (String.eqb tag "return").
  { eexists _, _, _, 0. split; [reflexivity|].
    frame_side. }
  destruct (String.eqb tag "returns").
  { eexists _, _, _, 0. split; [reflexivity|].
    frame_side. }
  destruct (String.eqb tag "exitcode").
  { eexists _, _, _, 0. split; [reflexivity|].
    unfold process_exitcode_tag.
    destruct (parse_exitcode_content content) as [[code desc]|];
      frame_side. }
  destruct (String.eqb tag "example").
  { unfold process_example_using_state. rewrite Hl.
    unfold process_example_tag.
    destruct (example_loop_drops (file st) (string_duplicate content))
      as (k & Hk & Hrun).
    destruct (example_loop (file st) (file st) (string_duplicate content))
      as [ex f]. cbn [snd] in Hk. unfold on_current_block.
    eexists _, _, _, k. split; [reflexivity|].
    unfold add_example_to_docblock.
    destruct (example block);
      frame_side. }
  destruct (String.eqb tag "stdout").
  { unfold state_collect_continued_content.
    destruct (collect_loop_drops (file st) (string_duplicate content))
      as (k & Hk & Hrun).
    destruct (collect_loop (file st) (file st) (string_duplicate content))
      as [acc f]. cbn [snd] in Hk.
    eexists _, _, _, k. split; [reflexivity|].
    frame_side. }
  destruct (String.eqb tag "stderr").
  { eexists _, _, _, 0. split; [reflexivity|].
    frame_side. }
  destruct (String.eqb tag "internal").
  { eexists _, _, _, 0. split; [reflexivity|].
    frame_side. }
  destruct (existsb (String.eqb tag) alert_tags).
  { eexists _, _, _, 0. split; [reflexivity|].
    frame_side. }
  exists false, block, st, 0. rewrite list_insert_id by assumption.
  frame_side.
Qed.

(** *** Counting the [function] tags *)

Lemma tag_line_is_comment (line : string) :
  is_tag_line line = true -> is_comment_line line = true.
Proof.
  unfold is_tag_line, static_is_tag_line, is_comment_line, TAG_PREFIX.
  intros H. destruct (starts_with_split _ _ H) as [t ->]. reflexivity.
Qed.

Lemma continuation_not_function_tag (raw : string) :
  is_continuation_line (chomp raw) = true -> is_function_tag_line raw = false.
Proof.
  unfold is_continuation_line, is_function_tag_line.
  intros [[_ H]%andb_true_iff _]%andb_true_iff.
  apply negb_true_iff in H. now rewrite H.
Qed.

Lemma count_drop_run (k : nat) (f : FILE) :
  continuation_run k f ->
  count_function_tags (drop k f) = count_function_tags f.
Proof.
  unfold continuation_run, count_function_tags. revert f.
  induction k as [|k IH]; intros [|raw rest]; cbn [take drop];
    try reflexivity.
  intros H. apply Forall_cons in H as [Hraw Hrest].
  cbn [List.filter]. rewrite (continuation_not_function_tag raw Hraw).
  now apply IH.
Qed.

Lemma state_process_tag_count (l : list shellscribe_docblock_t)
  (st : parser_state_t) (tag content : string) :
  count_function_tags (file (snd (state_process_tag l st tag content)))
  = count_function_tags (file st).
Proof.
  destruct (l !! current_block st) as [block|] eqn:Hl.
  - destruct (state_process_tag_frame l st tag content block Hl)
      as (ok & d' & st' & k & -> & _ & Hf & Hrun & _).
    cbn [snd]. rewrite Hf. now apply count_drop_run.
  - unfold state_process_tag. now rewrite Hl.
Qed.

Lemma tag_step_count (tag content : string) (e : engine_t) :
  block_count (tag_step tag content e)
  = (block_count e + if String.eqb tag "function" then 1 else 0)%Z
  /\ count_function_tags (file (state (tag_step tag content e)))
     = count_function_tags (file (state e)).
Proof.
  unfold tag_step.
  set (e2 := if String.eqb tag "function" then open_block e else e).
  assert (He2 : block_count e2
                = (block_count e + if String.eqb tag "function" then 1 else 0)%Z
                /\ file (state e2) = file (state e)).
  { subst e2. destruct (String.eqb tag "function"); cbn; split;
      reflexivity || lia. }
  clearbody e2. destruct He2 as [Hbc Hfile].
  pose proof (state_process_tag_count (docblocks e2) (state e2) tag content)
    as Hc.
  destruct (state_process_tag (docblocks e2) (state e2) tag content)
    as [[ok l] s]. cbn in *. split; [exact Hbc | congruence].
Qed.

Lemma body_line_count (raw : string) (e : engine_t) :
  block_count (body_line (chomp raw) e)
  = (block_count e + if is_function_tag_line raw then 1 else 0)%Z
  /\ count_function_tags (file (state (body_line (chomp raw) e)))
     = count_function_tags (file (state e)).
Proof.
  rewrite body_line_unfold. unfold is_function_tag_line.
  destruct (shellcheck_step_facts (chomp raw) e) as (Hbc & Hst & _).
  destruct (is_comment_line (chomp raw)) eqn:Hc.
  - destruct (is_tag_line (chomp raw)) eqn:Ht.
    + destruct (tag_line_names _ Ht)
        as (ws & rest & _ & _ & -> & content & -> & _).
      cbn [andb]. rewrite <- Hbc, <- Hst. apply tag_step_count.
    + cbn [andb]. rewrite Hbc, Hst. split; [lia | reflexivity].
  - destruct (is_tag_line (chomp raw)) eqn:Ht.
    + apply tag_line_is_comment in Ht. congruence.
    + cbn. split; [lia | reflexivity].
Qed.

Lemma body_loop_count (fuel : nat) (max_blocks : Z) (e : engine_t) :
  List.length (file (state e)) <= fuel ->
  (block_count e <= max_blocks)%Z ->
  block_count (body_loop fuel max_blocks e)
  = Z.min max_blocks
      (block_count e + Z.of_nat (count_function_tags (file (state e)))).
Proof.
  revert e. induction fuel as [|fuel IH]; intros e Hlen Hmax.
  - cbn [body_loop]. destruct (file (state e)); [|simpl in Hlen; lia].
    cbn. lia.
  - cbn [body_loop]. unfold body_step.
    destruct (file (state e)) as [|raw rest] eqn:Hf.
    { cbn. lia. }
    destruct (block_count e <? max_blocks)%Z eqn:Hlt.
    + apply Z.ltb_lt in Hlt.
      match goal with |- context [body_line (chomp raw) ?x] =>
        destruct (body_line_count raw x) as [Hbc Hcnt];
        pose proof (body_line_position (chomp raw) x) as Hpos end.
      cbn [with_state state block_count set_line_number set_file file]
        in Hbc, Hcnt, Hpos.
      rewrite IH.
      * rewrite Hbc, Hcnt. unfold count_function_tags at 2.
        cbn [List.filter].
        destruct (is_function_tag_line raw); cbn [List.length];
          unfold count_function_tags; lia.
      * simpl in Hlen. lia.
      * rewrite Hbc. destruct (is_function_tag_line raw); lia.
    + apply Z.ltb_ge in Hlt. lia.
Qed.

(** X13. The count [parse_shell_file] returns for a file it can open is
    one, for the file block, plus the number of tag lines with the tag
    [function], capped by the capacity: nothing else opens a block, and
    function declarations never do. *)
Theorem block_count_is_function_tags :
  forall (fs : string -> option string) (file_path : string)
         (array : list shellscribe_docblock_t) (max_blocks : Z) (f : FILE),
    (0 < max_blocks)%Z ->
    Z.to_nat max_blocks <= List.length array ->
    fopen fs file_path = Some f ->
    fst (parse_shell_file fs file_path array max_blocks)
    = Z.min max_blocks (1 + Z.of_nat (count_function_tags f)).
Proof.
  intros fs file_path array max_blocks f Hmax Hlen Hopen.
  unfold parse_shell_file. rewrite Hopen.
  destruct (max_blocks <=? 0)%Z eqn:Hle; [apply Z.leb_le in Hle; lia|].
  cbn [fst]. rewrite body_loop_count; cbn; [reflexivity | lia | lia].
Qed.

Lemma block_count_is_function_tags_witness :
  fst (parse_shell_file (fun _ => Some two_functions) "lib.sh"
         (replicate 4 init_docblock) 4)
  = Z.min 4 (1 + Z.of_nat (count_function_tags
                             (read_lines (String.length two_functions)
                                MAX_LINE_LENGTH two_functions))).
Proof.
  apply (block_count_is_function_tags (fun _ => Some two_functions) "lib.sh"
           (replicate 4 init_docblock) 4 _ eq_refl (le_n 4) eq_refl).
Defined.

(** *** The blocks after the file block *)

Lemma open_block_named (max_blocks : Z) (e : engine_t) :
  engine_named max_blocks e -> (block_count e < max_blocks)%Z ->
  let i := Z.to_nat (block_count e) in
  docblocks (open_block e) !! i = Some init_docblock
  /\ current_block (state (open_block e)) = i
  /\ block_count (open_block e) = (block_count e + 1)%Z
  /\ List.length (docblocks (open_block e)) = List.length (docblocks e)
  /\ forall j, j <> i -> docblocks (open_block e) !! j = docblocks e !! j.
Proof.
  intros (Hbc & Hcur & Hlen & Hnamed) Hlt i. unfold open_block.
  cbn [docblocks state block_count set_current_block current_block].
  split; [apply list_lookup_insert_eq; lia|].
  split; [reflexivity|]. split; [reflexivity|].
  split; [apply length_insert|].
  intros j Hj. apply list_lookup_insert_ne. intros E. apply Hj.
  now rewrite <- E.
Qed.

Lemma tag_step_named (max_blocks : Z) (tag content : string) (e : engine_t) :
  engine_named max_blocks e -> (block_count e < max_blocks)%Z ->
  engine_named max_blocks (tag_step tag content e).
Proof.
  intros He Hlt. pose proof He as (Hbc & Hcur & Hlen & Hnamed).
  unfold tag_step. destruct (String.eqb tag "function") eqn:Hfun.
  - destruct (open_block_named max_blocks e He Hlt)
      as (Hi & Hc & Hb & Hl & Hother).
    destruct (state_process_tag_frame (docblocks (open_block e))
                (state (open_block e)) tag content init_docblock)
      as (ok & d' & st' & k & -> & Hcur' & _ & _ & _ & _ & _ & _ & Hname).
    { now rewrite Hc. }
    unfold engine_named, blocks_named, with_state, with_docblocks.
    cbn [block_count state docblocks]. rewrite Hb, Hcur', Hc.
    rewrite length_insert, Hl.
    repeat split; try lia.
    intros j Hj.
    destruct (decide (j = Z.to_nat (block_count e))) as [->|Hne].
    + exists d'. split; [|now apply Hname].
      apply list_lookup_insert_eq. lia.
    + rewrite list_lookup_insert_ne, Hother by congruence.
      apply Hnamed. lia.
  - destruct (docblocks e !! current_block (state e)) as [block|] eqn:Hblock.
    + destruct (state_process_tag_frame (docblocks e) (state e) tag content
                  block Hblock)
        as (ok & d' & st' & k & -> & Hcur' & _ & _ & _ & _ & _ & Hname & _).
      unfold engine_named, blocks_named, with_state, with_docblocks.
      cbn [block_count state docblocks]. rewrite Hcur', length_insert.
      repeat split; try lia.
      intros j Hj.
      destruct (decide (j = current_block (state e))) as [->|Hne].
      * exists d'. split.
        -- apply list_lookup_insert_eq. eapply lookup_lt_Some; eassumption.
        -- apply Hname. destruct (Hnamed _ Hj) as (d & Hd & Hn). congruence.
      * rewrite list_lookup_insert_ne by congruence. now apply Hnamed.
    + unfold state_process_tag. rewrite Hblock.
      unfold with_state, with_docblocks. now destruct e as [l [] bc].
Qed.

Lemma shellcheck_step_named (max_blocks : Z) (line : string) (e : engine_t) :
  engine_named max_blocks e ->
  engine_named max_blocks (shellcheck_step line e).
Proof.
  intros (Hbc & Hcur & Hlen & Hnamed).
  destruct (shellcheck_step_facts line e) as (H1 & H2 & H3 & _ & H5).
  unfold engine_named, blocks_named. rewrite H1, H2, H3.
  repeat split; try lia.
  intros i Hi. destruct (Hnamed i Hi) as (d & Hd & Hn).
  destruct (H5 i d Hd) as (d' & Hd' & Hn'). exists d'. split; [exact Hd'|].
  congruence.
Qed.

Lemma body_line_named (max_blocks : Z) (line : string) (e : engine_t) :
  engine_named max_blocks e -> (block_count e < max_blocks)%Z ->
  engine_named max_blocks (body_line line e).
Proof.
  intros He Hlt. rewrite body_line_unfold.
  pose proof (shellcheck_step_named max_blocks line e He) as He1.
  assert (Hlt1 : (block_count (shellcheck_step line e) < max_blocks)%Z).
  { destruct (shellcheck_step_facts line e) as (-> & _). exact Hlt. }
  destruct (is_comment_line line).
  - destruct (is_tag_line line); [|exact He1].
    destruct (extract_tag_name line) as [tag|],
             (extract_tag_content line) as [content|]; try exact He1.
    now apply tag_step_named.
  - exact He.
Qed.

Lemma body_loop_named (fuel : nat) (max_blocks : Z) (e : engine_t) :
  engine_named max_blocks e ->
  engine_named max_blocks (body_loop fuel max_blocks e).
Proof.
  revert e. induction fuel as [|fuel IH]; intros e He; [exact He|].
  cbn [body_loop]. unfold body_step.
  destruct (file (state e)) as [|raw rest]; [exact He|].
  destruct (block_count e <? max_blocks)%Z eqn:Hlt; [|exact He].
  apply Z.ltb_lt in Hlt. apply IH. apply body_line_named; [|exact Hlt].
  destruct He as (Hbc & Hcur & Hlen & Hnamed). now repeat split.
Qed.

(** X14. In what [parse_shell_file] returns for a file it can open, every
    block after the file block, up to the count, has a function name: the
    blocks the renderer gets beside the first are all named functions. *)
Theorem counted_blocks_are_named :
  forall (fs : string -> option string) (file_path : string)
         (array : list shellscribe_docblock_t) (max_blocks : Z) (f : FILE),
    (0 < max_blocks)%Z ->
    Z.to_nat max_blocks <= List.length array ->
    fopen fs file_path = Some f ->
    let r := parse_shell_file fs file_path array max_blocks in
    forall i, 1 <= i < Z.to_nat (fst r) ->
      exists d name, snd r !! i = Some d /\ function_name d = Some name.
Proof.
  intros fs file_path array max_blocks f Hmax Hlen Hopen r i Hi.
  subst r. unfold parse_shell_file in *. rewrite Hopen in *.
  destruct (max_blocks <=? 0)%Z eqn:Hle; [apply Z.leb_le in Hle; lia|].
  cbn [fst snd] in *.
  match goal with |- context [body_loop ?n ?m ?e] =>
    destruct (body_loop_named n m e) as (_ & _ & _ & Hnamed) end.
  - unfold engine_named, blocks_named. cbn. repeat split; try lia.
    now rewrite !length_alter, init_docblocks_length.
  - destruct (Hnamed i Hi) as (d & Hd & Hn).
    destruct (function_name d) as [name|] eqn:E; [|congruence].
    now exists d, name.
Qed.

Lemma counted_blocks_are_named_witness :
  exists d name,
    snd (parse_shell_file (fun _ => Some two_functions) "lib.sh"
           (replicate 4 init_docblock) 4) !! 2 = Some d
    /\ function_name d = Some name.
Proof.
  apply (counted_blocks_are_named (fun _ => Some two_functions) "lib.sh"
           (replicate 4 init_docblock) 4 _ eq_refl (le_n 4) eq_refl 2).
  vm_compute. split; lia.
Defined.

(** *** The file block *)

Section FileBlock.

Variable P : shellscribe_docblock_t -> Prop.
Hypothesis P_stable : tag_stable P.

Lemma tag_step_block0 (tag content : string) (e : engine_t) :
  (1 <= block_count e)%Z -> block0_has P e ->
  block0_has P (tag_step tag content e).
Proof.
  intros Hbc (d0 & H0 & HP). unfold tag_step.
  set (e2 := if String.eqb tag "function" then open_block e else e).
  assert (He2 : docblocks e2 !! 0 = Some d0
                /\ (String.eqb tag "function" = true ->
                    current_block (state e2) <> 0)).
  { subst e2. destruct (String.eqb tag "function").
    - unfold open_block. cbn. split; [|lia].
      rewrite list_lookup_insert_ne by lia. exact H0.
    - split; [exact H0 | discriminate]. }
  clearbody e2. destruct He2 as [H2 Hcur].
  destruct (docblocks e2 !! current_block (state e2)) as [block|] eqn:Hb.
  - destruct (state_process_tag_frame (docblocks e2) (state e2) tag content
                block Hb)
      as (ok & d' & st' & k & -> & _ & _ & _ & Hs & Hi & Hk & _ & _).
    unfold block0_has, with_state, with_docblocks. cbn [docblocks].
    destruct (decide (current_block (state e2) = 0)) as [E|E].
    + rewrite E in *. exists d'. split.
      * apply list_lookup_insert_eq. eapply lookup_lt_Some; eassumption.
      * assert (block = d0) by congruence. subst block.
        now apply (P_stable d0 d').
    + exists d0. split; [|exact HP].
      rewrite list_lookup_insert_ne by congruence. exact H2.
  - unfold state_process_tag. rewrite Hb.
    unfold block0_has, with_state, with_docblocks. cbn [docblocks].
    now exists d0.
Qed.

Lemma body_line_block0 (line : string) (e : engine_t) :
  (1 <= block_count e)%Z -> block0_has P e ->
  block0_has P (body_line line e).
Proof.
  intros Hbc He. rewrite body_line_unfold.
  destruct (shellcheck_step_facts line e) as (H1 & _ & _ & H4 & _).
  assert (He1 : block0_has P (shellcheck_step line e)).
  { destruct He as (d0 & H0 & HP). exists d0. now rewrite H4. }
  destruct (is_comment_line line).
  - destruct (is_tag_line line); [|exact He1].
    destruct (extract_tag_name line) as [tag|],
             (extract_tag_content line) as [content|]; try exact He1.
    apply tag_step_block0; [now rewrite H1 | exact He1].
  - exact He.
Qed.

Lemma body_loop_block0 (fuel : nat) (max_blocks : Z) (e : engine_t) :
  (1 <= block_count e)%Z -> block0_has P e ->
  block0_has P (body_loop fuel max_blocks e).
Proof.
  revert e. induction fuel as [|fuel IH]; intros e Hbc He; [exact He|].
  cbn [body_loop]. unfold body_step.
  destruct (file (state e)) as [|raw rest]; [exact He|].
  destruct (block_count e <? max_blocks)%Z; [|exact He].
  match goal with |- context [body_line (chomp raw) ?x] =>
    destruct (body_line_count raw x) as [Hc _];
    pose proof (body_line_block0 (chomp raw) x Hbc He) as Hb end.
  apply IH; [|exact Hb].
  rewrite Hc. cbn. destruct (is_function_tag_line raw); lia.
Qed.

(** What [parse_shell_file] leaves in the file block, from what the
    metadata pass leaves in it. *)
Lemma parse_shell_file_block0
  (fs : string -> option string) (file_path : string)
  (array : list shellscribe_docblock_t) (max_blocks : Z) (f : FILE) :
  (0 < max_blocks)%Z -> Z.to_nat max_blocks <= List.length array ->
  fopen fs file_path = Some f ->
  P (metadata_pass f
       (set_file_name (Some (string_duplicate file_path)) init_docblock)) ->
  exists d0,
    snd (parse_shell_file fs file_path array max_blocks) !! 0 = Some d0
    /\ P d0.
Proof.
  intros Hmax Hlen Hopen HP. unfold parse_shell_file. rewrite Hopen.
  destruct (max_blocks <=? 0)%Z eqn:Hle; [apply Z.leb_le in Hle; lia|].
  cbn [snd]. apply body_loop_block0; [cbn; lia|].
  eexists. split; [|exact HP]. cbn [docblocks].
  rewrite !list_lookup_alter_eq, init_docblocks_lookup by lia. reflexivity.
Qed.

End FileBlock.

Lemma metadata_pass_frame (f : FILE) (d : shellscribe_docblock_t) :
  shellcheck_directives (metadata_pass f d) = shellcheck_directives d
  /\ (is_skipped d = true -> is_skipped (metadata_pass f d) = true)
  /\ (Forall (fun raw => starts_with "#!" raw = false) f ->
      interpreter (metadata_pass f d) = interpreter d).
Proof.
  revert d. induction f as [|raw rest IH]; intros d; [now repeat split|].
  cbn [metadata_pass].
  destruct (starts_with "#!" raw) eqn:Hsb.
  { destruct (IH (snd (extract_shebang d raw))) as (H1 & H2 & _).
    assert (Hx : shellcheck_directives (snd (extract_shebang d raw))
                 = shellcheck_directives d
                 /\ is_skipped (snd (extract_shebang d raw)) = is_skipped d).
    { unfold extract_shebang. rewrite Hsb.
      now destruct (skip_blanks (advance 2 raw)). }
    destruct Hx as [Hx1 Hx2]. split; [congruence|]. split.
    - intros Hs. apply H2. congruence.
    - intros Hall. apply Forall_cons in Hall as [Hr _]. congruence. }
  assert (Hrest : forall d',
            shellcheck_directives d' = shellcheck_directives d ->
            interpreter d' = interpreter d ->
            (is_skipped d = true -> is_skipped d' = true) ->
            shellcheck_directives (metadata_pass rest d')
            = shellcheck_directives d
            /\ (is_skipped d = true -> is_skipped (metadata_pass rest d') = true)
            /\ (Forall (fun raw => starts_with "#!" raw = false)
                  (raw :: rest) ->
                interpreter (metadata_pass rest d') = interpreter d)).
  { intros d' E1 E2 E3. destruct (IH d') as (H1 & H2 & H3).
    split; [congruence|]. split; [auto|].
    intros Hall. apply Forall_cons in Hall as [_ Hall].
    rewrite H3 by assumption. exact E2. }
  destruct (starts_with "# @" (chomp raw)).
  - destruct (extract_tag_name (chomp raw)) as [tag|],
             (extract_tag_content (chomp raw)) as [content|];
      try (apply Hrest; auto).
    destruct (is_file_level_tag tag); [|apply Hrest; auto].
    destruct (metadata_frame d tag content) as (H1 & H2 & H3 & _).
    now apply Hrest.
  - destruct (negb (is_comment_line (chomp raw))); [now repeat split|].
    apply Hrest; auto.
Qed.

(** X15. Shellcheck directives are never stored in the file block: in
    what [parse_shell_file] returns for a file it can open, the block at
    index 0 has none, wherever the directives stand in the file. *)
Theorem file_block_has_no_shellcheck :
  forall (fs : string -> option string) (file_path : string)
         (array : list shellscribe_docblock_t) (max_blocks : Z) (f : FILE),
    (0 < max_blocks)%Z ->
    Z.to_nat max_blocks <= List.length array ->
    fopen fs file_path = Some f ->
    exists d0,
      snd (parse_shell_file fs file_path array max_blocks) !! 0 = Some d0
      /\ shellcheck_directives d0 = [].
Proof.
  intros fs file_path array max_blocks f Hmax Hlen Hopen.
  apply (parse_shell_file_block0 (fun d => shellcheck_directives d = []))
    with (f := f); try assumption.
  - intros block d' Hs _ _ HP. congruence.
  - now rewrite (proj1 (metadata_pass_frame f _)).
Qed.

Lemma file_block_has_no_shellcheck_witness :
  exists d0,
    snd (parse_shell_file (fun _ => Some "# shellcheck disable=SC2034
X=1
") "lib.sh" (replicate 2 init_docblock) 2) !! 0 = Some d0
    /\ shellcheck_directives d0 = [].
Proof.
  eapply file_block_has_no_shellcheck; [lia | cbn; lia | reflexivity].
Defined.

(** *** The callers: [parse_shell_script] and [should_skip_file] *)

Lemma parse_shell_file_opened
  (fs : string -> option string) (file_path : string)
  (array : list shellscribe_docblock_t) (max_blocks : Z) (f : FILE) :
  (0 < max_blocks)%Z -> Z.to_nat max_blocks <= List.length array ->
  fopen fs file_path = Some f ->
  exists l,
    parse_shell_file fs file_path array max_blocks
    = (Z.min max_blocks (1 + Z.of_nat (count_function_tags f)), l).
Proof.
  intros Hmax Hlen Hopen. unfold parse_shell_file. rewrite Hopen.
  destruct (max_blocks <=? 0)%Z eqn:Hle; [apply Z.leb_le in Hle; lia|].
  eexists. f_equal. rewrite body_loop_count; cbn; [reflexivity | lia | lia].
Qed.

Lemma parse_shell_file_unopened
  (fs : string -> option string) (file_path : string)
  (array : list shellscribe_docblock_t) (max_blocks : Z) :
  fopen fs file_path = None ->
  fst (parse_shell_file fs file_path array max_blocks) = 0%Z.
Proof.
  intros Hopen. unfold parse_shell_file. rewrite Hopen.
  now destruct (max_blocks <=? 0)%Z.
Qed.

Lemma MAX_DOCBLOCKS_fits :
  (0 < MAX_DOCBLOCKS)%Z
  /\ Z.to_nat MAX_DOCBLOCKS
     <= List.length (replicate (Z.to_nat MAX_DOCBLOCKS) init_docblock).
Proof. rewrite length_replicate. split; [reflexivity | lia]. Qed.

(** X16. [parse_shell_script] returns [NULL] exactly for a file that cannot
    be opened.  For every file it can open, also an empty one and one
    without any documentation, it returns the array, with a count between
    1 and [MAX_DOCBLOCKS]. *)
Theorem parse_shell_script_fails_only_unopened :
  forall (fs : string -> option string) (file_path : string),
    (parse_shell_script fs file_path = None <-> fs file_path = None)
    /\ (forall array count,
          parse_shell_script fs file_path = Some (array, count) ->
          (1 <= count <= MAX_DOCBLOCKS)%Z).
Proof.
  intros fs file_path. destruct MAX_DOCBLOCKS_fits as [Hpos Hfit].
  unfold parse_shell_script.
  destruct (fopen fs file_path) as [f|] eqn:Hopen.
  - destruct (parse_shell_file_opened fs file_path _ _ f Hpos Hfit Hopen)
      as [l ->].
    assert (Hf : fs file_path <> None).
    { unfold fopen in Hopen. now destruct (fs file_path). }
    destruct (_ <=? 0)%Z eqn:Hle; [apply Z.leb_le in Hle; lia|].
    split; [split; [discriminate | contradiction]|].
    intros array count [= <- <-]. lia.
  - pose proof (parse_shell_file_unopened fs file_path
                  (replicate (Z.to_nat MAX_DOCBLOCKS) init_docblock)
                  MAX_DOCBLOCKS Hopen) as H0.
    destruct (parse_shell_file _ _ _ _) as [count array]. cbn in H0.
    subst count. cbn.
    split; [|discriminate]. split; [|reflexivity].
    intros _. unfold fopen in Hopen. now destruct (fs file_path).
Qed.

Lemma parse_shell_script_fails_only_unopened_witness :
  match parse_shell_script (fun _ => Some "") "empty.sh" with
  | Some (_, count) => (1 <= count <= MAX_DOCBLOCKS)%Z
  | None => False
  end.
Proof.
  pose proof (parse_shell_script_fails_only_unopened
                (fun _ => Some "") "empty.sh") as [Hnone Hsome].
  destruct (parse_shell_script (fun _ => Some "") "empty.sh")
    as [[array count]|].
  - exact (Hsome array count eq_refl).
  - discriminate (proj1 Hnone eq_refl).
Defined.

Lemma chomp_split (raw : string) :
  raw = chomp raw \/ raw = chomp raw ++ LF.
Proof.
  induction raw as [|c s IH]; [now left|].
  destruct s as [|b s].
  - cbn. destruct (Ascii.eqb c nl) eqn:E; [|now left].
    apply Ascii.eqb_eq in E. subst c. now right.
  - change (chomp (String c (String b s)))
      with (String c (chomp (String b s))).
    destruct IH as [IH | IH]; [left | right]; cbn [append];
      now rewrite <- IH.
Qed.

Lemma chomp_head (raw : string) (c : ascii) (t : string) :
  chomp raw = String c t -> exists t', raw = String c t'.
Proof.
  intros H. destruct (chomp_split raw) as [E | E]; rewrite H in E;
    rewrite E; cbn [append]; eauto.
Qed.

Lemma fopen_head (fs : string -> option string) (file_path : string)
  (l : string) (ls : list string) :
  fopen fs file_path = Some (l :: ls) ->
  exists data,
    fs file_path = Some data
    /\ (l = "" \/ exists c t t', data = String c t /\ l = String c t').
Proof.
  unfold fopen. destruct (fs file_path) as [data|]; [|discriminate].
  intros [= H]. exists data. split; [reflexivity|].
  destruct (String.length data) as [|fuel]; [discriminate|].
  destruct data as [|c t]; [discriminate|]. cbn [read_lines] in H.
  destruct (read_line (MAX_LINE_LENGTH - 1) (String c t)) as [l' r] eqn:E.
  injection H as -> _.
  change (MAX_LINE_LENGTH - 1) with (S (MAX_LINE_LENGTH - 2)) in E.
  cbn [read_line] in E. destruct (Ascii.eqb c nl).
  - injection E as <- _. right. eauto.
  - destruct (read_line _ t) as [l2 r2].
    destruct (Ascii.eqb c zero); injection E as <- _;
      [now left | right; eauto].
Qed.

Lemma header_line_head (raw : string) :
  is_header_line raw = true ->
  exists c t, raw = String c t /\ (c = "#"%char \/ isspace c = true).
Proof.
  unfold is_header_line. intros [H | H]%orb_true_iff.
  - destruct raw as [|c t]; [discriminate|]. cbn [starts_with] in H.
    apply andb_true_iff in H as [H _]. apply Ascii.eqb_eq in H.
    exists c, t. split; [reflexivity | now left].
  - unfold is_comment_line in H.
    destruct (chomp raw) as [|c t] eqn:E; [discriminate|].
    destruct (chomp_head _ _ _ E) as [t' ->]. exists c, t'.
    split; [reflexivity|]. cbn [skip_spaces] in H.
    destruct (isspace c); [now right|]. apply Ascii.eqb_eq in H. now left.
Qed.

Lemma not_elf_head (c : ascii) (t : string) :
  c = "#"%char \/ isspace c = true ->
  starts_with (String "127" "ELF") (String c t) = false.
Proof.
  intros H. cbn [starts_with].
  destruct (Ascii.eqb "127" c) eqn:E; [|reflexivity].
  apply Ascii.eqb_eq in E. subst c. destruct H as [H | H]; discriminate.
Qed.

Lemma skip_tag_line (tail : string) :
  tail = "" \/ (exists c t, tail = String c t
                            /\ (isspace c = true \/ c = ":"%char)) ->
  starts_with "# @" ("# @skip" ++ tail) = true
  /\ extract_tag_name ("# @skip" ++ tail) = Some "skip"
  /\ exists content, extract_tag_content ("# @skip" ++ tail) = Some content.
Proof.
  intros Htail. split; [reflexivity|].
  assert (Hat : strstr ("# @skip" ++ tail) "@" = Some 2).
  { apply (first_at_of_tag_line "" ("skip" ++ tail) eq_refl). }
  unfold extract_tag_name, extract_tag_content. rewrite Hat.
  change (advance 3 ("# @skip" ++ tail)) with ("skip" ++ tail).
  rewrite (tag_name_len_app "skip" tail eq_refl Htail).
  split; [|eauto]. f_equal. apply (strndup_app "skip" tail).
Qed.

Lemma metadata_pass_skip (pre : list string) (raw tail : string)
  (rest : list string) (d : shellscribe_docblock_t) :
  Forall (fun l => is_header_line l = true) pre ->
  chomp raw = "# @skip" ++ tail ->
  tail = "" \/ (exists c t, tail = String c t
                            /\ (isspace c = true \/ c = ":"%char)) ->
  is_skipped (metadata_pass (pre ++ raw :: rest)%list d) = true.
Proof.
  intros Hpre Hraw Htail. revert d.
  induction Hpre as [|l pre Hl _ IH]; intros d.
  - cbn [List.app metadata_pass].
    assert (Hsb : starts_with "#!" raw = false).
    { destruct (chomp_split raw) as [E | E]; rewrite E, Hraw; reflexivity. }
    rewrite Hsb, Hraw.
    destruct (skip_tag_line tail Htail) as (-> & -> & content & ->).
    change (is_file_level_tag "skip") with true. cbn iota.
    apply (proj1 (proj2 (metadata_pass_frame rest _))). reflexivity.
  - cbn [List.app metadata_pass].
    destruct (starts_with "#!" l) eqn:Hsb; [apply IH|].
    unfold is_header_line in Hl. rewrite Hsb in Hl. cbn [orb] in Hl.
    destruct (starts_with "# @" (chomp l)).
    + destruct (extract_tag_name (chomp l)) as [tag|],
               (extract_tag_content (chomp l)) as [content|];
        try apply IH.
      destruct (is_file_level_tag tag); apply IH.
    + rewrite Hl. cbn [negb]. apply IH.
Qed.

(** X17. A file whose first lines are shebang or comment lines up to a
    line [# @skip] is reported by [should_skip_file] as to be skipped,
    with the reason [marked with @skip], whatever follows that line. *)
Theorem skip_marker_skips_file :
  forall (fs : string -> option string) (input_file : string)
         (pre : list string) (raw : string) (rest : list string)
         (tail : string),
    fopen fs input_file = Some (pre ++ raw :: rest)%list ->
    Forall (fun l => is_header_line l = true) pre ->
    chomp raw = "# @skip" ++ tail ->
    tail = "" \/ (exists c t, tail = String c t
                              /\ (isspace c = true \/ c = ":"%char)) ->
    should_skip_file fs input_file = (true, Some "marked with @skip").
Proof.
  intros fs input_file pre raw rest tail Hopen Hpre Hraw Htail.
  destruct MAX_DOCBLOCKS_fits as [Hpos Hfit].
  assert (Helf : is_elf_binary fs input_file = false).
  { assert (Hfirst : exists l ls,
              (pre ++ raw :: rest)%list = l :: ls
              /\ exists c t, l = String c t
                             /\ (c = "#"%char \/ isspace c = true)).
    { destruct Hpre as [|l pre Hl _].
      - exists raw, rest. split; [reflexivity|].
        destruct (chomp_head raw "#" (" @skip" ++ tail) Hraw) as [t' ->].
        exists "#"%char, t'. split; [reflexivity | now left].
      - exists l, (pre ++ raw :: rest)%list. split; [reflexivity|].
        now apply header_line_head. }
    destruct Hfirst as (l & ls & E & c & t & -> & Hc). rewrite E in Hopen.
    destruct (fopen_head _ _ _ _ Hopen) as (data & Hdata & Hhead).
    unfold is_elf_binary. rewrite Hdata.
    destruct Hhead as [Hhead | (c' & t1 & t2 & -> & [= -> ->])];
      [discriminate|].
    now apply not_elf_head. }
  unfold should_skip_file. rewrite Helf. unfold parse_shell_script.
  destruct (parse_shell_file_opened fs input_file _ _ _ Hpos Hfit Hopen)
    as [l Hl].
  destruct (parse_shell_file_block0 (fun d => is_skipped d = true))
    with (fs := fs) (file_path := input_file)
         (array := replicate (Z.to_nat MAX_DOCBLOCKS) init_docblock)
         (max_blocks := MAX_DOCBLOCKS) (f := (pre ++ raw :: rest)%list)
    as (d0 & H0 & Hskip); try assumption.
  { intros block d' _ _ Hs HP. now apply Hs. }
  { now apply metadata_pass_skip with (tail := tail). }
  rewrite Hl in *. cbn [snd] in H0.
  destruct (_ <=? 0)%Z eqn:Hle; [apply Z.leb_le in Hle; lia|].
  rewrite Hle, H0, Hskip.
  destruct (0 <? _)%Z eqn:Hlt; [reflexivity|]. apply Z.ltb_ge in Hlt. lia.
Qed.

Lemma skip_marker_skips_file_witness :
  should_skip_file (fun _ => Some skipped_file) "lib.sh"
  = (true, Some "marked with @skip").
Proof.
  apply (skip_marker_skips_file (fun _ => Some skipped_file) "lib.sh"
           [ "#!/bin/bash" ++ LF; "# A helper that is sourced" ++ LF ]
           ("# @skip" ++ LF) [ "run() { true; }" ++ LF ] "").
  - reflexivity.
  - repeat constructor.
  - reflexivity.
  - now left.
Defined.

Lemma skip_blanks_app (blanks s : string) :
  all_chars is_blank blanks = true ->
  skip_blanks (blanks ++ s) = skip_blanks s.
Proof.
  induction blanks as [|c b IH]; [reflexivity|].
  rewrite all_chars_cons. intros [Hc Hb]%andb_true_iff.
  cbn [append skip_blanks]. unfold is_blank in Hc. rewrite Hc. now apply IH.
Qed.

(** X18. The interpreter recorded for a file whose first line is a shebang
    is what follows [#!] and the blanks on that line, as the line stands
    in the buffer [fgets] filled: it runs to the end of the line and so
    keeps the newline that ends it (or stops at a NUL byte, where the line
    has one).  This holds when no later line starts with [#!]. *)
Theorem shebang_interpreter_keeps_line_end :
  forall (fs : string -> option string) (file_path : string)
         (array : list shellscribe_docblock_t) (max_blocks : Z)
         (blanks interp : string) (rest : list string),
    (0 < max_blocks)%Z ->
    Z.to_nat max_blocks <= List.length array ->
    fopen fs file_path = Some (("#!" ++ blanks ++ interp) :: rest) ->
    all_chars is_blank blanks = true ->
    skip_blanks interp = interp ->
    interp <> "" ->
    Forall (fun raw => starts_with "#!" raw = false) rest ->
    exists d0,
      snd (parse_shell_file fs file_path array max_blocks) !! 0 = Some d0
      /\ interpreter d0 = Some interp.
Proof.
  intros fs file_path array max_blocks blanks interp rest Hmax Hlen Hopen
    Hblanks Hinterp Hne Hrest.
  apply (parse_shell_file_block0 (fun d => interpreter d = Some interp))
    with (f := ("#!" ++ blanks ++ interp) :: rest); try assumption.
  - intros block d' _ Hi _ HP. congruence.
  - cbn [metadata_pass]. change (starts_with "#!" ("#!" ++ blanks ++ interp))
      with true. cbn iota.
    rewrite (proj2 (proj2 (metadata_pass_frame rest _)) Hrest).
    unfold extract_shebang.
    change (starts_with "#!" ("#!" ++ blanks ++ interp)) with true.
    change (advance 2 ("#!" ++ blanks ++ interp)) with (blanks ++ interp).
    rewrite skip_blanks_app, Hinterp by assumption.
    destruct interp; [congruence | reflexivity].
Qed.

Lemma shebang_interpreter_keeps_line_end_witness :
  exists d0,
    snd (parse_shell_file (fun _ => Some skipped_file) "lib.sh"
           (replicate 2 init_docblock) 2) !! 0 = Some d0
    /\ interpreter d0 = Some ("/bin/bash" ++ LF).
Proof.
  eapply (shebang_interpreter_keeps_line_end _ "lib.sh" _ 2 ""
            ("/bin/bash" ++ LF));
    [lia | cbn; lia | reflexivity | reflexivity | reflexivity
    | discriminate | repeat constructor].
Defined.

(** ** More of the tag grammars and of utils/string.c *)

Lemma starts_with_app (p t : string) : starts_with p (p ++ t) = true.
Proof.
  induction p as [|a p IH]; [reflexivity|].
  cbn [append starts_with]. now rewrite Ascii.eqb_refl, IH.
Qed.

Lemma strstr_first_char (pre p rest : string) (c : ascii) :
  strchr pre c = None ->
  strstr (pre ++ String c p ++ rest) (String c p) = Some (String.length pre).
Proof.
  induction pre as [|a pre IH]; intros Hpre.
  - cbn [append String.length].
    change (String c (p ++ rest)) with (String c p ++ rest).
    destruct (String c p ++ rest) eqn:E; [discriminate|].
    cbn [strstr]. now rewrite <- E, starts_with_app.
  - cbn [strchr] in Hpre. destruct (Ascii.eqb a c) eqn:Hac; [discriminate|].
    destruct (strchr pre c); [discriminate|].
    cbn [append String.length]. cbn [strstr]. cbn [starts_with].
    rewrite (Ascii.eqb_sym c a), Hac. cbn [andb].
    change (String c (p ++ rest)) with (String c p ++ rest).
    now rewrite IH.
Qed.

(** X19. [string_trim] removes exactly the whitespace around a text: of
    a text without whitespace at either end, put between two runs of
    whitespace, it returns the text; of whitespace alone, the empty
    string. *)
Theorem string_trim_strips :
  forall ws1 core ws2 : string,
    all_chars isspace ws1 = true ->
    all_chars isspace ws2 = true ->
    trimmed core ->
    string_trim (ws1 ++ core ++ ws2) = core.
Proof.
  intros ws1 core ws2 H1 H2 [Hl Hr]. unfold string_trim.
  rewrite skip_spaces_app_all by assumption.
  destruct core as [|c t].
  - cbn [append]. now rewrite skip_spaces_all.
  - pose proof (skip_spaces_head _ _ _ Hl) as Hc.
    cbn [append]. rewrite skip_spaces_fix by assumption.
    change (String c (t ++ ws2)) with (String c t ++ ws2).
    rewrite rtrim_len_app_all, Hr by assumption. apply strndup_app.
Qed.

Lemma string_trim_strips_witness :
  string_trim ("  " ++ "output dir" ++ String "009" LF) = "output dir".
Proof.
  apply (string_trim_strips "  " "output dir" (String "009" LF)
           eq_refl eq_refl).
  split; reflexivity.
Defined.

Lemma sc_code_len_app (code rest : string) :
  all_chars is_sc_char code = true ->
  (rest = "" \/ exists c t, rest = String c t
                            /\ (isspace c = true \/ c = "#"%char)) ->
  sc_code_len (code ++ rest) = String.length code.
Proof.
  intros Hcode Hrest. induction code as [|a s IH]; cbn [append sc_code_len].
  - destruct Hrest as [-> | (c & t & -> & Hc)]; [reflexivity|].
    cbn [sc_code_len]. destruct Hc as [-> | ->]; [reflexivity|].
    now rewrite orb_true_r.
  - rewrite all_chars_cons in Hcode.
    apply andb_true_iff in Hcode as [Ha Hs].
    unfold is_sc_char in Ha. apply negb_true_iff in Ha. rewrite Ha.
    cbn [String.length]. now rewrite IH.
Qed.

Lemma shellcheck_comment_directive (ws1 ws2 rest : string) :
  all_chars isspace ws1 = true -> all_chars isspace ws2 = true ->
  is_shellcheck_directive (ws1 ++ "#" ++ ws2 ++ "shellcheck " ++ rest) = true
  /\ extract_shellcheck_directive (ws1 ++ "#" ++ ws2 ++ "shellcheck " ++ rest)
     = "shellcheck " ++ rest.
Proof.
  intros H1 H2.
  unfold is_shellcheck_directive, extract_shellcheck_directive.
  rewrite skip_spaces_app_all by assumption.
  change (skip_spaces ("#" ++ ws2 ++ "shellcheck " ++ rest))
    with (String "#" (ws2 ++ "shellcheck " ++ rest)).
  cbn beta iota. rewrite Ascii.eqb_refl, skip_spaces_app_all by assumption.
  split; reflexivity.
Qed.

Lemma disable_code (code rest : string) :
  all_chars is_sc_char code = true ->
  (rest = "" \/ exists c t, rest = String c t
                            /\ (isspace c = true \/ c = "#"%char)) ->
  parse_shellcheck_directive ("shellcheck disable=" ++ code ++ rest)
  = (Some code,
     match strchr rest "#" with
     | Some i =>
         match skip_spaces (advance (S i) rest) with
         | EmptyString => None
         | r => Some r
         end
     | None => None
     end).
Proof.
  intros Hcode Hrest. unfold parse_shellcheck_directive.
  change ("shellcheck disable=" ++ code ++ rest)
    with ("shellcheck " ++ String "d" "isable=" ++ (code ++ rest)).
  rewrite (strstr_first_char "shellcheck " "isable=" (code ++ rest) "d"
             eq_refl).
  change (advance (String.length "shellcheck " + 8)
            ("shellcheck " ++ String "d" "isable=" ++ (code ++ rest)))
    with (code ++ rest).
  rewrite sc_code_len_app, advance_app, strndup_app by assumption.
  reflexivity.
Qed.

(** X20. A comment of the form [# shellcheck disable=CODE # reason] is
    recorded by [process_shellcheck_line] as one more directive, with the
    code up to the whitespace or hash that ends it, the directive text
    from the word [shellcheck] on, and as reason what follows the hash and
    its whitespace; without a hash after the code there is no reason. *)
Theorem shellcheck_line_round_trip :
  forall (d : shellscribe_docblock_t)
         (ws1 ws2 code gap ws3 reason : string),
    all_chars isspace ws1 = true ->
    all_chars isspace ws2 = true ->
    all_chars is_sc_char code = true ->
    all_chars isspace gap = true ->
    all_chars isspace ws3 = true ->
    reason <> "" -> skip_spaces reason = reason ->
    let with_reason :=
      "shellcheck disable=" ++ code ++ gap ++ "#" ++ ws3 ++ reason in
    let without := "shellcheck disable=" ++ code ++ gap in
    process_shellcheck_line d (ws1 ++ "#" ++ ws2 ++ with_reason)
    = (true,
       set_shellcheck_directives
         (shellcheck_directives d
          ++ [ {| sc_code := Some code; sc_directive := Some with_reason;
                  sc_reason := Some reason |} ]) d)
    /\ process_shellcheck_line d (ws1 ++ "#" ++ ws2 ++ without)
       = (true,
          set_shellcheck_directives
            (shellcheck_directives d
             ++ [ {| sc_code := Some code; sc_directive := Some without;
                     sc_reason := None |} ]) d).
Proof.
  intros d ws1 ws2 code gap ws3 reason H1 H2 Hcode Hgap H3 Hne Hreason
    with_reason without.
  assert (Hend : forall c t,
            isspace c = true \/ c = "#"%char ->
            (gap ++ String c t = ""
             \/ exists c' t', gap ++ String c t = String c' t'
                              /\ (isspace c' = true \/ c' = "#"%char))).
  { intros c t Hc. right. destruct gap as [|g gap'].
    - exists c, t. now split.
    - rewrite all_chars_cons in Hgap.
      apply andb_true_iff in Hgap as [Hg _].
      exists g, (gap' ++ String c t). split; [reflexivity | now left]. }
  assert (Hend0 : gap = ""
                  \/ exists c' t', gap = String c' t'
                                   /\ (isspace c' = true \/ c' = "#"%char)).
  { destruct gap as [|g gap']; [now left | right].
    rewrite all_chars_cons in Hgap. apply andb_true_iff in Hgap as [Hg _].
    exists g, gap'. split; [reflexivity | now left]. }
  assert (Hnohash : strchr gap "#" = None)
    by (now apply strchr_all_space).
  unfold process_shellcheck_line, add_shellcheck_directive. split.
  - destruct (shellcheck_comment_directive ws1 ws2
                ("disable=" ++ code ++ gap ++ "#" ++ ws3 ++ reason) H1 H2)
      as [Hd He].
    change ("shellcheck " ++ "disable=" ++ code ++ gap ++ "#" ++ ws3 ++ reason)
      with with_reason in Hd, He.
    rewrite Hd, He. cbn [negb]. subst with_reason.
    rewrite (disable_code code (gap ++ "#" ++ ws3 ++ reason) Hcode).
    + change (gap ++ "#" ++ ws3 ++ reason)
        with (gap ++ String "#" (ws3 ++ reason)).
      rewrite (strchr_app_found gap "#" (ws3 ++ reason) Hnohash).
      rewrite advance_S_app, skip_spaces_app_all, Hreason by assumption.
      destruct reason; [congruence | reflexivity].
    + apply (Hend "#"%char (ws3 ++ reason)). now right.
  - destruct (shellcheck_comment_directive ws1 ws2
                ("disable=" ++ code ++ gap) H1 H2) as [Hd He].
    change ("shellcheck " ++ "disable=" ++ code ++ gap) with without in Hd, He.
    rewrite Hd, He. cbn [negb]. subst without.
    rewrite (disable_code code gap Hcode Hend0), Hnohash. reflexivity.
Qed.

Lemma shellcheck_line_round_trip_witness :
  process_shellcheck_line init_docblock
    ("  " ++ "#" ++ " " ++ "shellcheck disable=" ++ "SC2034" ++ " " ++ "#"
     ++ " " ++ "exported below")
  = (true,
     set_shellcheck_directives
       [ {| sc_code := Some "SC2034";
            sc_directive :=
              Some "shellcheck disable=SC2034 # exported below";
            sc_reason := Some "exported below" |} ] init_docblock).
Proof.
  apply (proj1 (shellcheck_line_round_trip init_docblock "  " " " "SC2034"
                  " " " " "exported below" eq_refl eq_refl eq_refl eq_refl
                  eq_refl ltac:(discriminate) eq_refl)).
Defined.

(** *** The option grammar without a pipe *)

Lemma all_chars_strchr (p : ascii -> bool) (s : string) (c : ascii) :
  all_chars p s = true -> p c = false -> strchr s c = None.
Proof.
  intros Hs Hc. induction s as [|a s IH]; [reflexivity|].
  rewrite all_chars_cons in Hs. apply andb_true_iff in Hs as [Ha Hs].
  cbn [strchr]. destruct (Ascii.eqb a c) eqn:E.
  - apply Ascii.eqb_eq in E. congruence.
  - now rewrite IH.
Qed.

Lemma option_chars_token (s : string) :
  all_chars is_option_char s = true -> s <> "" -> skip_spaces s = s.
Proof.
  intros Hs Hne. destruct s as [|a s]; [congruence|].
  rewrite all_chars_cons in Hs. apply andb_true_iff in Hs as [Ha _].
  unfold is_option_char in Ha. apply andb_true_iff in Ha as [Ha _].
  apply negb_true_iff in Ha. now apply skip_spaces_fix.
Qed.

Lemma angle_spec_none (s : string) :
  strchr s "<" = None -> angle_spec s = None.
Proof. unfold angle_spec. now intros ->. Qed.

Lemma strchr_advance_none (s : string) (c : ascii) (n : nat) :
  strchr s c = None -> strchr (advance n s) c = None.
Proof.
  revert s. induction n as [|n IH]; intros s H; [exact H|].
  destruct s as [|a s]; [reflexivity|]. cbn [advance]. apply IH.
  cbn [strchr] in H. destruct (Ascii.eqb a c); [discriminate|].
  now destruct (strchr s c).
Qed.

Lemma angle_spec_argument (arg : string) :
  strchr arg ">" = None ->
  angle_spec ("=<" ++ arg ++ ">") = Some arg.
Proof.
  intros Harg. unfold angle_spec.
  change (strchr ("=<" ++ arg ++ ">") "<") with (Some 1). cbn beta iota.
  change (advance 1 ("=<" ++ arg ++ ">")) with (("<" ++ arg) ++ String ">" "").
  rewrite strchr_app_found.
  - change (advance 2 ("=<" ++ arg ++ ">")) with (arg ++ ">").
    replace (String.length ("<" ++ arg) - 1) with (String.length arg)
      by (cbn [append String.length]; lia).
    now rewrite strndup_app.
  - cbn [append strchr]. change (Ascii.eqb "<" ">") with false.
    cbn iota. now rewrite Harg.
Qed.

Lemma parse_option_space (ws opt rest : string) :
  all_chars isspace ws = true ->
  opt <> "" -> skip_spaces opt = opt ->
  strchr opt " " = None -> strchr opt "|" = None ->
  strchr rest "|" = None ->
  let spec :=
    match strchr opt "=" with
    | Some equals => angle_spec (advance equals opt)
    | None => angle_spec opt
    end in
  parse_option_content (ws ++ opt ++ " " ++ rest) = Some (opt, rest, spec)
  /\ parse_option_content (ws ++ opt) = Some (opt, "", spec).
Proof.
  intros Hws Hne Hopt Hsp Hpipe Hrest spec.
  unfold parse_option_content. split.
  - rewrite skip_spaces_token by assumption.
    assert (Hnp : strstr (opt ++ " " ++ rest) "|" = None).
    { rewrite strstr_char. apply strchr_app_r; [assumption|].
      cbn [append strchr]. change (Ascii.eqb " " "|") with false.
      cbn iota. now rewrite Hrest. }
    rewrite Hnp.
    change (opt ++ " " ++ rest) with (opt ++ String " " rest).
    rewrite strchr_app_found, advance_S_app, strndup_app by assumption.
    destruct opt; [congruence | reflexivity].
  - assert (Hcontent : skip_spaces (ws ++ opt) = opt).
    { rewrite <- (append_nil_r opt) at 1.
      rewrite skip_spaces_token by assumption. apply append_nil_r. }
    rewrite Hcontent, strstr_char, Hpipe, Hsp.
    destruct opt; [congruence | reflexivity].
Qed.

(** X21. Without a pipe, the option grammar splits at the first space:
    [--name=<ARG> description] gives the token [--name=<ARG>], as
    description all that follows the space, unchanged, and the argument
    [ARG]; a token without angle brackets gives no argument, also when
    the description has some. *)
Theorem option_space_shape :
  forall ws name arg rest : string,
    all_chars isspace ws = true ->
    name <> "" ->
    all_chars is_option_char name = true ->
    all_chars is_option_char arg = true ->
    strchr rest "|" = None ->
    parse_option_content (ws ++ (name ++ "=<" ++ arg ++ ">") ++ " " ++ rest)
    = Some (name ++ "=<" ++ arg ++ ">", rest, Some arg)
    /\ parse_option_content (ws ++ name ++ " " ++ rest)
       = Some (name, rest, None).
Proof.
  intros ws name arg rest Hws Hne Hname Harg Hrest.
  assert (Hn : forall c, is_option_char c = false -> strchr name c = None)
    by (intros c; now apply all_chars_strchr).
  assert (Ha : forall c, is_option_char c = false -> strchr arg c = None)
    by (intros c; now apply all_chars_strchr).
  pose proof (option_chars_token name Hname Hne) as Htok.
  assert (Hfree : forall c, is_option_char c = false ->
            c <> "="%char -> c <> "<"%char -> c <> ">"%char ->
            strchr (name ++ "=<" ++ arg ++ ">") c = None).
  { intros c Hc H1 H2 H3. apply strchr_app_r; [now apply Hn|].
    change ("=<" ++ arg ++ ">") with ("=<" ++ (arg ++ ">")).
    apply strchr_app_r; [|apply strchr_app_r; [now apply Ha|]].
    - cbn [strchr]. destruct (Ascii.eqb "=" c) eqn:E1;
        [apply Ascii.eqb_eq in E1; congruence|].
      destruct (Ascii.eqb "<" c) eqn:E2;
        [apply Ascii.eqb_eq in E2; congruence | reflexivity].
    - cbn [strchr]. destruct (Ascii.eqb ">" c) eqn:E3;
        [apply Ascii.eqb_eq in E3; congruence | reflexivity]. }
  split.
  - destruct (parse_option_space ws (name ++ "=<" ++ arg ++ ">") rest)
      as [-> _]; try assumption.
    + destruct name; [congruence | discriminate].
    + destruct name as [|c t]; [congruence|].
      cbn [append]. apply skip_spaces_fix.
      eapply skip_spaces_head. exact Htok.
    + apply Hfree; [reflexivity | discriminate..].
    + apply Hfree; [reflexivity | discriminate..].
    + do 2 f_equal.
      change (name ++ "=<" ++ arg ++ ">")
        with (name ++ String "=" ("<" ++ arg ++ ">")).
      rewrite strchr_app_found, advance_app by (now apply Hn).
      apply angle_spec_argument. now apply Ha.
  - destruct (parse_option_space ws name rest) as [-> _]; try assumption;
      try (apply Hn; reflexivity).
    do 2 f_equal.
    rewrite (Hn "="%char eq_refl). apply angle_spec_none. now apply Hn.
Qed.

Lemma option_space_shape_witness :
  parse_option_content (" " ++ ("--file" ++ "=<" ++ "PATH" ++ ">") ++ " "
                        ++ " the <input> file")
  = Some ("--file=<PATH>", " the <input> file", Some "PATH")
  /\ parse_option_content (" " ++ "--file" ++ " " ++ " the <input> file")
     = Some ("--file", " the <input> file", None).
Proof.
  apply (option_space_shape " " "--file" "PATH" " the <input> file" eq_refl
           ltac:(discriminate) eq_refl eq_refl eq_refl).
Defined.

Lemma char_at_dash (n : nat) (s : string) :
  Ascii.eqb (char_at n s) "-" = true -> String.get n s = Some "-"%char.
Proof.
  unfold char_at. destruct (String.get n s) as [c|].
  - intros H. apply Ascii.eqb_eq in H. now subst.
  - discriminate.
Qed.

(** X22. [process_option_tag] stores an option only when its token starts
    with a dash: with one dash the token is the short form and there is
    no long form, with two dashes it is the long form and there is no
    short form.  Any other content is rejected and leaves the docblock as
    it was. *)
Theorem option_tag_needs_dash :
  forall (d : shellscribe_docblock_t) (content : string),
    let r := process_option_tag d content in
    (fst r = false /\ snd r = d)
    \/ (fst r = true
        /\ exists o tok,
             snd r = set_options (options d ++ [o]) d
             /\ String.get 0 tok = Some "-"%char
             /\ ((short_opt o = Some tok /\ long_opt o = None
                  /\ String.get 1 tok <> Some "-"%char)
                 \/ (long_opt o = Some tok /\ short_opt o = None
                     /\ String.get 1 tok = Some "-"%char))).
Proof.
  intros d content. unfold process_option_tag.
  destruct (parse_option_content content) as [[[option description] spec]|];
    [|left; now split].
  destruct (Ascii.eqb (char_at 0 option) "-") eqn:H0; cbn [andb];
    [|left; now split].
  apply char_at_dash in H0.
  destruct (Ascii.eqb (char_at 1 option) "-") eqn:H1; cbn [negb fst snd];
    right; (split; [reflexivity|]); eexists; exists option;
    (split; [reflexivity|]); (split; [exact H0|]).
  - right. apply char_at_dash in H1. now repeat split.
  - left. repeat split. intros E. unfold char_at in H1. rewrite E in H1.
    discriminate.
Qed.

(** *** Descriptions, deprecation and examples *)

Lemma process_description_keeps_name (d : shellscribe_docblock_t)
  (c : string) :
  function_name (snd (process_description_tag d c)) = function_name d.
Proof.
  unfold process_description_tag.
  destruct (function_name d) eqn:E, (description d),
           (function_description d); exact E.
Qed.

Lemma process_descriptions_file (more : list string)
  (d : shellscribe_docblock_t) (old : string) :
  function_name d = None -> description d = Some old ->
  description (process_descriptions d more)
  = Some (match more with
          | [] => old
          | _ => old ++ LF ++ String.concat LF more
          end).
Proof.
  revert d old. induction more as [|c more IH]; intros d old Hn Hd;
    [exact Hd|].
  unfold process_descriptions. cbn [fold_left].
  fold (process_descriptions (snd (process_description_tag d c)) more).
  rewrite (IH _ ((old ++ LF) ++ c)).
  - destruct more as [|c' more]; cbn [String.concat];
      now rewrite !append_assoc.
  - now rewrite process_description_keeps_name.
  - unfold process_description_tag. now rewrite Hn, Hd.
Qed.

Lemma process_descriptions_function (more : list string)
  (d : shellscribe_docblock_t) (old : string) :
  function_name d <> None -> function_description d = Some old ->
  function_description (process_descriptions d more)
  = Some (match more with
          | [] => old
          | _ => old ++ LF ++ String.concat LF more
          end).
Proof.
  revert d old. induction more as [|c more IH]; intros d old Hn Hd;
    [exact Hd|].
  unfold process_descriptions. cbn [fold_left].
  fold (process_descriptions (snd (process_description_tag d c)) more).
  rewrite (IH _ ((old ++ LF) ++ c)).
  - destruct more as [|c' more]; cbn [String.concat];
      now rewrite !append_assoc.
  - now rewrite process_description_keeps_name.
  - unfold process_description_tag.
    destruct (function_name d); [|congruence]. now rewrite Hd.
Qed.

(** X23. [process_description_tag] accumulates: called for one content
    after the other on a docblock that has no description yet, it leaves
    the contents joined by newlines, in the file description when the
    docblock has no function name and in the function description when
    it has one. *)
Theorem descriptions_accumulate :
  forall (d : shellscribe_docblock_t) (first : string) (more : list string),
    (function_name d = None -> description d = None ->
     description (process_descriptions d (first :: more))
     = Some (String.concat LF (first :: more)))
    /\ (function_name d <> None -> function_description d = None ->
        function_description (process_descriptions d (first :: more))
        = Some (String.concat LF (first :: more))).
Proof.
  intros d first more. split; intros Hn Hd.
  - unfold process_descriptions. cbn [fold_left].
    fold (process_descriptions (snd (process_description_tag d first)) more).
    rewrite (process_descriptions_file more _ first).
    + now destruct more.
    + now rewrite process_description_keeps_name.
    + unfold process_description_tag. now rewrite Hn, Hd.
  - unfold process_descriptions. cbn [fold_left].
    fold (process_descriptions (snd (process_description_tag d first)) more).
    rewrite (process_descriptions_function more _ first).
    + now destruct more.
    + now rewrite process_description_keeps_name.
    + unfold process_description_tag.
      destruct (function_name d); [|congruence]. now rewrite Hd.
Qed.

Lemma descriptions_accumulate_witness :
  description (process_descriptions init_docblock
                 ["Tools for archives"; "Needs tar"; "and gzip"])
  = Some ("Tools for archives" ++ LF ++ "Needs tar" ++ LF ++ "and gzip").
Proof.
  apply (proj1 (descriptions_accumulate init_docblock "Tools for archives"
                  ["Needs tar"; "and gzip"]) eq_refl eq_refl).
Defined.

(** [strstr] finds the first occurrence, and only fails when there is
    none. *)
Lemma strstr_occurrence (s p : string) (n : nat) :
  strstr s p = Some n ->
  exists pre rest, s = pre ++ p ++ rest /\ String.length pre = n.
Proof.
  revert n. induction s as [|a s IH]; intros n; cbn [strstr].
  - destruct (starts_with p "") eqn:E; [|discriminate].
    intros [= <-]. destruct (starts_with_split _ _ E) as [t Ht].
    now exists "", t.
  - destruct (starts_with p (String a s)) eqn:E.
    + intros [= <-]. destruct (starts_with_split _ _ E) as [t Ht].
      now exists "", t.
    + destruct (strstr s p) as [m|]; [|discriminate]. intros [= <-].
      destruct (IH m eq_refl) as (pre & rest & -> & Hlen).
      exists (String a pre), rest. split; [reflexivity|].
      cbn [String.length]. now rewrite Hlen.
Qed.

Lemma strstr_minimal (s p : string) (n : nat) :
  strstr s p = Some n ->
  forall pre rest, s = pre ++ p ++ rest -> n <= String.length pre.
Proof.
  revert n. induction s as [|a s IH]; intros n; cbn [strstr].
  - destruct (starts_with p ""); [|discriminate]. intros [= <-]. lia.
  - destruct (starts_with p (String a s)) eqn:E; [intros [= <-]; lia|].
    destruct (strstr s p) as [m|]; [|discriminate]. intros [= <-].
    intros [|b pre] rest Hs.
    + cbn [append] in Hs. rewrite Hs, starts_with_app in E.
      discriminate.
    + cbn [append] in Hs. injection Hs as _ Hs.
      cbn [String.length]. pose proof (IH m eq_refl pre rest Hs). lia.
Qed.

Lemma strstr_absent (s p : string) :
  strstr s p = None -> forall pre rest, s <> pre ++ p ++ rest.
Proof.
  induction s as [|a s IH]; cbn [strstr].
  - destruct (starts_with p "") eqn:E; [discriminate|].
    intros _ [|b pre] rest Hs; [|discriminate].
    cbn [append] in Hs. rewrite Hs, starts_with_app in E.
    discriminate.
  - destruct (starts_with p (String a s)) eqn:E; [discriminate|].
    destruct (strstr s p) as [m|] eqn:Hm; [discriminate|]. intros _.
    intros [|b pre] rest Hs.
    + cbn [append] in Hs. rewrite Hs, starts_with_app in E.
      discriminate.
    + cbn [append] in Hs. injection Hs as _ Hs.
      exact (IH eq_refl pre rest Hs).
Qed.

Lemma strstr_first (pre p rest : string) :
  (forall pre' rest', pre ++ p ++ rest = pre' ++ p ++ rest' ->
     String.length pre <= String.length pre') ->
  strstr (pre ++ p ++ rest) p = Some (String.length pre).
Proof.
  intros Hmin. destruct (strstr (pre ++ p ++ rest) p) as [n|] eqn:E.
  - destruct (strstr_occurrence _ _ _ E) as (pre0 & rest0 & Hs & Hlen).
    pose proof (strstr_minimal _ _ _ E pre rest eq_refl).
    pose proof (Hmin pre0 rest0 Hs). f_equal. lia.
  - now destruct (strstr_absent _ _ E pre rest).
Qed.

(** X24. [process_deprecated_tag] always succeeds and marks the docblock
    as deprecated, and changes nothing else but the version.  When the
    content has the word [from], the version is what follows its first
    occurrence and the whitespace after it; when it has none, the version
    is the whole content; and an empty content leaves the version as it
    was. *)
Theorem deprecated_version_after_from :
  forall (d : shellscribe_docblock_t) (content : string),
    let r := process_deprecated_tag d content in
    fst r = true
    /\ snd r = set_deprecation (deprecation (snd r)) d
    /\ is_deprecated (deprecation (snd r)) = true
    /\ replacement (deprecation (snd r)) = replacement (deprecation d)
    /\ eol (deprecation (snd r)) = eol (deprecation d)
    /\ (content = "" ->
        dep_version (deprecation (snd r)) = dep_version (deprecation d))
    /\ (forall pre rest,
          content = pre ++ "from" ++ rest ->
          (forall pre' rest',
             content = pre' ++ "from" ++ rest' ->
             String.length pre <= String.length pre') ->
          dep_version (deprecation (snd r)) = Some (skip_spaces rest))
    /\ (content <> "" ->
        (forall pre rest, content <> pre ++ "from" ++ rest) ->
        dep_version (deprecation (snd r)) = Some content).
Proof.
  intros d content r.
  assert (Hcases :
            (content = "" /\ r = (true, set_deprecation
                                          (set_is_deprecated true
                                             (deprecation d)) d))
            \/ (content <> ""
                /\ exists v,
                     r = (true, set_deprecation
                                  (set_dep_version (Some v)
                                     (set_is_deprecated true
                                        (deprecation d))) d)
                     /\ v = match strstr content "from" with
                            | Some from =>
                                skip_spaces (advance (from + 4) content)
                            | None => content
                            end)).
  { subst r. unfold process_deprecated_tag.
    destruct content as [|c t]; [left; now split | right].
    split; [discriminate|].
    destruct (strstr (String c t) "from"); eexists; split; reflexivity. }
  destruct Hcases as [[-> ->] | (Hne & v & -> & Hv)]; cbn [fst snd].
  - repeat split; try reflexivity; try congruence.
    intros [|b pre] rest Hs; discriminate Hs.
  - repeat split; try reflexivity; try congruence.
    + intros pre rest Hs Hmin. cbn. f_equal. rewrite Hv. subst content.
      rewrite strstr_first by exact Hmin.
      rewrite advance_add, advance_app. reflexivity.
    + intros _ Habs. cbn. f_equal. rewrite Hv.
      destruct (strstr content "from") as [n|] eqn:E; [|reflexivity].
      destruct (strstr_occurrence _ _ _ E) as (pre & rest & Hs & _).
      now destruct (Habs pre rest).
Qed.

Lemma deprecated_version_after_from_witness :
  dep_version
    (deprecation
       (snd (process_deprecated_tag init_docblock "effective from  2.0")))
  = Some "2.0"
  /\ dep_version
       (deprecation (snd (process_deprecated_tag init_docblock "for removal")))
     = Some "for removal".
Proof.
  pose proof (deprecated_version_after_from init_docblock
                "effective from  2.0")
    as (_ & _ & _ & _ & _ & _ & Hfrom & _).
  pose proof (deprecated_version_after_from init_docblock "for removal")
    as (_ & _ & _ & _ & _ & _ & _ & Hnone).
  split.
  - apply (Hfrom "effective " "  2.0" eq_refl).
    apply (strstr_minimal "effective from  2.0" "from" 10 eq_refl).
  - apply Hnone; [discriminate|].
    apply (strstr_absent "for removal" "from" eq_refl).
Defined.

Lemma example_loop_cons (pos rest : FILE) (raw acc : string) :
  example_loop pos (raw :: rest) acc
  = if is_continuation_line (chomp raw) then
      match strchr (chomp raw) "#" with
      | None => example_loop pos rest acc
      | Some hash =>
          example_loop rest rest
            (string_concat (string_concat acc LF)
               (advance (S hash) (chomp raw)))
      end
    else (acc, pos).
Proof. reflexivity. Qed.

Lemma example_loop_run (pre : list string) (rest : FILE) (acc : string) :
  Forall (fun raw => is_continuation_line (chomp raw) = true) pre ->
  (forall raw, head rest = Some raw ->
               is_continuation_line (chomp raw) = false) ->
  example_loop (pre ++ rest)%list (pre ++ rest)%list acc
  = (acc ++ example_text pre, rest).
Proof.
  intros Hpre Hrest. revert acc.
  induction Hpre as [|raw pre Hraw _ IH]; intros acc.
  - simpl. rewrite append_nil_r. destruct rest as [|raw tl]; [reflexivity|].
    rewrite example_loop_cons. now rewrite (Hrest raw eq_refl).
  - change ((raw :: pre) ++ rest)%list with (raw :: (pre ++ rest)%list).
    rewrite example_loop_cons, Hraw.
    assert (Hc : is_comment_line (chomp raw) = true).
    { unfold is_continuation_line in Hraw.
      now apply andb_true_iff in Hraw as [[Hc _]%andb_true_iff _]. }
    destruct (comment_line_hash _ Hc) as (k & -> & Hk).
    rewrite Hk, IH. unfold string_concat. cbn [example_text].
    now rewrite !append_assoc.
Qed.

(** X25. The body of an example is the content of its tag followed, for
    each line of the run of continuation lines after it, by a newline and
    all that follows the [#] of the line, its indentation included; the
    file is left before the line that ends the run. *)
Theorem example_keeps_indentation :
  forall (pre : list string) (rest : FILE) (content : string),
    Forall (fun raw => is_continuation_line (chomp raw) = true) pre ->
    (forall raw, head rest = Some raw ->
                 is_continuation_line (chomp raw) = false) ->
    process_example_tag (pre ++ rest)%list content
    = (content ++ example_text pre, rest).
Proof.
  intros pre rest content Hpre Hrest.
  unfold process_example_tag, string_duplicate.
  now apply example_loop_run.
Qed.

Lemma example_keeps_indentation_witness :
  process_example_tag
    (List.app ["#   if ready; then" ++ LF; "#     run" ++ LF]
              ["run() {" ++ LF]) ""
  = (LF ++ "   if ready; then" ++ LF ++ "     run", ["run() {" ++ LF]).
Proof.
  apply (example_keeps_indentation
           ["#   if ready; then" ++ LF; "#     run" ++ LF]
           ["run() {" ++ LF] "").
  - repeat constructor.
  - intros raw [= <-]. reflexivity.
Defined.

(** *** Shellcheck directives in the body loop *)

Lemma shellcheck_directive_not_tag (line : string) :
  is_shellcheck_directive line = true ->
  is_comment_line line = true /\ is_tag_line line = false.
Proof.
  unfold is_shellcheck_directive, is_comment_line, is_tag_line,
    static_is_tag_line, TAG_PREFIX.
  destruct (skip_spaces line) as [|c rest]; [discriminate|].
  destruct (Ascii.eqb c "#") eqn:Hc; [|discriminate].
  intros H. split; [reflexivity|].
  cbn [starts_with]. rewrite Ascii.eqb_sym, Hc. cbn [andb].
  destruct rest as [|a rest]; [reflexivity|].
  destruct (Ascii.eqb " " a) eqn:Ha; [|reflexivity]. cbn [andb].
  apply Ascii.eqb_eq in Ha. subst a.
  destruct rest as [|b rest]; [reflexivity|].
  destruct (Ascii.eqb "@" b) eqn:Hb; [|reflexivity].
  apply Ascii.eqb_eq in Hb. subst b.
  change (skip_spaces (String " " (String "@" rest)))
    with (String "@" rest) in H.
  discriminate H.
Qed.

(** X26. In the body loop a shellcheck directive is recorded in the
    current block when that is a function block, as one more directive
    holding the text of the comment; nothing else changes.  While the
    current block is the file block the line changes nothing at all. *)
Theorem shellcheck_line_in_body :
  forall (line : string) (e : engine_t) (block : shellscribe_docblock_t),
    is_shellcheck_directive line = true ->
    docblocks e !! current_block (state e) = Some block ->
    (current_block (state e) = 0 -> body_line line e = e)
    /\ (current_block (state e) <> 0 ->
        exists entry,
          sc_directive entry = Some (extract_shellcheck_directive line)
          /\ body_line line e
             = with_docblocks
                 (<[current_block (state e) :=
                      set_shellcheck_directives
                        (shellcheck_directives block ++ [entry]) block]>
                    (docblocks e)) e).
Proof.
  intros line e block Hsc Hb.
  destruct (shellcheck_directive_not_tag line Hsc) as [Hc Ht].
  rewrite body_line_unfold, Hc, Ht. unfold shellcheck_step.
  rewrite Hsc, Hb. split.
  - intros ->. reflexivity.
  - intros Hne. apply Nat.eqb_neq in Hne. rewrite Hne.
    unfold process_shellcheck_line, add_shellcheck_directive.
    rewrite Hsc. cbn [negb].
    destruct (parse_shellcheck_directive (extract_shellcheck_directive line))
      as [code reason].
    eexists. split; [|reflexivity]. reflexivity.
Qed.

Lemma shellcheck_line_in_body_witness :
  let e := {| docblocks :=
                [init_docblock;
                 set_function_name (Some "pack") init_docblock];
              state := {| file := []; current_block := 1;
                          line_number := 3; in_docblock := true |};
              block_count := 2 |} in
  exists entry,
    sc_directive entry
    = Some (extract_shellcheck_directive "# shellcheck disable=SC2086")
    /\ body_line "# shellcheck disable=SC2086" e
       = with_docblocks
           (<[1 := set_shellcheck_directives
                     (shellcheck_directives
                        (set_function_name (Some "pack") init_docblock)
                      ++ [entry])
                     (set_function_name (Some "pack") init_docblock)]>
              (docblocks e)) e.
Proof.
  intros e.
  apply (proj2 (shellcheck_line_in_body "# shellcheck disable=SC2086" e
                  (set_function_name (Some "pack") init_docblock)
                  eq_refl eq_refl)).
  discriminate.
Defined.
